(** * nextya-sync: the processor package, embedded and verified

    A shallow embedding of [processor/processor.go] (the reconciler
    [syncFolders], the folder chain creator [createFolderChain], the file
    transfer [syncFile], the snapshot builders and the orchestrator [Main])
    together with the pieces of the Go standard library it calls
    ([path.Base], [path.Dir], [strings.Trim], [strings.ReplaceAll],
    [url.QueryUnescape]).

    Go strings are byte strings: they are modelled as [string] (lists of
    [ascii]).  The two remotes are reached through the [cloudClient]
    interface only; they are modelled as arbitrary state transformers over
    a world type, and every call the processor issues is recorded in a
    trace. *)

From Stdlib Require Import ZArith Lia List Ascii String Bool.
From stdpp Require Import base option gmap strings list fin_maps.

Import ListNotations.
Local Open Scope string_scope.
Local Open Scope Z_scope.

(** ** Byte strings *)

Module GoString.

Definition bytes (s : string) : list ascii := list_ascii_of_string s.
Definition of_bytes (l : list ascii) : string := string_of_list_ascii l.

Definition slash : ascii := "/"%char.
Definition backslash : ascii := "\"%char.

Definition is_slash (c : ascii) : bool := Ascii.eqb c slash.

Fixpoint drop_while (p : ascii -> bool) (l : list ascii) : list ascii :=
  match l with
  | [] => []
  | c :: r => if p c then drop_while p r else l
  end.

Fixpoint take_while (p : ascii -> bool) (l : list ascii) : list ascii :=
  match l with
  | [] => []
  | c :: r => if p c then c :: take_while p r else []
  end.

(** [strings.ReplaceAll(s, "\\", "/")]: both patterns are one byte long,
    so the replacement is a byte-wise map. *)
Definition ReplaceAll_backslash (s : string) : string :=
  of_bytes (List.map (fun c => if Ascii.eqb c backslash then slash else c) (bytes s)).

(** [strings.Trim(s, "/")]: drops every leading and trailing slash. *)
Definition Trim_slash (s : string) : string :=
  of_bytes (rev (drop_while is_slash (rev (drop_while is_slash (bytes s))))).

(** [strings.Split(s, "/")] on bytes: the components between slashes,
    empty ones included; never the empty list. *)
Fixpoint split_slash (l : list ascii) : list (list ascii) :=
  match l with
  | [] => [[]]
  | c :: r =>
      if is_slash c then [] :: split_slash r
      else match split_slash r with
           | [] => [[c]]
           | x :: xs => (c :: x) :: xs
           end
  end.

(** [strings.Join(comps, "/")] on bytes. *)
Fixpoint join_slash (comps : list (list ascii)) : list ascii :=
  match comps with
  | [] => []
  | [x] => x
  | x :: xs => x ++ slash :: join_slash xs
  end.

End GoString.

(** ** Package [path] *)

Module path.
Import GoString.

(** [path.Base]: the last element of the path.  Trailing slashes are
    removed first; the empty path gives ["."], a path of slashes only
    gives ["/"]. *)
Definition Base (p : string) : string :=
  if String.eqb p "" then "."
  else
    (* strip trailing slashes *)
    let stripped := drop_while is_slash (rev (bytes p)) in
    (* keep what follows the last slash *)
    let last := rev (take_while (fun c => negb (is_slash c)) stripped) in
    match last with
    | [] => "/"
    | _ => of_bytes last
    end.

(** [path.Split]: the directory part, up to and including the last
    slash (empty when there is no slash). *)
Definition Split_dir (p : string) : list ascii :=
  rev (drop_while (fun c => negb (is_slash c)) (rev (bytes p))).

Definition dot : list ascii := ["."%char].
Definition dotdot : list ascii := ["."%char; "."%char].

Definition bytes_eqb (a b : list ascii) : bool :=
  String.eqb (of_bytes a) (of_bytes b).

(** The loop of [path.Clean], one path element at a time.  [out] is the
    stack of elements written so far (last one first); [dd] is the number
    of elements at the bottom of the stack that a [".."] must not remove
    (the leading run of [".."] of a path that is not rooted: the [dotdot]
    index of the Go code). *)
Fixpoint clean_loop (rooted : bool) (comps : list (list ascii))
         (out : list (list ascii)) (dd : nat) : list (list ascii) :=
  match comps with
  | [] => out
  | c :: rest =>
      if bytes_eqb c [] then clean_loop rooted rest out dd          (* empty element *)
      else if bytes_eqb c dot then clean_loop rooted rest out dd    (* . element *)
      else if bytes_eqb c dotdot then                               (* .. element *)
        if Nat.ltb dd (length out) then clean_loop rooted rest (tl out) dd
        else if rooted then clean_loop rooted rest out dd
        else clean_loop rooted rest (dotdot :: out) (S (length out))
      else clean_loop rooted rest (c :: out) dd                     (* real element *)
  end.

(** [path.Clean]: the shortest path equivalent to [p] by purely lexical
    processing. *)
Definition Clean_bytes (p : list ascii) : list ascii :=
  match p with
  | [] => dot
  | c :: _ =>
      let rooted := is_slash c in
      let out := rev (clean_loop rooted (split_slash p) [] 0) in
      if rooted then slash :: join_slash out
      else match out with
           | [] => dot
           | _ => join_slash out
           end
  end.

Definition Clean (p : string) : string := of_bytes (Clean_bytes (bytes p)).

(** [path.Dir]: all but the last element of the path, cleaned. *)
Definition Dir (p : string) : string := of_bytes (Clean_bytes (Split_dir p)).

End path.

(** ** Errors

    A Go [error] value.  The remotes fail with one of the kinds of the
    error taxonomy; [fmt.Errorf] with [%w] wraps a cause under a message;
    [url.QueryUnescape] fails with an [EscapeError] that carries the
    offending bytes. *)

Inductive error : Type :=
| NotFound
| AlreadyExists
| RemoteUnavailable
| EscapeError (s : string)
| ErrorNew (msg : string)
| Errorf (msg : string) (cause : error).

(** [errors.Unwrap], iterated: the innermost cause. *)
Fixpoint root_cause (e : error) : error :=
  match e with
  | Errorf _ c => root_cause c
  | _ => e
  end.

(** A Go result pair [(v, err)]: either the value or the error. *)
Definition result (A : Type) : Type := A + error.

(** ** Package [net/url]: [QueryUnescape] *)

Module url.
Import GoString.

Definition in_range (lo hi : ascii) (c : ascii) : bool :=
  (N.leb (N_of_ascii lo) (N_of_ascii c) && N.leb (N_of_ascii c) (N_of_ascii hi))%bool.

Definition ishex (c : ascii) : bool :=
  (in_range "0" "9" c || in_range "a" "f" c || in_range "A" "F" c)%bool.

Definition unhex (c : ascii) : N :=
  if in_range "0" "9" c then (N_of_ascii c - N_of_ascii "0")%N
  else if in_range "a" "f" c then (N_of_ascii c - N_of_ascii "a" + 10)%N
  else if in_range "A" "F" c then (N_of_ascii c - N_of_ascii "A" + 10)%N
  else 0%N.

Definition percent : ascii := "%"%char.
Definition plus : ascii := "+"%char.
Definition space : ascii := " "%char.

(** First pass of [unescape]: every [%] must be followed by two
    hexadecimal digits; otherwise the error carries at most three bytes
    starting at the [%]. *)
Fixpoint validate (l : list ascii) : option (list ascii) :=
  match l with
  | [] => None
  | c :: r =>
      if Ascii.eqb c percent then
        match r with
        | a :: b :: r' =>
            if (ishex a && ishex b)%bool then validate r'
            else Some [c; a; b]
        | _ => Some l
        end
      else validate r
  end.

(** Second pass of [unescape] in query-component mode: [%XY] becomes the
    byte [unhex X << 4 | unhex Y], [+] becomes a space. *)
Fixpoint decode (l : list ascii) : list ascii :=
  match l with
  | [] => []
  | c :: r =>
      if Ascii.eqb c percent then
        match r with
        | a :: b :: r' =>
            ascii_of_N (N.lor (N.shiftl (unhex a) 4) (unhex b)) :: decode r'
        | _ => c :: decode r
        end
      else if Ascii.eqb c plus then space :: decode r
      else c :: decode r
  end.

Definition QueryUnescape (s : string) : result string :=
  match validate (bytes s) with
  | Some bad => inr (EscapeError (of_bytes bad))
  | None => inl (of_bytes (decode (bytes s)))
  end.

End url.

(** ** Package [models] *)

(** A [time.Time] instant, as nanoseconds since the epoch. *)
Definition Time : Type := Z.

(** [t.After(u)]: [t] is strictly after [u]. *)
Definition After (t u : Time) : bool := Z.ltb u t.

(** The zero [time.Time]. *)
Definition zeroTime : Time := 0.

Module models.

Record File : Type := mkFile {
  FilePath : string;
  FileModified : Time;
}.

#[local] Unset Elimination Schemes.
Inductive Folder : Type := mkFolder {
  Path : string;
  Modified : Time;
  Files : list File;
  Folders : list Folder;
}.
#[local] Set Elimination Schemes.

Record FileInfo : Type := mkFileInfo {
  Name : string;
  InfoPath : string;
  Size : Z;
  IsDir : bool;
  ModTime : Time;
  ETag : string;
  ContentType : string;
  DownloadURL : string;
}.

(** [models.Folder{Path: p}]: every other field has its zero value. *)
Definition emptyFolder (p : string) : Folder := mkFolder p zeroTime [] [].

(** The zero [models.Folder{}]. *)
Definition zeroFolder : Folder := emptyFolder "".

End models.
Import models.

(** Induction over a folder tree: the property holds for a folder as soon
    as it holds for every one of its subfolders. *)
Fixpoint Folder_ind (P : Folder -> Prop)
    (IH : forall p m files folders, Forall P folders -> P (mkFolder p m files folders))
    (f : Folder) {struct f} : P f :=
  match f with
  | mkFolder p m files folders =>
      IH p m files folders
         ((fix all (l : list Folder) : Forall P l :=
             match l with
             | [] => @List.Forall_nil _ P
             | x :: r => @List.Forall_cons _ P x r (Folder_ind P IH x) (all r)
             end) folders)
  end.

(** The number of files of a folder tree, subfolders included. *)
Fixpoint countFiles (f : Folder) : nat :=
  match f with
  | mkFolder _ _ files folders => length files + list_sum (map countFiles folders)
  end.

(** ** Package [processor] *)

(** Go's [int] on the 64-bit platforms the tool is built for: two's
    complement, wrapping on overflow. *)
Definition int_min : Z := - 2 ^ 63.
Definition int_max : Z := 2 ^ 63 - 1.
Definition wrap_int (z : Z) : Z := (z + 2 ^ 63) mod 2 ^ 64 - 2 ^ 63.

(** [x++] on an [int]. *)
Definition incr (x : Z) : Z := wrap_int (x + 1).

(** SyncStats synchronization statistics *)
Record SyncStats : Type := mkSyncStats {
  TotalFiles : Z;
  UploadedFiles : Z;
  SkippedFiles : Z;
  ErrorFiles : Z;
}.

(** [&SyncStats{}] *)
Definition zeroStats : SyncStats := mkSyncStats 0 0 0 0.

(** Config holds configuration for the synchronization processor *)
Record Config : Type := mkConfig {
  YandexTargetPath : string;
  NextcloudSyncPaths : list string;
}.

(** The content of an [io.ReadCloser], as the bytes it delivers. *)
Definition ReadCloser : Type := string.

(** The [cloudClient] interface.  A remote is a state transformer over a
    world [W] that the processor cannot inspect: each method takes the
    world before the call and gives its result with the world after it. *)
Record cloudClient (W : Type) : Type := mkClient {
  ListFiles : string -> W -> result (list FileInfo) * W;
  DownloadFile : string -> W -> result ReadCloser * W;
  UploadFile : string -> ReadCloser -> Z -> W -> option error * W;
  CreateFolder : string -> W -> option error * W;
  GetFileInfo : string -> W -> result FileInfo * W;
}.
Arguments ListFiles {W}.
Arguments DownloadFile {W}.
Arguments UploadFile {W}.
Arguments CreateFolder {W}.
Arguments GetFileInfo {W}.

(** Which of the two remotes of a [Processor] a call goes to. *)
Inductive Remote : Type := Yandex | Nextcloud.

Inductive Op : Type :=
| OpListFiles | OpDownloadFile | OpUploadFile | OpCreateFolder | OpGetFileInfo | OpClose.

(** One call issued by the processor: the remote, the method, the path it
    was given and whether it returned without error. *)
Record Call : Type := mkCall {
  remote : Remote;
  op : Op;
  target : string;
  succeeded : bool;
}.

Definition Remote_eqb (a b : Remote) : bool :=
  match a, b with
  | Yandex, Yandex | Nextcloud, Nextcloud => true
  | _, _ => false
  end.

Definition Op_eqb (a b : Op) : bool :=
  match a, b with
  | OpListFiles, OpListFiles | OpDownloadFile, OpDownloadFile
  | OpUploadFile, OpUploadFile | OpCreateFolder, OpCreateFolder
  | OpGetFileInfo, OpGetFileInfo | OpClose, OpClose => true
  | _, _ => false
  end.

(** [is_mkdir c]: the call is a [CreateFolder] on the Yandex remote. *)
Definition is_mkdir (c : Call) : bool :=
  (Remote_eqb (remote c) Yandex && Op_eqb (op c) OpCreateFolder)%bool.

(** [is_transfer c]: the call belongs to a file transfer. *)
Definition is_write (c : Call) : bool := Op_eqb (op c) OpUploadFile.

Definition is_ok {A : Type} (r : result A) : bool :=
  match r with inl _ => true | inr _ => false end.

Definition is_nil (e : option error) : bool :=
  match e with None => true | Some _ => false end.

(** [lookup_failed path]: the metadata lookup of [path] on the Yandex
    remote, answered with an error. *)
Definition lookup_failed (path : string) : Call :=
  mkCall Yandex OpGetFileInfo path false.

(** Every [CreateFolder] of a run of calls comes after a metadata lookup
    of the same path, in the same run, that found nothing. *)
Definition mkdir_after_failed_lookup (calls : list Call) : Prop :=
  forall (before after : list Call) (c : Call),
    calls = (before ++ c :: after)%list ->
    is_mkdir c = true ->
    lookup_failed (target c) ∈ before.

(** [resolves c path w]: the metadata lookup of [path] succeeds in the
    world [w]. *)
Definition resolves {W : Type} (c : cloudClient W) (path : string) (w : W) : Prop :=
  exists info w', GetFileInfo c path w = (inl info, w').

(** [under base c]: if the call is an upload, it writes below [base]. *)
Definition under (base : string) (c : Call) : Prop :=
  is_write c = true -> exists rest, target c = base ++ "/" ++ rest.

(** [under_some bases c]: if the call is an upload, it writes below one
    of [bases]. *)
Definition under_some (bases : list string) (c : Call) : Prop :=
  is_write c = true ->
  exists base rest, base ∈ bases /\ target c = base ++ "/" ++ rest.

(** [no_write c]: the call is not an upload. *)
Definition no_write (c : Call) : Prop := is_write c = false.

Section Processor.

Context {W : Type}.

(** Processor handles synchronization between cloud storage services *)
Record Processor : Type := NewProcessor {
  yandexClient : cloudClient W;
  nextcloudClient : cloudClient W;
}.

Variable p : Processor.

(** What a run of the processor can change: the world behind the two
    remotes, the trace of the calls issued so far, and the one
    [SyncStats] value that [Main] allocates and [syncFolders] updates
    through its [stats] pointer. *)
Record State : Type := mkState {
  world : W;
  trace : list Call;
  stats : SyncStats;
}.

Definition client (r : Remote) : cloudClient W :=
  match r with
  | Yandex => yandexClient p
  | Nextcloud => nextcloudClient p
  end.

Definition logged (r : Remote) (o : Op) (path : string) (ok : bool)
           (w : W) (st : State) : State :=
  mkState w (trace st ++ [mkCall r o path ok]) (stats st).

Definition callListFiles (r : Remote) (path : string) (st : State)
  : result (list FileInfo) * State :=
  let '(res, w) := ListFiles (client r) path (world st) in
  (res, logged r OpListFiles path (is_ok res) w st).

Definition callDownloadFile (r : Remote) (path : string) (st : State)
  : result ReadCloser * State :=
  let '(res, w) := DownloadFile (client r) path (world st) in
  (res, logged r OpDownloadFile path (is_ok res) w st).

Definition callUploadFile (r : Remote) (path : string) (content : ReadCloser)
           (size : Z) (st : State) : option error * State :=
  let '(err, w) := UploadFile (client r) path content size (world st) in
  (err, logged r OpUploadFile path (is_nil err) w st).

Definition callCreateFolder (r : Remote) (path : string) (st : State)
  : option error * State :=
  let '(err, w) := CreateFolder (client r) path (world st) in
  (err, logged r OpCreateFolder path (is_nil err) w st).

Definition callGetFileInfo (r : Remote) (path : string) (st : State)
  : result FileInfo * State :=
  let '(res, w) := GetFileInfo (client r) path (world st) in
  (res, logged r OpGetFileInfo path (is_ok res) w st).

(** [reader.Close()] on the stream of a download from [r]. *)
Definition closeReader (r : Remote) (path : string) (st : State) : State :=
  logged r OpClose path true (world st) st.

(** [adds P st st']: the trace of [st'] is the trace of [st] followed by
    calls that all satisfy [P]. *)
Definition adds (P : Call -> Prop) (st st' : State) : Prop :=
  exists calls, trace st' = (trace st ++ calls)%list /\ forall c, c ∈ calls -> P c.

(** The first statement of [createFolderChain]:
    [strings.Trim(strings.ReplaceAll(folderPath, "\\", "/"), "/")]. *)
Definition normalizePath (folderPath : string) : string :=
  GoString.Trim_slash (GoString.ReplaceAll_backslash folderPath).

(** [parentPath != "." && parentPath != "/" && parentPath != folderPath] *)
Definition hasParent (parentPath folderPath : string) : bool :=
  (negb (String.eqb parentPath ".") && negb (String.eqb parentPath "/")
   && negb (String.eqb parentPath folderPath))%bool.

(** createFolderChain creates a chain of folders recursively.  The
    recursion is on the parent path, which is shorter than the path;
    [depth] bounds the number of nested calls ([createFolderChain] below
    gives it the length of the path, which is never used up, see
    [createFolderChain_depth_enough]). *)
Fixpoint createFolderChain_rec (depth : nat) (folderPath : string) (st : State)
  : option error * State :=
  let folderPath := normalizePath folderPath in
  if String.eqb folderPath "" then (None, st)
  else
    (* Check if folder already exists *)
    let '(info, st1) := callGetFileInfo Yandex folderPath st in
    match info with
    | inl _ => (None, st1)
    | inr _ =>
        let parentPath := path.Dir folderPath in
        let '(createErr, st2) :=
          if hasParent parentPath folderPath then
            match depth with
            | O => (Some (ErrorNew "unreachable"), st1)
            | S d => createFolderChain_rec d parentPath st1
            end
          else (None, st1) in
        match createErr with
        | Some e =>
            (Some (Errorf ("failed to create parent folder " ++ parentPath) e), st2)
        | None =>
            (* Create current folder *)
            let '(err, st3) := callCreateFolder Yandex folderPath st2 in
            match err with
            | Some e => (Some (Errorf ("failed to create folder " ++ folderPath) e), st3)
            | None => (None, st3)
            end
        end
    end.

Definition createFolderChain (folderPath : string) (st : State)
  : option error * State :=
  createFolderChain_rec (String.length folderPath) folderPath st.

(** The decoding step that [syncFolders] and [syncFile] both perform on a
    base name: [url.QueryUnescape], and the name as it is when that
    fails. *)
Definition decodeName (name : string) : string :=
  match url.QueryUnescape name with
  | inl decoded => decoded
  | inr _ => name
  end.

(** syncFile synchronizes individual file *)
Definition syncFile (ncFilePath yandexBasePath fileName : string) (st : State)
  : option error * State :=
  let decodedFileName := decodeName fileName in
  (* Download file from Nextcloud *)
  let '(rd, st1) := callDownloadFile Nextcloud ncFilePath st in
  match rd with
  | inr err => (Some (Errorf "failed to download file from Nextcloud" err), st1)
  | inl reader =>
      (* Get file info for size; the deferred Close runs on every return *)
      let '(info, st2) := callGetFileInfo Nextcloud ncFilePath st1 in
      match info with
      | inr err =>
          (Some (Errorf "failed to get file info from Nextcloud" err),
           closeReader Nextcloud ncFilePath st2)
      | inl ncFileInfo =>
          (* Upload file to Yandex Disk with decoded name *)
          let yandexFilePath := yandexBasePath ++ "/" ++ decodedFileName in
          let '(uerr, st3) :=
            callUploadFile Yandex yandexFilePath reader (Size ncFileInfo) st2 in
          match uerr with
          | Some err =>
              (Some (Errorf "failed to upload file to Yandex Disk" err),
               closeReader Nextcloud ncFilePath st3)
          | None => (None, closeReader Nextcloud ncFilePath st3)
          end
      end
  end.

(** Updates of the statistics through the [stats] pointer. *)
Definition withStats (f : SyncStats -> SyncStats) (st : State) : State :=
  mkState (world st) (trace st) (f (stats st)).

Definition incTotal (s : SyncStats) : SyncStats :=
  mkSyncStats (incr (TotalFiles s)) (UploadedFiles s) (SkippedFiles s) (ErrorFiles s).
Definition incUploaded (s : SyncStats) : SyncStats :=
  mkSyncStats (TotalFiles s) (incr (UploadedFiles s)) (SkippedFiles s) (ErrorFiles s).
Definition incSkipped (s : SyncStats) : SyncStats :=
  mkSyncStats (TotalFiles s) (UploadedFiles s) (incr (SkippedFiles s)) (ErrorFiles s).
Definition incError (s : SyncStats) : SyncStats :=
  mkSyncStats (TotalFiles s) (UploadedFiles s) (SkippedFiles s) (incr (ErrorFiles s)).

(** The accounting invariant of the counters: none is negative and every
    file counted in [TotalFiles] is counted in exactly one of the others. *)
Definition stats_ok (s : SyncStats) : Prop :=
  0 <= UploadedFiles s /\ 0 <= SkippedFiles s /\ 0 <= ErrorFiles s /\
  TotalFiles s = UploadedFiles s + SkippedFiles s + ErrorFiles s.

(** No counter of [s'] is below its value in [s]. *)
Definition stats_le (s s' : SyncStats) : Prop :=
  TotalFiles s <= TotalFiles s' /\ UploadedFiles s <= UploadedFiles s' /\
  SkippedFiles s <= SkippedFiles s' /\ ErrorFiles s <= ErrorFiles s'.

(** [yandexFiles]: the Yandex Disk files map for quick lookup, filled in
    listing order (a later file of the same base name replaces an
    earlier one). *)
Definition filesByName (files : list File) : gmap string File :=
  fold_left (fun m file => <[path.Base (FilePath file) := file]> m) files ∅.

(** [yandexFolders]: the Yandex Disk folders map. *)
Definition foldersByName (folders : list Folder) : gmap string Folder :=
  fold_left (fun m folder => <[path.Base (Path folder) := folder]> m) folders ∅.

(** The value of the local variable [needsSync] once the lookup and the
    comparison of the modification dates are done. *)
Definition needsSync (yandexFiles : gmap string File) (ncFile : File) : bool :=
  let fileName := path.Base (FilePath ncFile) in
  let decodedFileName := decodeName fileName in
  match yandexFiles !! decodedFileName with
  | None => true
  | Some yandexFile => After (FileModified ncFile) (FileModified yandexFile)
  end.

(** The body of the loop over [ncFolder.Files]. *)
Definition syncFolders_file (yandexFiles : gmap string File)
           (yandexBasePath : string) (st : State) (ncFile : File) : State :=
  let st := withStats incTotal st in
  let fileName := path.Base (FilePath ncFile) in
  (* Decode filename for comparison and logging *)
  let decodedFileName := decodeName fileName in
  (* Check if file needs synchronization (compare with decoded name) *)
  let '(needsSync, st) :=
    match yandexFiles !! decodedFileName with
    | None => (true, st)
    | Some yandexFile =>
        (* Compare modification dates *)
        if After (FileModified ncFile) (FileModified yandexFile) then (true, st)
        else (false, withStats incSkipped st)
    end in
  if needsSync : bool then
    let '(err, st) := syncFile (FilePath ncFile) yandexBasePath fileName st in
    match err with
    | Some _ => withStats incError st
    | None => withStats incUploaded st
    end
  else st.

(** The body of the loop over [ncFolder.Folders]; [recurse] stands for
    [p.syncFolders(ctx, ncSubFolder, ...)], the recursive call on the
    subfolder at hand. *)
Definition syncFolders_subfolder (yandexFolders : gmap string Folder)
           (yandexBasePath : string)
           (recurse : Folder -> string -> State -> option error * State)
           (st : State) (ncSubFolder : Folder) : State :=
  let subFolderName := path.Base (Path ncSubFolder) in
  (* Decode folder name *)
  let decodedFolderName := decodeName subFolderName in
  let yandexSubFolderPath := yandexBasePath ++ "/" ++ decodedFolderName in
  (* Check if folder exists in Yandex Disk (compare with decoded name) *)
  match yandexFolders !! decodedFolderName with
  | Some yandexSubFolder =>
      (* the error of the recursive call is logged, nothing else *)
      snd (recurse yandexSubFolder yandexSubFolderPath st)
  | None =>
      let '(err, st) := createFolderChain yandexSubFolderPath st in
      match err with
      | Some _ => st                                   (* continue *)
      | None =>
          (* Create empty structure for new folder *)
          let yandexSubFolder := emptyFolder yandexSubFolderPath in
          snd (recurse yandexSubFolder yandexSubFolderPath st)
      end
  end.

(** syncFolders synchronizes folders recursively *)
Fixpoint syncFolders (ncFolder yandexFolder : Folder) (yandexBasePath : string)
         (st : State) {struct ncFolder} : option error * State :=
  match ncFolder with
  | mkFolder _ _ ncFiles ncFolders =>
      let yandexFiles := filesByName (Files yandexFolder) in
      let yandexFolders := foldersByName (Folders yandexFolder) in
      (* Synchronize files *)
      let st := fold_left (syncFolders_file yandexFiles yandexBasePath) ncFiles st in
      (* Recursively synchronize subfolders *)
      let st :=
        fold_left
          (fun st ncSubFolder =>
             syncFolders_subfolder yandexFolders yandexBasePath
               (syncFolders ncSubFolder) st ncSubFolder)
          ncFolders st in
      (None, st)
  end.

(** The loop of the snapshot builders over the entries of a listing;
    [recurse] stands for the recursive call on a directory entry.  A
    directory becomes a subfolder, any other entry a file; the first
    error ends the loop.  [None]: the recursive call did not return. *)
Fixpoint getFileSystem_entries
         (recurse : string -> State -> option (result Folder * State))
         (files : list FileInfo) (folder : Folder) (st : State)
  : option (result Folder * State) :=
  match files with
  | [] => Some (inl folder, st)
  | file :: rest =>
      if IsDir file then
        match recurse (InfoPath file) st with
        | None => None
        | Some (inr err, st) => Some (inr err, st)
        | Some (inl subFolder, st) =>
            getFileSystem_entries recurse rest
              (mkFolder (Path folder) (Modified folder) (Files folder)
                        (Folders folder ++ [subFolder])) st
        end
      else
        getFileSystem_entries recurse rest
          (mkFolder (Path folder) (Modified folder)
                    (Files folder ++ [mkFile (InfoPath file) (ModTime file)])
                    (Folders folder)) st
  end.

(** [getYandexFileSystem] and [getNextcloudFileSystem] are the same
    function up to the client they list with.  The recursion follows
    the directories that the remote reports, which nothing bounds:
    [depth] is the number of nested listings allowed, and [None] says
    that it was used up (the Go code would still be recursing). *)
Fixpoint getFileSystem (r : Remote) (depth : nat) (rootPath : string) (st : State)
  : option (result Folder * State) :=
  match depth with
  | O => None
  | S d =>
      let '(listed, st) := callListFiles r rootPath st in
      match listed with
      | inr err => Some (inr err, st)
      | inl files =>
          getFileSystem_entries (getFileSystem r d) files (emptyFolder rootPath) st
      end
  end.

Definition getYandexFileSystem := getFileSystem Yandex.
Definition getNextcloudFileSystem := getFileSystem Nextcloud.

(** The target path in Yandex Disk that [Main] determines for one sync
    path: the target folder itself if only one path is configured, a
    subfolder named after the sync path otherwise. *)
Definition targetPathFor (cfg : Config) (syncPath : string) : string :=
  let yandexTargetPath := YandexTargetPath cfg in
  if Nat.eqb (length (NextcloudSyncPaths cfg)) 1 then
    (* If only one path, sync directly to target folder *)
    yandexTargetPath
  else
    (* If multiple paths, create subfolder based on the sync path name *)
    let pathName := path.Base syncPath in
    let pathName :=
      if (String.eqb pathName "/" || String.eqb pathName ".")%bool then "root"
      else pathName in
    yandexTargetPath ++ "/" ++ pathName.

(** The body of the loop of [Main] over [cfg.NextcloudSyncPaths]; every
    failure in it ends in [continue]. *)
Definition Main_syncPath (depth : nat) (cfg : Config) (yndxFs : Folder)
           (syncPath : string) (st : State) : option State :=
  let yandexTargetPath := YandexTargetPath cfg in
  (* Get file structure from Nextcloud for this specific path *)
  match getNextcloudFileSystem depth syncPath st with
  | None => None
  | Some (inr _, st) => Some st                               (* continue *)
  | Some (inl ncFs, st) =>
      (* Determine target path in Yandex Disk *)
      let targetPath := targetPathFor cfg syncPath in
      (* Get or create corresponding Yandex folder structure *)
      if String.eqb targetPath yandexTargetPath then
        Some (snd (syncFolders ncFs yndxFs targetPath st))
      else
        (* Try to get existing folder or create new one *)
        match getYandexFileSystem depth targetPath st with
        | None => None
        | Some (inr _, st) =>
            let '(createErr, st) := callCreateFolder Yandex targetPath st in
            match createErr with
            | Some _ => Some st                               (* continue *)
            | None =>
                Some (snd (syncFolders ncFs (emptyFolder targetPath) targetPath st))
            end
        | Some (inl existingFs, st) =>
            Some (snd (syncFolders ncFs existingFs targetPath st))
        end
  end.

Fixpoint Main_loop (depth : nat) (cfg : Config) (yndxFs : Folder)
         (syncPaths : list string) (st : State) : option State :=
  match syncPaths with
  | [] => Some st
  | syncPath :: rest =>
      match Main_syncPath depth cfg yndxFs syncPath st with
      | None => None
      | Some st => Main_loop depth cfg yndxFs rest st
      end
  end.

(** Main main function for synchronizing files from Nextcloud to Yandex
    Disk.  [None]: a snapshot needed more than [depth] nested listings. *)
Definition Main (depth : nat) (cfg : Config) (st : State)
  : option (option error * State) :=
  (* Validate configuration *)
  if Nat.eqb (length (NextcloudSyncPaths cfg)) 0 then
    Some (Some (ErrorNew "no Nextcloud sync paths specified"), st)
  else
    (* Get file structure from Yandex Disk *)
    let yandexTargetPath := YandexTargetPath cfg in
    match getYandexFileSystem depth yandexTargetPath st with
    | None => None
    | Some (got, st) =>
        let resolved : result Folder * State :=
          match got with
          | inl yndxFs => (inl yndxFs, st)
          | inr _ =>
              (* Create target folder chain if it doesn't exist *)
              let '(createErr, st) := createFolderChain yandexTargetPath st in
              match createErr with
              | Some e =>
                  (inr (Errorf "failed to create target folder chain in Yandex Disk" e), st)
              | None => (inl (emptyFolder yandexTargetPath), st)   (* empty structure *)
              end
          end in
        match resolved with
        | (inr fatal, st) => Some (Some fatal, st)
        | (inl yndxFs, st) =>
            (* Synchronize each specified path *)
            let st := withStats (fun _ => zeroStats) st in
            match Main_loop depth cfg yndxFs (NextcloudSyncPaths cfg) st with
            | None => None
            | Some st => Some (None, st)
            end
        end
    end.

(** [syncs_root depth rootPath yndxFs target syncPath st st']: from [st]
    to [st'] the source root [syncPath] is synced into the destination
    folder [target], or left out.  It is left out when its snapshot on
    Nextcloud cannot be taken, or when [target] can neither be read nor
    be created.  Otherwise its snapshot is reconciled with base path
    [target]: against [yndxFs], the snapshot of the destination root
    [rootPath], when [target] is the destination root itself; against
    the snapshot of [target] taken for this root when that folder is
    there; against the empty folder when it had to be created. *)
Inductive syncs_root (depth : nat) (rootPath : string) (yndxFs : Folder)
          (target syncPath : string) (st st' : State) : Prop :=
| source_unreadable (e : error) :
    getNextcloudFileSystem depth syncPath st = Some (inr e, st') ->
    syncs_root depth rootPath yndxFs target syncPath st st'
| synced_into_root (ncFs : Folder) (st1 : State) :
    getNextcloudFileSystem depth syncPath st = Some (inl ncFs, st1) ->
    target = rootPath ->
    st' = snd (syncFolders ncFs yndxFs target st1) ->
    syncs_root depth rootPath yndxFs target syncPath st st'
| synced_into_existing (ncFs existingFs : Folder) (st1 st2 : State) :
    getNextcloudFileSystem depth syncPath st = Some (inl ncFs, st1) ->
    target <> rootPath ->
    getYandexFileSystem depth target st1 = Some (inl existingFs, st2) ->
    st' = snd (syncFolders ncFs existingFs target st2) ->
    syncs_root depth rootPath yndxFs target syncPath st st'
| synced_into_created (ncFs : Folder) (e : error) (st1 st2 st3 : State) :
    getNextcloudFileSystem depth syncPath st = Some (inl ncFs, st1) ->
    target <> rootPath ->
    getYandexFileSystem depth target st1 = Some (inr e, st2) ->
    callCreateFolder Yandex target st2 = (None, st3) ->
    st' = snd (syncFolders ncFs (emptyFolder target) target st3) ->
    syncs_root depth rootPath yndxFs target syncPath st st'
| target_uncreatable (ncFs : Folder) (e e' : error) (st1 st2 : State) :
    getNextcloudFileSystem depth syncPath st = Some (inl ncFs, st1) ->
    target <> rootPath ->
    getYandexFileSystem depth target st1 = Some (inr e, st2) ->
    callCreateFolder Yandex target st2 = (Some e', st') ->
    syncs_root depth rootPath yndxFs target syncPath st st'.

(** The source roots one after the other, in the order of the list, each
    into the destination folder that [targetOf] gives it. *)
Fixpoint syncs_roots (depth : nat) (rootPath : string) (yndxFs : Folder)
         (targetOf : string -> string) (syncPaths : list string) (st st' : State) : Prop :=
  match syncPaths with
  | [] => st' = st
  | syncPath :: rest =>
      exists st1 : State,
        syncs_root depth rootPath yndxFs (targetOf syncPath) syncPath st st1 /\
        syncs_roots depth rootPath yndxFs targetOf rest st1 st'
  end.

(** The snapshot of the destination root that a run starts from: the
    one read from Yandex Disk or, when it cannot be read and the folder
    chain of the root was created, the empty folder. *)
Definition root_snapshot (depth : nat) (rootPath : string) (st : State)
           (yndxFs : Folder) (st0 : State) : Prop :=
  getYandexFileSystem depth rootPath st = Some (inl yndxFs, st0) \/
  exists (e : error) (st1 : State),
    getYandexFileSystem depth rootPath st = Some (inr e, st1) /\
    createFolderChain rootPath st1 = (None, st0) /\
    yndxFs = emptyFolder rootPath.

(** The two causes of a fatal run: no sync path is configured, or the
    target folder of Yandex Disk can neither be read nor be created. *)
Definition fatal_cause (depth : nat) (cfg : Config) (st : State) : Prop :=
  NextcloudSyncPaths cfg = [] \/
  exists e st1 e' st2,
    getYandexFileSystem depth (YandexTargetPath cfg) st = Some (inr e, st1) /\
    createFolderChain (YandexTargetPath cfg) st1 = (Some e', st2).

(** [depth] nested listings are enough for every snapshot. *)
Definition snapshots_return (depth : nat) : Prop :=
  forall (r : Remote) (rootPath : string) (st : State),
    getFileSystem r depth rootPath st <> None.

End Processor.

Arguments State W : clear implicits.
Arguments Processor W : clear implicits.

(** ** The shape of the traces *)

(** How a file transfer ends. *)
Inductive TransferEnd : Type :=
| DownloadFailed | InfoFailed | UploadFailed | Uploaded.

(** The calls of one file transfer from [src] to [dst] that ends in [e]:
    the download; if it succeeded the metadata lookup; if that succeeded
    the upload; and, after a download that succeeded, the close of its
    stream. *)
Definition transfer_calls (src dst : string) (e : TransferEnd) : list Call :=
  match e with
  | DownloadFailed =>
      [mkCall Nextcloud OpDownloadFile src false]
  | InfoFailed =>
      [mkCall Nextcloud OpDownloadFile src true;
       mkCall Nextcloud OpGetFileInfo src false;
       mkCall Nextcloud OpClose src true]
  | UploadFailed =>
      [mkCall Nextcloud OpDownloadFile src true;
       mkCall Nextcloud OpGetFileInfo src true;
       mkCall Yandex OpUploadFile dst false;
       mkCall Nextcloud OpClose src true]
  | Uploaded =>
      [mkCall Nextcloud OpDownloadFile src true;
       mkCall Nextcloud OpGetFileInfo src true;
       mkCall Yandex OpUploadFile dst true;
       mkCall Nextcloud OpClose src true]
  end.

(** [extends Q st st']: the trace of [st'] is the trace of [st] followed
    by a run of calls that satisfies [Q]. *)
Definition extends {W : Type} (Q : list Call -> Prop) (st st' : State W) : Prop :=
  exists calls, trace st' = (trace st ++ calls)%list /\ Q calls.

(** [Q] holds of the empty run and of the concatenation of two runs that
    satisfy it. *)
Definition concatenable (Q : list Call -> Prop) : Prop :=
  Q [] /\ forall a b, Q a -> Q b -> Q (a ++ b)%list.

(** The number of streams that a run of calls opens (downloads that
    succeeded) and the number it closes. *)
Definition opened (calls : list Call) : nat :=
  length (filter (fun c => Op_eqb (op c) OpDownloadFile && succeeded c)%bool calls).
Definition closed (calls : list Call) : nat :=
  length (filter (fun c => Op_eqb (op c) OpClose) calls).

(** The calls of a one-way sync from Nextcloud to Yandex Disk: listings
    of either side; on Nextcloud, reads only (download, metadata, close
    of a stream); on Yandex Disk, metadata, folder creation and upload. *)
Definition one_way (c : Call) : bool :=
  match remote c, op c with
  | _, OpListFiles => true
  | Nextcloud, (OpDownloadFile | OpGetFileInfo | OpClose) => true
  | Yandex, (OpGetFileInfo | OpCreateFolder | OpUploadFile) => true
  | _, _ => false
  end.



(** The paths of the folders of a tree, a folder before its subfolders
    and the subfolders in their order. *)
Fixpoint folderPaths (t : Folder) : list string :=
  match t with
  | mkFolder pth _ _ folders => pth :: concat (map folderPaths folders)
  end.

(** A listing of [path] on [r]. *)
Definition listing (r : Remote) (ok : bool) (path : string) : Call :=
  mkCall r OpListFiles path ok.

(** The file that the snapshot builders make of a listing entry. *)
Definition fileOf (file : FileInfo) : File := mkFile (InfoPath file) (ModTime file).

(** A metadata lookup on Yandex Disk that found nothing. *)
Definition is_failed_lookup (c : Call) : bool :=
  (Remote_eqb (remote c) Yandex && Op_eqb (op c) OpGetFileInfo && negb (succeeded c))%bool.

(** The paths that a run of calls tried to create, and the paths whose
    lookup failed, each in the order of the calls. *)
Definition created (calls : list Call) : list string := map target (filter is_mkdir calls).
Definition missing (calls : list Call) : list string :=
  map target (filter is_failed_lookup calls).

(** [mkdirs_succeeded calls]: no [CreateFolder] of the run failed. *)
Definition mkdirs_succeeded (calls : list Call) : Prop :=
  Forall (fun c => is_mkdir c = true -> succeeded c = true) calls.

(** The two kinds of names that the decoding can leave as they are.  A
    plain name holds neither a percent sign nor a plus sign.  A name has
    a malformed escape when one of its percent signs is not followed by
    two hexadecimal digits. *)
Definition plainName (name : string) : Prop :=
  Forall (fun c => c <> url.percent /\ c <> url.plus) (GoString.bytes name).

Definition two_hex (l : list ascii) : bool :=
  match l with
  | a :: b :: _ => (url.ishex a && url.ishex b)%bool
  | _ => false
  end.

Definition malformedEscape (name : string) : Prop :=
  exists before after : list ascii,
    GoString.bytes name = (before ++ url.percent :: after)%list /\ two_hex after = false.

(** What the decoding does to a plus sign. *)
Definition plus_to_space (c : ascii) : ascii :=
  if Ascii.eqb c url.plus then url.space else c.

(** The name that [Main] gives to the subfolder of a sync path when
    several paths are configured. *)
Definition subfolderName (syncPath : string) : string :=
  let pathName := path.Base syncPath in
  if (String.eqb pathName "/" || String.eqb pathName ".")%bool then "root" else pathName.

(** The accounting of the counters as the [int] arithmetic keeps it,
    overflow included: [TotalFiles] is the wrapped sum of the three
    others. *)
Definition stats_balanced (s : SyncStats) : Prop :=
  TotalFiles s = wrap_int (UploadedFiles s + SkippedFiles s + ErrorFiles s).

(** ** Package [clients]: how the Nextcloud side is read

    [NextcloudClient.ListFiles] and [NextcloudClient.GetFileInfo], the
    two methods behind the snapshot of the source and behind the size
    that [syncFile] asks for.  The HTTP round trip ([resty]) and the
    decoding of the multistatus document ([encoding/xml], with
    [RFC1123Time.UnmarshalXML]) are not code of the repository: they are
    the two variables of the section. *)

Module clients.

Import GoString.

Fixpoint strip_prefix (prefix s : string) : option string :=
  match prefix with
  | EmptyString => Some s
  | String c prefix' =>
      match s with
      | EmptyString => None
      | String d s' => if Ascii.eqb c d then strip_prefix prefix' s' else None
      end
  end.

(** [strings.TrimPrefix]: [s] without the prefix when it has it, [s]
    itself otherwise. *)
Definition TrimPrefix (s prefix : string) : string :=
  match strip_prefix prefix s with
  | Some rest => rest
  | None => s
  end.

Definition quote : ascii := ascii_of_nat 34.

Definition is_quote (c : ascii) : bool := Ascii.eqb c quote.

(** [strings.Trim] with the double quote as its cutset: drops every
    leading and trailing double quote. *)
Definition Trim_quote (s : string) : string :=
  of_bytes (rev (drop_while is_quote (rev (drop_while is_quote (bytes s))))).

(** One [<d:response>] of a multistatus document, decoded.  The field
    [Collection] is the pointer [Props.ResourceType.Collection]: [None]
    is [nil]. *)
Record NextcloudFileInfo : Type := mkNextcloudFileInfo {
  Href : string;
  DisplayName : string;
  GetLastModified : Time;
  GetContentType : string;
  GetContentLength : Z;
  GetETag : string;
  Collection : option unit;
}.

(** What the client looks at in a [resty.Response]. *)
Record Response : Type := mkResponse {
  StatusCode : Z;
  Body : string;
}.

Record NextcloudClient : Type := mkNextcloudClient {
  BaseURL : string;
  Username : string;
  Password : string;
}.

Definition davFiles : string := "/remote.php/dav/files/".

(** The address of a path of the user's files. *)
Definition webdavURL (nc : NextcloudClient) (p : string) : string :=
  BaseURL nc ++ davFiles ++ Username nc ++ "/" ++ TrimPrefix p "/".

(** The [models.FileInfo] that the loop of [ListFiles] appends for one
    response; [DownloadURL] keeps its zero value. *)
Definition toFileInfo (nc : NextcloudClient) (response : NextcloudFileInfo) : FileInfo :=
  let isDir := match Collection response with Some _ => true | None => false end in
  {| Name := DisplayName response;
     InfoPath := TrimPrefix (Href response) (davFiles ++ Username nc);
     Size := GetContentLength response;
     IsDir := isDir;
     ModTime := GetLastModified response;
     ETag := Trim_quote (GetETag response);
     ContentType := GetContentType response;
     DownloadURL := "" |}.

(** The loop of [ListFiles] from index [i] on, with the slice [files]
    built so far. *)
Fixpoint ListFiles_loop (nc : NextcloudClient) (i : nat)
         (responses : list NextcloudFileInfo) (files : list FileInfo) : list FileInfo :=
  match responses with
  | [] => files
  | response :: rest =>
      if Nat.eqb i 0 then ListFiles_loop nc (S i) rest files
      else ListFiles_loop nc (S i) rest (files ++ [toFileInfo nc response])
  end.

Section Nextcloud.

Context {W : Type}.

(** [nc.client.R()...Execute("PROPFIND", url)] with the fixed header
    [Depth: 1] and the fixed body: the transport error or the response,
    and the world after the request. *)
Variable propfind : string -> W -> result Response * W.

(** [xml.Unmarshal] into a [MultiStatus]: its [Responses]. *)
Variable xmlUnmarshal : string -> result (list NextcloudFileInfo).

Definition ListFiles (nc : NextcloudClient) (folderPath : string) (w : W)
  : result (list FileInfo) * W :=
  match propfind (webdavURL nc folderPath) w with
  | (inr err, w') => (inr (Errorf "failed to list files" err), w')
  | (inl resp, w') =>
      match xmlUnmarshal (Body resp) with
      | inr err => (inr (Errorf "failed to parse response" err), w')
      | inl responses => (inl (ListFiles_loop nc 0 responses []), w')
      end
  end.

(** The search of [GetFileInfo]: the first entry with the base name. *)
Fixpoint GetFileInfo_loop (fileName : string) (files : list FileInfo) : option FileInfo :=
  match files with
  | [] => None
  | file :: rest =>
      if String.eqb (path.Base (InfoPath file)) fileName then Some file
      else GetFileInfo_loop fileName rest
  end.

Definition GetFileInfo (nc : NextcloudClient) (filePath : string) (w : W)
  : result FileInfo * W :=
  match ListFiles nc (path.Dir filePath) w with
  | (inr err, w') => (inr err, w')
  | (inl files, w') =>
      let fileName := path.Base filePath in
      match GetFileInfo_loop fileName files with
      | Some file => (inl file, w')
      | None => (inr (ErrorNew ("file not found: " ++ filePath)), w')
      end
  end.

End Nextcloud.

End clients.

(** ** The folder trees in memory

    A [models.Folder] value holds two slices, and a slice is a view of a
    backing array that every copy of the value shares.  To speak of what
    [syncFolders] leaves untouched, the trees are laid out here as Go has
    them: arrays in a heap, slices as array, offset and length, and
    [syncFolders] written again over that heap, reading each element from
    the heap at the moment the loop reaches it. *)

Module Memory.

Definition loc : Type := positive.
Bind Scope positive_scope with loc.

(** A slice header: the backing array, the offset of the first element
    in it, and the length.  The nil slice has length zero. *)
Record slice : Type := mkSlice {
  arr : loc;
  off : nat;
  len : nat;
}.

Definition nilSlice : slice := mkSlice 1 0 0.

(** A [models.Folder] value as it is copied around. *)
Record FolderV : Type := mkFolderV {
  VPath : string;
  VModified : Time;
  VFiles : slice;
  VFolders : slice;
}.

(** The backing arrays of the [[]File] and [[]Folder] slices. *)
Record Heap : Type := mkHeap {
  fileArrays : gmap loc (list File);
  folderArrays : gmap loc (list FolderV);
}.

(** [models.Folder{Path: p}]: both slices are nil. *)
Definition emptyFolderV (p : string) : FolderV := mkFolderV p zeroTime nilSlice nilSlice.

(** How a computation over the heap ends: with a value, with the panic
    of an index out of range, or still recursing when [depth] nested
    calls are used up. *)
Inductive outcome (A : Type) : Type :=
| Done (a : A)
| Panic
| Deeper.
Arguments Done {A}.
Arguments Panic {A}.
Arguments Deeper {A}.

Section Mem.

Context {W : Type}.

(** The memory a call works on: the heap of the trees and the state of
    the processor. *)
Definition Mem : Type := Heap * State W.

Definition M (A : Type) : Type := Mem -> outcome (A * Mem).

#[export] Instance M_ret : MRet M := fun A a m => Done (a, m).

#[export] Instance M_bind : MBind M :=
  fun A B k c m =>
    match c m with
    | Done (a, m') => k a m'
    | Panic => Panic
    | Deeper => Deeper
    end.

(** [s[i]] on a [[]File]. *)
Definition readFile (s : slice) (i : nat) : M File :=
  fun m =>
    match fileArrays (fst m) !! arr s with
    | Some a =>
        match a !! (off s + i)%nat with
        | Some f => Done (f, m)
        | None => Panic
        end
    | None => Panic
    end.

(** [s[i]] on a [[]Folder]. *)
Definition readFolder (s : slice) (i : nat) : M FolderV :=
  fun m =>
    match folderArrays (fst m) !! arr s with
    | Some a =>
        match a !! (off s + i)%nat with
        | Some f => Done (f, m)
        | None => Panic
        end
    | None => Panic
    end.

(** A step of the processor that does not look at the trees. *)
Definition lift {A : Type} (f : State W -> A * State W) : M A :=
  fun m => let '(a, st) := f (snd m) in Done (a, (fst m, st)).

(** [for _, x := range s { acc = body(acc, x) }], from index [i] on, with
    [n] elements to go. *)
Fixpoint forRange {A B : Type} (read : nat -> M A) (body : B -> A -> M B)
         (i n : nat) (acc : B) : M B :=
  match n with
  | O => mret acc
  | S n' =>
      x ← read i;
      acc' ← body acc x;
      forRange read body (S i) n' acc'
  end.

Definition range {A B : Type} (read : slice -> nat -> M A) (s : slice)
           (body : B -> A -> M B) (acc : B) : M B :=
  forRange (read s) body 0 (len s) acc.

Variable p : Processor W.

(** syncFolders synchronizes folders recursively *)
Fixpoint syncFolders (depth : nat) (ncFolder yandexFolder : FolderV)
         (yandexBasePath : string) : M (option error) :=
  match depth with
  | O => fun _ => Deeper
  | S d =>
      (* Create Yandex Disk files map for quick lookup *)
      yandexFiles ←
        range readFile (VFiles yandexFolder)
              (fun (m : gmap string File) file =>
                 mret (<[path.Base (FilePath file) := file]> m)) ∅;
      (* Create Yandex Disk folders map *)
      yandexFolders ←
        range readFolder (VFolders yandexFolder)
              (fun (m : gmap string FolderV) folder =>
                 mret (<[path.Base (VPath folder) := folder]> m)) ∅;
      (* Synchronize files *)
      range readFile (VFiles ncFolder)
            (fun (_ : unit) ncFile =>
               lift (fun st =>
                       (tt, syncFolders_file p yandexFiles yandexBasePath st ncFile)))
            tt;;
      (* Recursively synchronize subfolders *)
      range readFolder (VFolders ncFolder)
            (fun (_ : unit) ncSubFolder =>
               let subFolderName := path.Base (VPath ncSubFolder) in
               let decodedFolderName := decodeName subFolderName in
               let yandexSubFolderPath := yandexBasePath ++ "/" ++ decodedFolderName in
               match yandexFolders !! decodedFolderName with
               | Some yandexSubFolder =>
                   syncFolders d ncSubFolder yandexSubFolder yandexSubFolderPath;;
                   mret tt
               | None =>
                   err ← lift (createFolderChain p yandexSubFolderPath);
                   match err with
                   | Some _ => mret tt                            (* continue *)
                   | None =>
                       let yandexSubFolder := emptyFolderV yandexSubFolderPath in
                       syncFolders d ncSubFolder yandexSubFolder yandexSubFolderPath;;
                       mret tt
                   end
               end)
            tt;;
      mret None
  end.

End Mem.

(** The elements of a slice, if the slice lies within its array. *)
Definition view {A : Type} (arrays : gmap loc (list A)) (s : slice) : option (list A) :=
  match len s with
  | O => Some []
  | _ =>
      match arrays !! arr s with
      | Some a =>
          if Nat.leb (off s + len s) (length a)
          then Some (firstn (len s) (skipn (off s) a))
          else None
      | None => None
      end
  end.

(** [represents h t v]: in the heap [h], the value [v] is the tree [t]. *)
Fixpoint represents (h : Heap) (t : Folder) (v : FolderV) {struct t} : Prop :=
  match t with
  | mkFolder pth m files folders =>
      VPath v = pth /\ VModified v = m /\
      view (fileArrays h) (VFiles v) = Some files /\
      exists vs,
        view (folderArrays h) (VFolders v) = Some vs /\
        (fix all (ts : list Folder) (vs : list FolderV) {struct ts} : Prop :=
           match ts, vs with
           | [], [] => True
           | t' :: ts', v' :: vs' => represents h t' v' /\ all ts' vs'
           | _, _ => False
           end) folders vs
  end.

(** The number of nested calls of [syncFolders] that a tree asks for. *)
Fixpoint height (t : Folder) : nat :=
  match t with
  | mkFolder _ _ _ folders => S (list_max (map height folders))
  end.

End Memory.

(** ** A test double for the two remotes

    An in-memory remote pair, used to run the processor on concrete
    scenarios.  What the remotes answer is scripted: the listings of both
    sides, the content of the Nextcloud files, the failures of the Yandex
    side.  The world is what the Yandex side accumulates: the paths whose
    metadata resolves and the uploads received. *)

Module Fake.

Record Script : Type := mkScript {
  ya_listing : list (string * list FileInfo);
  ya_mkdir_errors : list (string * error);
  ya_upload_errors : list (string * error);
  nc_listing : list (string * list FileInfo);
  nc_content : list (string * ReadCloser);
}.

Record World : Type := mkWorld {
  ya_paths : list string;
  ya_written : list (string * ReadCloser);
}.

Fixpoint assoc {A : Type} (k : string) (l : list (string * A)) : option A :=
  match l with
  | [] => None
  | (k', v) :: r => if String.eqb k k' then Some v else assoc k r
  end.

Fixpoint member (k : string) (l : list string) : bool :=
  match l with
  | [] => false
  | k' :: r => (String.eqb k k' || member k r)%bool
  end.

Definition info (path : string) (size : Z) (dir : bool) (t : Time) : FileInfo :=
  mkFileInfo (path.Base path) path size dir t "" "" "".

Definition yandex (s : Script) : cloudClient World :=
  {| ListFiles path w :=
       match assoc path (ya_listing s) with
       | Some files => (inl files, w)
       | None => (inr NotFound, w)
       end;
     DownloadFile path w := (inr NotFound, w);
     UploadFile path content size w :=
       match assoc path (ya_upload_errors s) with
       | Some e => (Some e, w)
       | None => (None, mkWorld (ya_paths w) (ya_written w ++ [(path, content)]))
       end;
     CreateFolder path w :=
       match assoc path (ya_mkdir_errors s) with
       | Some e => (Some e, w)
       | None =>
           if member path (ya_paths w) then (Some AlreadyExists, w)
           else (None, mkWorld (ya_paths w ++ [path]) (ya_written w))
       end;
     GetFileInfo path w :=
       if member path (ya_paths w) then (inl (info path 0 true zeroTime), w)
       else (inr NotFound, w) |}.

Definition nextcloud (s : Script) : cloudClient World :=
  {| ListFiles path w :=
       match assoc path (nc_listing s) with
       | Some files => (inl files, w)
       | None => (inr NotFound, w)
       end;
     DownloadFile path w :=
       match assoc path (nc_content s) with
       | Some content => (inl content, w)
       | None => (inr NotFound, w)
       end;
     UploadFile path content size w := (Some RemoteUnavailable, w);
     CreateFolder path w := (Some RemoteUnavailable, w);
     GetFileInfo path w :=
       match assoc path (nc_content s) with
       | Some content =>
           (inl (info path (Z.of_nat (String.length content)) false zeroTime), w)
       | None => (inr NotFound, w)
       end |}.

Definition proc (s : Script) : Processor World := NewProcessor (yandex s) (nextcloud s).

(** The state at the start of a run: the given paths exist on the Yandex
    side, nothing was called, nothing was counted. *)
Definition start (paths : list string) : State World :=
  mkState (mkWorld paths []) [] zeroStats.

(** A script is flat when none of its listings reports a directory. *)
Definition flat (s : Script) : bool :=
  forallb (fun entry => forallb (fun f => negb (IsDir f)) (snd entry))
          (ya_listing s ++ nc_listing s).

Definition noScript : Script := mkScript [] [] [] [] [].

End Fake.

(** *** Scenarios run on the double *)

Module Scenarios.
Import Fake.

Definition T1 : Time := 1000.
Definition T2 : Time := 2000.

(** Scenario A: one source file, empty destination. *)
Definition scriptA : Script := mkScript [] [] [] [] [("/src/a.txt", "hello")].
Definition srcA : Folder := mkFolder "/src" zeroTime [mkFile "/src/a.txt" T2] [].

(** Scenario B: the destination copy is newer. *)
Definition dstB : Folder := mkFolder "/dest" zeroTime [mkFile "/dest/a.txt" T2] [].
Definition srcB : Folder := mkFolder "/src" zeroTime [mkFile "/src/a.txt" T1] [].

(** Partial failure: the upload of [b.txt] and the creation of the
    destination folder for [bad] are scripted to fail. *)
Definition scriptP : Script :=
  mkScript []
           [("dest/bad", RemoteUnavailable)]
           [("/dest/b.txt", RemoteUnavailable)]
           []
           [("/src/a.txt", "aa"); ("/src/b.txt", "bbb"); ("/src/c.txt", "c");
            ("/src/bad/x.txt", "x"); ("/src/good/y.txt", "yy")].
Definition srcP : Folder :=
  mkFolder "/src" zeroTime
           [mkFile "/src/a.txt" T2; mkFile "/src/b.txt" T2; mkFile "/src/c.txt" T1]
           [mkFolder "/src/bad" zeroTime [mkFile "/src/bad/x.txt" T2] [];
            mkFolder "/src/good" zeroTime [mkFile "/src/good/y.txt" T2] []].
Definition dstP : Folder :=
  mkFolder "/dest" zeroTime [mkFile "/dest/c.txt" T1] [].

(** A creation race: the lookup of [dest/sub] finds nothing and its
    creation is answered with [AlreadyExists]. *)
Definition scriptE : Script :=
  mkScript [] [("dest/sub", AlreadyExists)] [] [] [("/src/sub/x.txt", "x")].
Definition subE : Folder :=
  mkFolder "/src/sub" zeroTime [mkFile "/src/sub/x.txt" T2] [].
Definition srcE : Folder := mkFolder "/src" zeroTime [] [subE].

(** The same race with a sibling after [sub]: the folder [next], which
    the destination lacks as well and which can be created. *)
Definition scriptR : Script :=
  mkScript [] [("dest/sub", AlreadyExists)] [] []
           [("/src/sub/x.txt", "x"); ("/src/next/y.txt", "yy")].
Definition nextR : Folder :=
  mkFolder "/src/next" zeroTime [mkFile "/src/next/y.txt" T2] [].
Definition srcR : Folder := mkFolder "/src" zeroTime [] [subE; nextR].

(** Scenario C: two source roots, one destination root. *)
Definition scriptC : Script :=
  mkScript [("/backup", [])] [] []
           [("/docs", [info "/docs/a.txt" 2 false T2]);
            ("/photos", [info "/photos/b.jpg" 3 false T2])]
           [("/docs/a.txt", "aa"); ("/photos/b.jpg", "bbb")].
Definition cfgC : Config := mkConfig "/backup" ["/docs"; "/photos"].

(** Two source roots with the same final segment. *)
Definition cfgD : Config := mkConfig "/backup" ["/alice/docs"; "/bob/docs"].
Definition scriptD : Script :=
  mkScript [("/backup", [])] [] []
           [("/alice/docs", [info "/alice/docs/a.txt" 2 false T2]);
            ("/bob/docs", [info "/bob/docs/a.txt" 3 false T2])]
           [("/alice/docs/a.txt", "aa"); ("/bob/docs/a.txt", "bbb")].

(** Scenario D: the destination root does not exist at the start. *)
Definition scriptD0 : Script :=
  mkScript [] [] []
           [("/src", [info "/src/a.txt" 5 false T2])]
           [("/src/a.txt", "hello")].
Definition cfgD0 : Config := mkConfig "/backup/2024/docs" ["/src"].

(** A destination that can neither be listed nor be created, and a
    source root that cannot be listed. *)
Definition scriptF : Script :=
  mkScript [] [("backup", RemoteUnavailable)] [] [] [].
Definition cfgF : Config := mkConfig "/backup" ["/src"].
Definition scriptG : Script := mkScript [("/backup", [])] [] [] [] [].

(** A nested source: [/src] holds a file and a folder that holds a file;
    and a source whose folder [/src/gone] cannot be listed. *)
Definition scriptN : Script :=
  mkScript [] [] []
           [("/src", [info "/src/a.txt" 2 false T2; info "/src/in" 0 true T1]);
            ("/src/in", [info "/src/in/b.txt" 3 false T1])]
           [].
Definition scriptM : Script :=
  mkScript [] [] []
           [("/src", [info "/src/gone" 0 true T1; info "/src/a.txt" 2 false T2])]
           [].

(** The trees of the partial-failure scenario laid out in a heap: the
    three slices of files and the slice of subfolders of the source, and
    the slice of files of the destination. *)
Definition heapP : Memory.Heap :=
  Memory.mkHeap
    (<[2%positive := Files srcP]>
       (<[3%positive := [mkFile "/src/bad/x.txt" T2]]>
          (<[4%positive := [mkFile "/src/good/y.txt" T2]]>
             (<[5%positive := Files dstP]> ∅))))
    (<[2%positive :=
         [Memory.mkFolderV "/src/bad" zeroTime (Memory.mkSlice 3 0 1) Memory.nilSlice;
          Memory.mkFolderV "/src/good" zeroTime (Memory.mkSlice 4 0 1) Memory.nilSlice]]> ∅).
Definition vsrcP : Memory.FolderV :=
  Memory.mkFolderV "/src" zeroTime (Memory.mkSlice 2 0 3) (Memory.mkSlice 2 0 2).
Definition vdstP : Memory.FolderV :=
  Memory.mkFolderV "/dest" zeroTime (Memory.mkSlice 5 0 1) Memory.nilSlice.

(** A server that answers every request with status 404 and echoes the
    address, and a decoder that knows one document: the folder [/docs]
    of [alice] with a file, a subfolder and a second file of the same
    name as the first in another spelling. *)
Definition alice : clients.NextcloudClient :=
  clients.mkNextcloudClient "https://cloud.example" "alice" "secret".

Definition echo404 (address : string) (w : nat) : result clients.Response * nat :=
  (inl (clients.mkResponse 404 address), S w).

Definition docsResponses : list clients.NextcloudFileInfo :=
  [ clients.mkNextcloudFileInfo "/remote.php/dav/files/alice/docs/" "docs" 0 "" 0 "" (Some tt);
    clients.mkNextcloudFileInfo "/remote.php/dav/files/alice/docs/a%20b.txt" "a b.txt" T1
                                "text/plain" 5 "abc" None;
    clients.mkNextcloudFileInfo "/remote.php/dav/files/alice/docs/sub/" "sub" T2 "" 0 ""
                                (Some tt);
    clients.mkNextcloudFileInfo "/remote.php/dav/files/alice/docs/sub/../a%20b.txt" "other" T2
                                "text/plain" 7 "" None ].

Definition decodeDocs (body : string) : result (list clients.NextcloudFileInfo) :=
  if String.eqb body "https://cloud.example/remote.php/dav/files/alice/docs"
  then inl docsResponses
  else inr (ErrorNew "EOF").

End Scenarios.

(** * Properties *)

Local Open Scope list_scope.

(** ** The library functions on concrete inputs *)

Example Base_docs : path.Base "/docs" = "docs". Proof. reflexivity. Qed.
Example Base_trailing : path.Base "/a/b/" = "b". Proof. reflexivity. Qed.
Example Base_root : path.Base "/" = "/". Proof. reflexivity. Qed.
Example Base_empty : path.Base "" = ".". Proof. reflexivity. Qed.
Example Base_dot : path.Base "." = ".". Proof. reflexivity. Qed.
Example Dir_abc : path.Dir "a/b/c" = "a/b". Proof. reflexivity. Qed.
Example Dir_single : path.Dir "backup" = ".". Proof. reflexivity. Qed.
Example Dir_rooted : path.Dir "/backup" = "/". Proof. reflexivity. Qed.
Example Clean_dots : path.Clean "a/./b/../../c/" = "c". Proof. reflexivity. Qed.
Example Clean_up : path.Clean "../../a//b" = "../../a/b". Proof. reflexivity. Qed.
Example Clean_rooted_up : path.Clean "/../a" = "/a". Proof. reflexivity. Qed.
Example Trim_ex : GoString.Trim_slash "//a/b/" = "a/b". Proof. reflexivity. Qed.

Example unescape_space : url.QueryUnescape "my%20file.txt" = inl "my file.txt".
Proof. reflexivity. Qed.
Example unescape_plain : url.QueryUnescape "report.txt" = inl "report.txt".
Proof. reflexivity. Qed.
Example unescape_bad : url.QueryUnescape "100%.txt" = inr (EscapeError "%.t").
Proof. reflexivity. Qed.
Example unescape_short : url.QueryUnescape "a%4" = inr (EscapeError "%4").
Proof. reflexivity. Qed.
Example unescape_upper : url.QueryUnescape "%41%6a" = inl "Aj".
Proof. reflexivity. Qed.

(** ** The end-to-end scenarios A and B *)

Module ScenarioFacts.
Import Fake Scenarios.

Example scenario_A :
  let '(err, st) := syncFolders (proc scriptA) srcA (emptyFolder "/dest") "/dest" (start ["dest"]) in
  err = None /\ stats st = mkSyncStats 1 1 0 0 /\
  ya_written (world st) = [("/dest/a.txt", "hello")] /\
  filter is_write (trace st) = [mkCall Yandex OpUploadFile "/dest/a.txt" true].
Proof. vm_compute. repeat split; reflexivity. Qed.

Example scenario_B :
  let '(err, st) := syncFolders (proc scriptA) srcB dstB "/dest" (start ["dest"]) in
  err = None /\ stats st = mkSyncStats 1 0 1 0 /\ trace st = [].
Proof. vm_compute. repeat split; reflexivity. Qed.

End ScenarioFacts.

(** ** The lookup maps of the reconciler *)

Section LookupMaps.

Context {V : Type} (key : V -> string).





End LookupMaps.

(** ** The reconciler: classification of a source file *)

Section Classification.

Context {W : Type} (p : Processor W).



(** The loop body in terms of [needsSync]: a file that needs no sync is
    counted and skipped; one that does is counted and transferred, and
    the outcome of the transfer is counted. *)
Lemma syncFolders_file_eq (yandexFiles : gmap string File) (base : string)
      (st : State W) (ncFile : File) :
  syncFolders_file p yandexFiles base st ncFile =
  if needsSync yandexFiles ncFile then
    let '(err, st') :=
      syncFile p (FilePath ncFile) base (path.Base (FilePath ncFile))
               (withStats incTotal st) in
    match err with
    | Some _ => withStats incError st'
    | None => withStats incUploaded st'
    end
  else withStats incSkipped (withStats incTotal st).
Proof.
  unfold syncFolders_file, needsSync.
  destruct (_ !! _) as [y|]; [|reflexivity].
  destruct (After _ _); reflexivity.
Qed.


End Classification.

(** ** The statistics *)

Lemma incr_no_overflow (x : Z) : int_min <= x < int_max -> incr x = x + 1.
Proof.
  unfold incr, wrap_int, int_min, int_max. intros H.
  rewrite Z.mod_small; lia.
Qed.

Example incr_wraps : incr int_max = int_min.
Proof. reflexivity. Qed.

Section Statistics.

Context {W : Type} (p : Processor W).

(** One call of the chain creator, unfolded: the lookup, the parent
    chain if there is a parent to create, the creation. *)
Lemma createFolderChain_rec_eq (d : nat) (folderPath : string) (st : State W) :
  createFolderChain_rec p d folderPath st =
  let folderPath := normalizePath folderPath in
  if String.eqb folderPath "" then (None, st)
  else
    let '(info, st1) := callGetFileInfo p Yandex folderPath st in
    match info with
    | inl _ => (None, st1)
    | inr _ =>
        let parentPath := path.Dir folderPath in
        let '(createErr, st2) :=
          if hasParent parentPath folderPath then
            match d with
            | O => (Some (ErrorNew "unreachable"), st1)
            | S d' => createFolderChain_rec p d' parentPath st1
            end
          else (None, st1) in
        match createErr with
        | Some e =>
            (Some (Errorf ("failed to create parent folder " ++ parentPath) e), st2)
        | None =>
            let '(err, st3) := callCreateFolder p Yandex folderPath st2 in
            match err with
            | Some e => (Some (Errorf ("failed to create folder " ++ folderPath) e), st3)
            | None => (None, st3)
            end
        end
    end.
Proof. destruct d; reflexivity. Qed.

Lemma createFolderChain_rec_stats (d : nat) (folderPath : string) (st : State W) :
  stats (snd (createFolderChain_rec p d folderPath st)) = stats st.
Proof.
  revert folderPath st. induction d as [|d IH]; intros folderPath st;
    rewrite createFolderChain_rec_eq; cbv zeta;
    (destruct (String.eqb _ ""); [reflexivity|]);
    unfold callGetFileInfo, callCreateFolder;
    destruct (GetFileInfo _ _ _) as [[info|e] w]; try reflexivity.
  all: match goal with
       | |- context [let '(createErr, st2) := ?parent in _] =>
           assert (P : stats (snd parent) = stats st);
           [ destruct (hasParent _ _); [ first [ rewrite IH; reflexivity | reflexivity ]
                                       | reflexivity ]
           | destruct parent as [[pe|] st2] ]
       end; simpl in P; try exact P.
  all: destruct (CreateFolder _ _ _) as [[e'|] w3]; simpl; exact P.
Qed.

Lemma createFolderChain_stats (folderPath : string) (st : State W) :
  stats (snd (createFolderChain p folderPath st)) = stats st.
Proof. apply createFolderChain_rec_stats. Qed.

Lemma syncFile_stats (ncFilePath base fileName : string) (st : State W) :
  stats (snd (syncFile p ncFilePath base fileName st)) = stats st.
Proof.
  unfold syncFile, callDownloadFile, callGetFileInfo, callUploadFile.
  destruct (DownloadFile _ _ _) as [[rd|e] w]; [|reflexivity].
  simpl. destruct (GetFileInfo _ _ _) as [[info|e] w']; [|reflexivity].
  simpl. destruct (UploadFile _ _ _ _ _) as [[e|] w'']; reflexivity.
Qed.

(** The unfolding of [syncFolders]: the loop over the files, then the
    loop over the subfolders, then [return nil]. *)
Lemma syncFolders_eq (ncFolder yandexFolder : Folder) (base : string) (st : State W) :
  syncFolders p ncFolder yandexFolder base st =
  (None,
   fold_left
     (fun st ncSubFolder =>
        syncFolders_subfolder p (foldersByName (Folders yandexFolder)) base
                              (syncFolders p ncSubFolder) st ncSubFolder)
     (Folders ncFolder)
     (fold_left (syncFolders_file p (filesByName (Files yandexFolder)) base)
                (Files ncFolder) st)).
Proof. destruct ncFolder; reflexivity. Qed.


Lemma syncFolders_folders_split (pth : string) (m : Time) (files : list File)
      (before after : list Folder) (yandexFolder : Folder) (base : string) (st : State W) :
  syncFolders p (mkFolder pth m files (before ++ after)) yandexFolder base st =
  syncFolders p (mkFolder pth m [] after) yandexFolder base
              (snd (syncFolders p (mkFolder pth m files before) yandexFolder base st)).
Proof.
  rewrite !syncFolders_eq. cbn [Files Folders snd fold_left].
  rewrite fold_left_app. reflexivity.
Qed.


Lemma syncFolders_subfolder_first (pth : string) (m : Time) (ncSubFolder : Folder)
      (after : list Folder) (yandexFolder : Folder) (base : string) (st : State W) :
  syncFolders p (mkFolder pth m [] (ncSubFolder :: after)) yandexFolder base st =
  syncFolders p (mkFolder pth m [] after) yandexFolder base
              (syncFolders_subfolder p (foldersByName (Folders yandexFolder)) base
                                     (syncFolders p ncSubFolder) st ncSubFolder).
Proof. rewrite !syncFolders_eq. reflexivity. Qed.


Lemma syncFolders_at_subfolder (pth : string) (m : Time) (files : list File)
      (before after : list Folder) (ncSubFolder : Folder) (yandexFolder : Folder)
      (base : string) (st : State W) :
  syncFolders p (mkFolder pth m files (before ++ ncSubFolder :: after)) yandexFolder base st =
  syncFolders p (mkFolder pth m [] after) yandexFolder base
    (syncFolders_subfolder p (foldersByName (Folders yandexFolder)) base
       (syncFolders p ncSubFolder)
       (snd (syncFolders p (mkFolder pth m files before) yandexFolder base st)) ncSubFolder).
Proof. rewrite syncFolders_folders_split, syncFolders_subfolder_first. reflexivity. Qed.

(** One file: [TotalFiles] and exactly one of the three other counters
    go up by one. *)
Lemma syncFolders_file_stats (yandexFiles : gmap string File) (base : string)
      (st : State W) (ncFile : File) :
  stats_ok (stats st) ->
  TotalFiles (stats st) < int_max ->
  let s' := stats (syncFolders_file p yandexFiles base st ncFile) in
  stats_ok s' /\ stats_le (stats st) s' /\ TotalFiles s' = TotalFiles (stats st) + 1.
Proof.
  intros (HU & HS & HE & HT) Hb. rewrite syncFolders_file_eq.
  assert (Hm : int_min <= 0) by (unfold int_min; lia).
  destruct (needsSync _ _).
  - pose proof (syncFile_stats (FilePath ncFile) base (path.Base (FilePath ncFile))
                               (withStats incTotal st)) as Hs.
    destruct (syncFile _ _ _ _ _) as [[e|] st']; simpl in *; rewrite Hs;
      unfold stats_ok, stats_le; simpl; rewrite !incr_no_overflow by lia; lia.
  - unfold stats_ok, stats_le; simpl. rewrite !incr_no_overflow by lia. lia.
Qed.

Lemma files_loop_stats (yandexFiles : gmap string File) (base : string)
      (files : list File) (st : State W) :
  stats_ok (stats st) ->
  TotalFiles (stats st) + Z.of_nat (length files) <= int_max ->
  let s' := stats (fold_left (syncFolders_file p yandexFiles base) files st) in
  stats_ok s' /\ stats_le (stats st) s' /\
  TotalFiles s' = TotalFiles (stats st) + Z.of_nat (length files).
Proof.
  revert st. induction files as [|f files IH]; intros st Hok Hb.
  - simpl. unfold stats_le. repeat split; try lia; try apply Hok.
  - simpl fold_left. simpl length in *.
    destruct (syncFolders_file_stats yandexFiles base st f Hok) as (Hok1 & Hle1 & HT1);
      [lia|].
    destruct (IH (syncFolders_file p yandexFiles base st f) Hok1) as (Hok2 & Hle2 & HT2);
      [lia|].
    cbv zeta. split; [exact Hok2|]. unfold stats_le in *. split; lia.
Qed.

(** A whole tree: the invariant is kept, no counter goes down, and
    [TotalFiles] grows by the files of the top folder at least and by the
    files of the tree at most. *)
Lemma syncFolders_stats (ncFolder : Folder) :
  forall (yandexFolder : Folder) (base : string) (st : State W),
    stats_ok (stats st) ->
    TotalFiles (stats st) + Z.of_nat (countFiles ncFolder) <= int_max ->
    let s' := stats (snd (syncFolders p ncFolder yandexFolder base st)) in
    stats_ok s' /\ stats_le (stats st) s' /\
    TotalFiles (stats st) + Z.of_nat (length (Files ncFolder)) <= TotalFiles s' /\
    TotalFiles s' <= TotalFiles (stats st) + Z.of_nat (countFiles ncFolder).
Proof.
  induction ncFolder as [pth m files folders IH] using Folder_ind.
  intros ya base st Hok Hb. rewrite syncFolders_eq. cbn [snd Files Folders].
  cbn [countFiles] in Hb. rewrite Nat2Z.inj_add in Hb.
  destruct (files_loop_stats (filesByName (Files ya)) base files st Hok)
    as (Hok1 & Hle1 & HT1); [lia|].
  set (st1 := fold_left _ files st) in *.
  cbn [countFiles]. rewrite Nat2Z.inj_add.
  assert (G : forall st2 : State W,
             stats_ok (stats st2) ->
             TotalFiles (stats st2) + Z.of_nat (list_sum (map countFiles folders)) <= int_max ->
             let s' := stats (fold_left
                                (fun st ncSubFolder =>
                                   syncFolders_subfolder p (foldersByName (Folders ya)) base
                                                         (syncFolders p ncSubFolder) st ncSubFolder)
                                folders st2) in
             stats_ok s' /\ stats_le (stats st2) s' /\
             TotalFiles s' <= TotalFiles (stats st2) + Z.of_nat (list_sum (map countFiles folders))).
  { clear - IH. induction IH as [|sub rest Hsub _ IHrest]; intros st2 Hok2 Hb2.
    - simpl. unfold stats_le. repeat split; try lia; apply Hok2.
    - simpl fold_left. change (list_sum (map countFiles (sub :: rest)))
        with (countFiles sub + list_sum (map countFiles rest))%nat in *.
      rewrite Nat2Z.inj_add in Hb2 |- *.
      set (st3 := syncFolders_subfolder p _ base (syncFolders p sub) st2 sub).
      assert (H3 : stats_ok (stats st3) /\ stats_le (stats st2) (stats st3) /\
                   TotalFiles (stats st3) <= TotalFiles (stats st2) + Z.of_nat (countFiles sub)).
      { subst st3. unfold syncFolders_subfolder.
        destruct (_ !! _) as [yaSub|].
        - destruct (Hsub yaSub (base ++ "/" ++ decodeName (path.Base (Path sub)))%string st2 Hok2)
            as (A & B & _ & D); [lia|]. auto.
        - pose proof (createFolderChain_stats
                        (base ++ "/" ++ decodeName (path.Base (Path sub)))%string st2) as Hc.
          destruct (createFolderChain p _ st2) as [[e|] st']; simpl in Hc.
          + rewrite Hc. unfold stats_le. repeat split; try lia; apply Hok2.
          + assert (Hok' : stats_ok (stats st')) by (rewrite Hc; exact Hok2).
            destruct (Hsub (emptyFolder (base ++ "/" ++ decodeName (path.Base (Path sub)))%string)
                           (base ++ "/" ++ decodeName (path.Base (Path sub)))%string st' Hok')
              as (A & B & _ & D); [rewrite Hc; lia|].
            rewrite Hc in B, D. auto. }
      destruct H3 as (A3 & B3 & C3).
      destruct (IHrest st3 A3) as (A4 & B4 & C4); [lia|].
      cbv zeta. split; [exact A4|]. unfold stats_le in *. split; lia. }
  destruct (G st1 Hok1) as (A & B & C); [lia|].
  cbv zeta. split; [exact A|]. unfold stats_le in *. repeat split; lia.
Qed.

End Statistics.

Section Accounting.

Context {W : Type} (p : Processor W).

Lemma stats_ok_zero : stats_ok zeroStats.
Proof. unfold stats_ok, zeroStats; simpl; lia. Qed.

(** C9. From statistics that satisfy the accounting invariant (the
    all-zero [SyncStats] of a fresh run does), on a tree whose files the
    [int] counters can count, a run of the reconciler ends with
    [TotalFiles = UploadedFiles + SkippedFiles + ErrorFiles], with no
    negative counter, and with no counter below its value before the
    run; each of the four increments alone never lowers a counter. *)
Theorem stats_accounting (ncFolder yandexFolder : Folder) (base : string)
        (st : State W) :
  stats_ok (stats st) ->
  TotalFiles (stats st) + Z.of_nat (countFiles ncFolder) <= int_max ->
  let s' := stats (snd (syncFolders p ncFolder yandexFolder base st)) in
  TotalFiles s' = UploadedFiles s' + SkippedFiles s' + ErrorFiles s' /\
  (0 <= TotalFiles s' /\ 0 <= UploadedFiles s' /\
   0 <= SkippedFiles s' /\ 0 <= ErrorFiles s') /\
  stats_le (stats st) s' /\
  (forall s, stats_ok s -> TotalFiles s < int_max ->
             stats_le s (incTotal s) /\ stats_le s (incUploaded s) /\
             stats_le s (incSkipped s) /\ stats_le s (incError s)).
Proof.
  intros Hok Hb.
  destruct (syncFolders_stats p ncFolder yandexFolder base st Hok Hb)
    as ((HU & HS & HE & HT) & Hle & _ & _).
  cbv zeta. split; [exact HT|]. split; [lia|]. split; [exact Hle|].
  clear. intros s (HU & HS & HE & HT) Hb.
  assert (Hm : int_min <= 0) by (unfold int_min; lia).
  unfold stats_le, incTotal, incUploaded, incSkipped, incError; simpl.
  rewrite !incr_no_overflow by lia. lia.
Qed.


End Accounting.

Module PartialFailure.
Import Fake Scenarios.

(** The accounting theorem applied to scenario A, from the all-zero
    statistics. *)
Lemma stats_accounting_witness :
  let s' := stats (snd (syncFolders (proc scriptA) srcA (emptyFolder "/dest") "/dest" (start ["dest"]))) in
  TotalFiles s' = UploadedFiles s' + SkippedFiles s' + ErrorFiles s' /\
  (0 <= TotalFiles s' /\ 0 <= UploadedFiles s' /\
   0 <= SkippedFiles s' /\ 0 <= ErrorFiles s') /\
  stats_le (stats (start ["dest"])) s' /\
  (forall s, stats_ok s -> TotalFiles s < int_max ->
             stats_le s (incTotal s) /\ stats_le s (incUploaded s) /\
             stats_le s (incSkipped s) /\ stats_le s (incError s)).
Proof.
  apply (stats_accounting (proc scriptA) srcA (emptyFolder "/dest") "/dest" (start ["dest"])).
  - unfold stats_ok; simpl; lia.
  - vm_compute. discriminate.
Defined.


(** The upload of [b.txt] fails and the folder for [bad] cannot be
    created: [a.txt] and [good/y.txt] are uploaded all the same, [c.txt]
    is skipped, and no file of [bad] is counted. *)
Example partial_failure_run :
  let '(err, st) := syncFolders (proc scriptP) srcP dstP "/dest" (start ["dest"]) in
  err = None /\ stats st = mkSyncStats 4 2 1 1 /\
  ya_written (world st) = [("/dest/a.txt", "aa"); ("/dest/good/y.txt", "yy")] /\
  filter is_mkdir (trace st) =
    [mkCall Yandex OpCreateFolder "dest/bad" false;
     mkCall Yandex OpCreateFolder "dest/good" true].
Proof. vm_compute. repeat split; reflexivity. Qed.

End PartialFailure.

(** ** The folder chain creator *)

Section FolderChain.

Context {W : Type} (p : Processor W).

Lemma mkdir_after_failed_lookup_nil : mkdir_after_failed_lookup [].
Proof. intros before after c H. destruct before; discriminate. Qed.

Lemma mkdir_after_failed_lookup_cons (c : Call) (calls : list Call) :
  is_mkdir c = false ->
  mkdir_after_failed_lookup calls ->
  mkdir_after_failed_lookup (c :: calls).
Proof.
  intros Hc H before after c' E Hm.
  destruct before as [|b before]; simpl in E; injection E as -> ->.
  - congruence.
  - right. exact (H before after c' eq_refl Hm).
Qed.

Lemma mkdir_after_failed_lookup_snoc (calls : list Call) (c : Call) :
  mkdir_after_failed_lookup calls ->
  (is_mkdir c = true -> lookup_failed (target c) ∈ calls) ->
  mkdir_after_failed_lookup (calls ++ [c]).
Proof.
  intros H Hc before after c' E Hm.
  destruct after as [|a after _] using rev_ind.
  - apply app_inj_tail in E. destruct E as [-> ->]. exact (Hc Hm).
  - rewrite app_comm_cons, app_assoc in E.
    apply app_inj_tail in E. destruct E as [E _].
    exact (H before after c' E Hm).
Qed.

(** What a run of the chain creator adds to the trace. *)
Lemma createFolderChain_rec_trace (d : nat) :
  forall (folderPath : string) (st : State W),
  exists calls,
    trace (snd (createFolderChain_rec p d folderPath st)) = (trace st ++ calls)%list /\
    mkdir_after_failed_lookup calls.
Proof.
  induction d as [|d IH]; intros folderPath st; rewrite createFolderChain_rec_eq; cbv zeta;
    set (np := normalizePath folderPath);
    (destruct (String.eqb np "");
     [exists []; rewrite app_nil_r;
      split; [reflexivity | apply mkdir_after_failed_lookup_nil] |]);
    unfold callGetFileInfo, callCreateFolder;
    destruct (GetFileInfo _ _ _) as [[info|e] w];
    try (exists [mkCall Yandex OpGetFileInfo np true]; split;
         [reflexivity |
          apply mkdir_after_failed_lookup_cons;
          [reflexivity | apply mkdir_after_failed_lookup_nil]]).
  all: set (st1 := logged Yandex OpGetFileInfo np (is_ok (inr e)) w st).
  all: match goal with
       | |- context [let '(createErr, st2) := ?parent in _] =>
           assert (P : exists calls,
                      trace (snd parent) = (trace st1 ++ calls)%list /\
                      mkdir_after_failed_lookup calls);
           [ destruct (hasParent _ _);
             [ first [ apply IH
                     | exists []; simpl; rewrite app_nil_r;
                       split; [reflexivity | apply mkdir_after_failed_lookup_nil] ]
             | exists []; simpl; rewrite app_nil_r;
               split; [reflexivity | apply mkdir_after_failed_lookup_nil] ]
           | destruct parent as [[pe|] st2] ]
       end.
  all: destruct P as (pcalls & Ht & Hg); simpl in Ht.
  all: try (exists (lookup_failed np :: pcalls); split;
            [ simpl; rewrite Ht; subst st1; simpl; rewrite <- app_assoc; reflexivity
            | apply mkdir_after_failed_lookup_cons; [reflexivity | exact Hg] ]).
  all: destruct (CreateFolder _ _ _) as [err w3];
    exists ((lookup_failed np :: pcalls) ++ [mkCall Yandex OpCreateFolder np (is_nil err)]);
    (split;
     [ destruct err; simpl; rewrite Ht; subst st1; simpl;
       rewrite <- !app_assoc; reflexivity
     | apply mkdir_after_failed_lookup_snoc;
       [ apply mkdir_after_failed_lookup_cons; [reflexivity | exact Hg]
       | intros _; left ] ]).
Qed.

(** A path whose lookup resolves: success on the spot, with the lookup
    as the only call (and no call at all for the empty path). *)
Lemma createFolderChain_rec_exists (d : nat) (folderPath : string) (st : State W) :
  let np := normalizePath folderPath in
  resolves (yandexClient p) np (world st) ->
  exists st',
    createFolderChain_rec p d folderPath st = (None, st') /\
    trace st' = trace st ++ (if String.eqb np "" then []
                             else [mkCall Yandex OpGetFileInfo np true]).
Proof.
  intros np (info & w' & H). rewrite createFolderChain_rec_eq. cbv zeta. fold np.
  destruct (String.eqb np "").
  - exists st. rewrite app_nil_r. split; reflexivity.
  - unfold callGetFileInfo. simpl client. rewrite H.
    eexists. split; reflexivity.
Qed.

(** After a successful run the last call was a lookup that resolved or a
    creation that succeeded, of the normalized path, and the world is the
    one that call left. *)
Lemma createFolderChain_rec_success (d : nat) (folderPath : string) (st st1 : State W) :
  let np := normalizePath folderPath in
  createFolderChain_rec p d folderPath st = (None, st1) ->
  np = "" \/
  (exists w info, GetFileInfo (yandexClient p) np w = (inl info, world st1)) \/
  (exists w, CreateFolder (yandexClient p) np w = (None, world st1)).
Proof.
  intros np. rewrite createFolderChain_rec_eq. cbv zeta. fold np.
  destruct (String.eqb np "") eqn:E.
  - intros _. left. apply String.eqb_eq. exact E.
  - unfold callGetFileInfo, callCreateFolder. simpl client.
    destruct (GetFileInfo _ _ _) as [[info|e] w] eqn:G.
    + intros [= <-]. right. left. exists (world st), info. exact G.
    + match goal with
      | |- context [let '(createErr, st2) := ?parent in _] =>
          destruct parent as [[pe|] st2]
      end; [discriminate|].
      destruct (CreateFolder _ _ _) as [[e'|] w3] eqn:C; [discriminate|].
      intros [= <-]. right. right. exists (world st2). exact C.
Qed.

(** C4. Folder chain creation is idempotent.  When the metadata lookup of
    the (normalized) path resolves, [createFolderChain] returns [nil] at
    once and issues no call but that lookup, so no [CreateFolder].  On a
    remote that keeps what it has (a path that resolved, or that was just
    created, resolves at the next lookup) a second call for a path that
    the first call ensured returns [nil] and creates nothing.  And in
    every run, each [CreateFolder] is for a path whose lookup, earlier in
    the same run, found nothing: no level that is there is created
    again. *)
Theorem createFolderChain_idempotent (folderPath : string) (st : State W) :
  let np := normalizePath folderPath in
  let lookup_only :=
    if String.eqb np "" then [] else [mkCall Yandex OpGetFileInfo np true] in
  (resolves (yandexClient p) np (world st) ->
   exists st',
     createFolderChain p folderPath st = (None, st') /\
     trace st' = trace st ++ lookup_only /\
     filter is_mkdir lookup_only = []) /\
  ((forall path w w' info,
       GetFileInfo (yandexClient p) path w = (inl info, w') ->
       resolves (yandexClient p) path w') ->
   (forall path w w',
       CreateFolder (yandexClient p) path w = (None, w') ->
       resolves (yandexClient p) path w') ->
   forall st1,
     createFolderChain p folderPath st = (None, st1) ->
     exists st2,
       createFolderChain p folderPath st1 = (None, st2) /\
       trace st2 = trace st1 ++ lookup_only) /\
  (exists calls,
      trace (snd (createFolderChain p folderPath st)) = trace st ++ calls /\
      mkdir_after_failed_lookup calls).
Proof.
  intros np lookup_only. split; [|split].
  - intros H.
    destruct (createFolderChain_rec_exists (String.length folderPath) folderPath st H)
      as (st' & E & T).
    exists st'. split; [exact E|]. split; [exact T|].
    subst lookup_only. destruct (String.eqb np ""); reflexivity.
  - intros Hstable Hcreated st1 H1.
    assert (R : np = "" \/ resolves (yandexClient p) np (world st1)).
    { destruct (createFolderChain_rec_success _ _ _ _ H1) as [E | [(w & info & G) | (w & C)]].
      - left. exact E.
      - right. exact (Hstable _ _ _ _ G).
      - right. exact (Hcreated _ _ _ C). }
    destruct R as [E | R].
    + exists st1. unfold createFolderChain. rewrite createFolderChain_rec_eq.
      cbv zeta. fold np. subst lookup_only. rewrite E. simpl.
      rewrite app_nil_r. split; reflexivity.
    + exact (createFolderChain_rec_exists (String.length folderPath) folderPath st1 R).
  - apply createFolderChain_rec_trace.
Qed.

End FolderChain.

Module ChainFacts.
Import Fake Scenarios.

Lemma member_app (k : string) (l1 l2 : list string) :
  member k (l1 ++ l2) = (member k l1 || member k l2)%bool.
Proof.
  induction l1 as [|a l1 IH]; simpl; [reflexivity|].
  rewrite IH. apply orb_assoc.
Qed.

(** The double keeps what it has. *)
Lemma yandex_lookup_stable (s : Script) (path : string) (w w' : World) (info : FileInfo) :
  GetFileInfo (yandex s) path w = (inl info, w') -> resolves (yandex s) path w'.
Proof.
  simpl. destruct (member path (ya_paths w)) eqn:M; [|discriminate].
  intros [= <- <-]. exists (Fake.info path 0 true zeroTime), w.
  simpl. rewrite M. reflexivity.
Qed.

Lemma yandex_created_resolves (s : Script) (path : string) (w w' : World) :
  CreateFolder (yandex s) path w = (None, w') -> resolves (yandex s) path w'.
Proof.
  simpl. destruct (assoc path (ya_mkdir_errors s)); [discriminate|].
  destruct (member path (ya_paths w)); [discriminate|].
  intros [= <-]. exists (Fake.info path 0 true zeroTime). eexists.
  simpl. rewrite member_app. simpl. rewrite String.eqb_refl, orb_true_r.
  reflexivity.
Qed.

(** Creating ["/a/b/c"] where ["a"] and ["a/b"] exist: one creation, of
    the missing level only. *)
Example chain_first_call :
  let '(err, st) := createFolderChain (proc noScript) "/a/b/c" (start ["a"; "a/b"]) in
  err = None /\
  trace st = [lookup_failed "a/b/c";
              mkCall Yandex OpGetFileInfo "a/b" true;
              mkCall Yandex OpCreateFolder "a/b/c" true] /\
  ya_paths (world st) = ["a"; "a/b"; "a/b/c"].
Proof. vm_compute. repeat split; reflexivity. Qed.

(** The idempotence theorem on that run: the second call succeeds with
    one lookup and no creation. *)
Lemma createFolderChain_idempotent_witness :
  exists st2,
    createFolderChain (proc noScript) "/a/b/c"
                      (snd (createFolderChain (proc noScript) "/a/b/c" (start ["a"; "a/b"]))) = (None, st2) /\
    trace st2 = trace (snd (createFolderChain (proc noScript) "/a/b/c" (start ["a"; "a/b"]))) ++
                [mkCall Yandex OpGetFileInfo "a/b/c" true].
Proof.
  destruct (createFolderChain_idempotent (proc noScript) "/a/b/c" (start ["a"; "a/b"])) as (_ & H & _).
  apply (H (yandex_lookup_stable noScript) (yandex_created_resolves noScript)).
  vm_compute. reflexivity.
Defined.

(** A chain with nothing in place is created from the top down. *)
Example chain_from_scratch :
  let '(err, st) := createFolderChain (proc noScript) "x\y/z/" (start []) in
  err = None /\
  filter is_mkdir (trace st) =
    [mkCall Yandex OpCreateFolder "x" true;
     mkCall Yandex OpCreateFolder "x/y" true;
     mkCall Yandex OpCreateFolder "x/y/z" true].
Proof. vm_compute. repeat split; reflexivity. Qed.

End ChainFacts.

(** ** The folder chain creator never uses up its depth

    [path.Dir] of a normalized path is shorter than the path whenever
    [createFolderChain] recurses on it, so the length of the path bounds
    the number of nested calls. *)

Module ChainDepth.
Import GoString.

Lemma length_bytes (s : string) : length (bytes s) = String.length s.
Proof. induction s as [|c s IH]; simpl; [reflexivity | now rewrite IH]. Qed.

Lemma length_of_bytes (l : list ascii) : String.length (of_bytes l) = length l.
Proof. induction l as [|c l IH]; simpl; [reflexivity | now rewrite IH]. Qed.

Lemma bytes_of_bytes (l : list ascii) : bytes (of_bytes l) = l.
Proof. apply list_ascii_of_string_of_list_ascii. Qed.

Lemma of_bytes_inj (a b : list ascii) : of_bytes a = of_bytes b -> a = b.
Proof. intros H. rewrite <- (bytes_of_bytes a), <- (bytes_of_bytes b), H. reflexivity. Qed.

Lemma bytes_eqb_true (a b : list ascii) : path.bytes_eqb a b = true -> a = b.
Proof. unfold path.bytes_eqb. intros H. apply String.eqb_eq in H. apply of_bytes_inj, H. Qed.

Lemma drop_while_length (f : ascii -> bool) (l : list ascii) :
  (length (drop_while f l) <= length l)%nat.
Proof. induction l as [|c l IH]; simpl; [lia|]. destruct (f c); simpl; lia. Qed.

Lemma drop_while_head (f : ascii -> bool) (l : list ascii) (c : ascii) (r : list ascii) :
  drop_while f l = c :: r -> f c = false.
Proof.
  induction l as [|a l IH]; simpl; [discriminate|].
  destruct (f a) eqn:E; [exact IH|]. intros [= <- _]. exact E.
Qed.

(** The weight of a list of path elements: their bytes and one separator
    each. *)
Definition weight (comps : list (list ascii)) : nat :=
  list_sum (map (fun c => S (length c)) comps).

Lemma weight_cons (c : list ascii) (comps : list (list ascii)) :
  weight (c :: comps) = (S (length c) + weight comps)%nat.
Proof. reflexivity. Qed.

Lemma weight_app (a b : list (list ascii)) : weight (a ++ b) = (weight a + weight b)%nat.
Proof. unfold weight. rewrite map_app, list_sum_app. reflexivity. Qed.

Lemma weight_rev (a : list (list ascii)) : weight (rev a) = weight a.
Proof.
  induction a as [|c a IH]; [reflexivity|].
  simpl rev. rewrite weight_app, IH, !weight_cons. unfold weight at 2. simpl. lia.
Qed.

Lemma weight_tl (a : list (list ascii)) : (weight (tl a) <= weight a)%nat.
Proof. destruct a; simpl; [lia|]. rewrite weight_cons. lia. Qed.

Lemma split_slash_weight (l : list ascii) : weight (split_slash l) = S (length l).
Proof.
  induction l as [|c l IH]; [reflexivity|].
  simpl. destruct (is_slash c).
  - rewrite weight_cons, IH. simpl. lia.
  - destruct (split_slash l) as [|x xs] eqn:E.
    + unfold weight in IH. simpl in IH. lia.
    + rewrite weight_cons in *. simpl. lia.
Qed.

Lemma join_slash_length (comps : list (list ascii)) :
  comps <> [] -> S (length (join_slash comps)) = weight comps.
Proof.
  induction comps as [|c comps IH]; [congruence|]. intros _.
  destruct comps as [|c' comps].
  - unfold weight. simpl. lia.
  - change (join_slash (c :: c' :: comps)) with (c ++ slash :: join_slash (c' :: comps)).
    rewrite weight_cons, length_app. cbn [length].
    specialize (IH ltac:(discriminate)). lia.
Qed.

Lemma clean_loop_weight (rooted : bool) (comps out : list (list ascii)) (dd : nat) :
  (weight (path.clean_loop rooted comps out dd) <= weight out + weight comps)%nat.
Proof.
  revert out dd. induction comps as [|c comps IH]; intros out dd; simpl.
  - unfold weight at 3. simpl. lia.
  - rewrite weight_cons.
    destruct (path.bytes_eqb c []); [specialize (IH out dd); lia|].
    destruct (path.bytes_eqb c path.dot); [specialize (IH out dd); lia|].
    destruct (path.bytes_eqb c path.dotdot) eqn:E.
    + apply bytes_eqb_true in E. subst c.
      destruct (Nat.ltb dd (length out)).
      * specialize (IH (tl out) dd). pose proof (weight_tl out). lia.
      * destruct rooted.
        -- specialize (IH out dd). lia.
        -- specialize (IH (path.dotdot :: out) (S (length out))).
           rewrite weight_cons in IH. lia.
    + specialize (IH (c :: out) dd). rewrite weight_cons in IH. lia.
Qed.

(** [path.Clean] never lengthens a path that is not empty. *)
Lemma Clean_bytes_length (l : list ascii) :
  l <> [] -> (length (path.Clean_bytes l) <= length l)%nat.
Proof.
  destruct l as [|c l]; [congruence|]. intros _.
  unfold path.Clean_bytes.
  set (out := rev (path.clean_loop (is_slash c) (split_slash (c :: l)) [] 0)).
  assert (Hw : (weight out <= weight (split_slash (c :: l)))%nat).
  { subst out. rewrite weight_rev.
    pose proof (clean_loop_weight (is_slash c) (split_slash (c :: l)) [] 0) as H.
    unfold weight at 2 in H. simpl in H. exact H. }
  rewrite split_slash_weight in Hw.
  destruct (is_slash c) eqn:Hs.
  - assert (Hw' : (weight out <= S (length l))%nat).
    { subst out. rewrite weight_rev. simpl split_slash. rewrite Hs.
      simpl path.clean_loop.
      pose proof (clean_loop_weight true (split_slash l) [] 0) as H.
      rewrite split_slash_weight in H. unfold weight at 2 in H. simpl in H. exact H. }
    destruct out as [|o out'] eqn:O.
    + simpl. lia.
    + pose proof (join_slash_length (o :: out') ltac:(discriminate)) as J.
      simpl length in *. lia.
  - destruct out as [|o out'] eqn:O.
    + simpl. lia.
    + pose proof (join_slash_length (o :: out') ltac:(discriminate)) as J.
      simpl length in *. lia.
Qed.

(** A normalized path, read backwards, does not start with a slash. *)
Definition trimmed (np : string) : Prop :=
  exists back, bytes np = rev back /\ forall c r, back = c :: r -> is_slash c = false.

Lemma normalizePath_trimmed (s : string) : trimmed (normalizePath s).
Proof.
  unfold normalizePath, Trim_slash.
  eexists. split; [apply bytes_of_bytes|].
  intros c r H. exact (drop_while_head _ _ _ _ H).
Qed.

Lemma normalizePath_length (s : string) :
  (String.length (normalizePath s) <= String.length s)%nat.
Proof.
  unfold normalizePath, Trim_slash, ReplaceAll_backslash.
  rewrite length_of_bytes, length_rev, bytes_of_bytes.
  etransitivity; [apply drop_while_length|].
  rewrite length_rev.
  etransitivity; [apply drop_while_length|].
  rewrite length_map, length_bytes. reflexivity.
Qed.

(** The parent on which [createFolderChain] recurses is shorter than the
    path. *)
Lemma Dir_shorter (np : string) :
  trimmed np ->
  hasParent (path.Dir np) np = true ->
  (String.length (path.Dir np) < String.length np)%nat.
Proof.
  intros (back & Hb & Hhead). unfold path.Dir, path.Split_dir. rewrite Hb, rev_involutive.
  rewrite <- (length_bytes np), Hb, length_rev, length_of_bytes.
  destruct back as [|c r].
  - simpl. unfold hasParent. simpl. discriminate.
  - simpl drop_while. rewrite (Hhead c r eq_refl). simpl negb. cbv iota.
    destruct (rev (drop_while (fun c0 => negb (is_slash c0)) r)) as [|x xs] eqn:E.
    + unfold hasParent. simpl. discriminate.
    + intros _.
      pose proof (Clean_bytes_length (x :: xs) ltac:(discriminate)) as H.
      rewrite <- E in H at 2. rewrite length_rev in H.
      pose proof (drop_while_length (fun c0 => negb (is_slash c0)) r).
      cbn [length]. lia.
Qed.

End ChainDepth.

Section ChainDepthEnough.

Context {W : Type} (p : Processor W).

Lemma createFolderChain_rec_depth (d : nat) :
  forall (d' : nat) (folderPath : string) (st : State W),
    (String.length (normalizePath folderPath) <= d)%nat ->
    (String.length (normalizePath folderPath) <= d')%nat ->
    createFolderChain_rec p d folderPath st = createFolderChain_rec p d' folderPath st.
Proof.
  induction d as [|d IH]; intros d' folderPath st Hd Hd';
    rewrite (createFolderChain_rec_eq p _ folderPath), (createFolderChain_rec_eq p d' folderPath);
    cbv zeta; set (np := normalizePath folderPath) in *;
    destruct (String.eqb np "") eqn:E; try reflexivity;
    destruct (callGetFileInfo p Yandex np st) as [[info|e] st1]; try reflexivity;
    destruct (hasParent (path.Dir np) np) eqn:Hp; try reflexivity.
  - destruct np; [discriminate | simpl in Hd; lia].
  - pose proof (ChainDepth.Dir_shorter np (ChainDepth.normalizePath_trimmed folderPath) Hp) as Hlt.
    pose proof (ChainDepth.normalizePath_length (path.Dir np)) as Hn.
    destruct d' as [|d'].
    + destruct np; [discriminate | simpl in Hd'; lia].
    + rewrite (IH d' (path.Dir np) st1) by lia. reflexivity.
Qed.

(** The depth that [createFolderChain] starts with is never used up: any
    larger one gives the same run. *)
Lemma createFolderChain_depth_enough (d : nat) (folderPath : string) (st : State W) :
  (String.length folderPath <= d)%nat ->
  createFolderChain_rec p d folderPath st = createFolderChain p folderPath st.
Proof.
  intros H. unfold createFolderChain.
  pose proof (ChainDepth.normalizePath_length folderPath).
  apply createFolderChain_rec_depth; lia.
Qed.

(** The recursion equation of [createFolderChain], as the Go function
    reads: the depth has disappeared. *)
Lemma createFolderChain_eq (folderPath : string) (st : State W) :
  createFolderChain p folderPath st =
  let folderPath := normalizePath folderPath in
  if String.eqb folderPath "" then (None, st)
  else
    let '(info, st1) := callGetFileInfo p Yandex folderPath st in
    match info with
    | inl _ => (None, st1)
    | inr _ =>
        let parentPath := path.Dir folderPath in
        let '(createErr, st2) :=
          if hasParent parentPath folderPath then createFolderChain p parentPath st1
          else (None, st1) in
        match createErr with
        | Some e =>
            (Some (Errorf ("failed to create parent folder " ++ parentPath) e), st2)
        | None =>
            let '(err, st3) := callCreateFolder p Yandex folderPath st2 in
            match err with
            | Some e => (Some (Errorf ("failed to create folder " ++ folderPath) e), st3)
            | None => (None, st3)
            end
        end
    end.
Proof.
  unfold createFolderChain at 1. rewrite createFolderChain_rec_eq. cbv zeta.
  set (np := normalizePath folderPath).
  destruct (String.eqb np "") eqn:E; [reflexivity|].
  destruct (callGetFileInfo p Yandex np st) as [[info|e] st1]; [reflexivity|].
  destruct (hasParent (path.Dir np) np) eqn:Hp; [|reflexivity].
  pose proof (ChainDepth.Dir_shorter np (ChainDepth.normalizePath_trimmed folderPath) Hp) as Hlt.
  pose proof (ChainDepth.normalizePath_length folderPath) as Hn. fold np in Hn.
  destruct (String.length folderPath) as [|d] eqn:L; [lia|].
  rewrite (createFolderChain_depth_enough d (path.Dir np) st1) by lia.
  reflexivity.
Qed.

End ChainDepthEnough.

(** ** Where the uploads go *)

Section Traces.

Context {W : Type} (p : Processor W).

Lemma adds_refl (P : Call -> Prop) (st : State W) : adds P st st.
Proof. exists []. rewrite app_nil_r. split; [reflexivity | intros c Hc; inversion Hc]. Qed.

Lemma adds_trans (P : Call -> Prop) (st1 st2 st3 : State W) :
  adds P st1 st2 -> adds P st2 st3 -> adds P st1 st3.
Proof.
  intros (c1 & E1 & H1) (c2 & E2 & H2). exists (c1 ++ c2).
  rewrite E2, E1, app_assoc. split; [reflexivity|].
  intros c Hc. apply elem_of_app in Hc. destruct Hc; auto.
Qed.

Lemma adds_weaken (P Q : Call -> Prop) (st st' : State W) :
  (forall c, P c -> Q c) -> adds P st st' -> adds Q st st'.
Proof. intros H (calls & E & HP). exists calls. split; [exact E | auto]. Qed.

Lemma adds_logged (P : Call -> Prop) (r : Remote) (o : Op) (path : string)
      (ok : bool) (w : W) (st : State W) :
  P (mkCall r o path ok) -> adds P st (logged r o path ok w st).
Proof.
  intros H. exists [mkCall r o path ok]. split; [reflexivity|].
  intros c Hc. apply list_elem_of_singleton in Hc. subst c. exact H.
Qed.

Lemma adds_then_logged (P : Call -> Prop) (r : Remote) (o : Op) (path : string)
      (ok : bool) (w : W) (st st1 : State W) :
  adds P st st1 -> P (mkCall r o path ok) -> adds P st (logged r o path ok w st1).
Proof. intros H Hc. eapply adds_trans; [exact H | apply adds_logged, Hc]. Qed.

Lemma adds_withStats (P : Call -> Prop) (f : SyncStats -> SyncStats) (st st' : State W) :
  adds P st st' -> adds P st (withStats f st').
Proof. intros H. exact H. Qed.

Lemma adds_withStats_l (P : Call -> Prop) (f : SyncStats -> SyncStats) (st st' : State W) :
  adds P st st' -> adds P (withStats f st) st'.
Proof. intros H. exact H. Qed.

Lemma under_not_write (base : string) (c : Call) : is_write c = false -> under base c.
Proof. unfold under. congruence. Qed.

Lemma string_app_assoc (a b c : string) : ((a ++ b) ++ c = a ++ (b ++ c))%string.
Proof.
  induction a as [|x a IH]; [reflexivity|].
  change (String x ((a ++ b) ++ c) = String x (a ++ (b ++ c)))%string.
  now rewrite IH.
Qed.

Lemma under_deeper (base name : string) (c : Call) :
  under (base ++ "/" ++ name) c -> under base c.
Proof.
  intros H Hw. destruct (H Hw) as (rest & E).
  exists (name ++ "/" ++ rest)%string. rewrite E.
  rewrite !string_app_assoc. reflexivity.
Qed.

(** The chain creator looks up and creates; it uploads nothing. *)
Lemma createFolderChain_rec_adds (d : nat) (folderPath : string) (st : State W) :
  adds no_write st (snd (createFolderChain_rec p d folderPath st)).
Proof.
  revert folderPath st. induction d as [|d IH]; intros folderPath st;
    rewrite createFolderChain_rec_eq; cbv zeta;
    (destruct (String.eqb _ ""); [apply adds_refl|]);
    unfold callGetFileInfo, callCreateFolder;
    destruct (GetFileInfo _ _ _) as [[info|e] w];
    try (apply adds_logged; reflexivity).
  all: match goal with
       | |- context [let '(createErr, st2) := ?parent in _] =>
           assert (P : adds no_write st (snd parent));
           [ destruct (hasParent _ _);
             [ first [ eapply adds_trans; [|apply IH]; apply adds_logged; reflexivity
                     | apply adds_logged; reflexivity ]
             | apply adds_logged; reflexivity ]
           | destruct parent as [[pe|] st2] ]
       end; simpl in P; try exact P.
  all: destruct (CreateFolder _ _ _) as [[e'|] w3]; simpl;
    (eapply adds_trans; [exact P|]; apply adds_logged; reflexivity).
Qed.

Lemma createFolderChain_adds (folderPath : string) (st : State W) :
  adds no_write st (snd (createFolderChain p folderPath st)).
Proof. apply createFolderChain_rec_adds. Qed.

(** A file transfer uploads to [yandexBasePath + "/" + decodedFileName]
    and nowhere else. *)
Lemma syncFile_adds (ncFilePath base fileName : string) (st : State W) :
  adds (under base) st (snd (syncFile p ncFilePath base fileName st)).
Proof.
  unfold syncFile, callDownloadFile, callGetFileInfo, callUploadFile, closeReader.
  destruct (DownloadFile _ _ _) as [[rd|e] w]; simpl;
    [|apply adds_logged, under_not_write; reflexivity].
  destruct (GetFileInfo _ _ _) as [[info|e] w']; simpl;
    [destruct (UploadFile _ _ _ _ _) as [[e|] w'']; simpl|].
  all: repeat (apply adds_then_logged); try apply adds_refl.
  all: try (apply under_not_write; reflexivity).
  all: intros _; exists (decodeName fileName); reflexivity.
Qed.

Lemma syncFolders_file_adds (yandexFiles : gmap string File) (base : string)
      (st : State W) (ncFile : File) :
  adds (under base) st (syncFolders_file p yandexFiles base st ncFile).
Proof.
  rewrite syncFolders_file_eq. destruct (needsSync _ _); [|exact (adds_refl _ st)].
  pose proof (syncFile_adds (FilePath ncFile) base (path.Base (FilePath ncFile))
                            (withStats incTotal st)) as H.
  destruct (syncFile _ _ _ _ _) as [[e|] st']; exact H.
Qed.

Lemma fold_left_adds {A : Type} (P : Call -> Prop) (f : State W -> A -> State W)
      (l : list A) :
  Forall (fun a => forall st, adds P st (f st a)) l ->
  forall st, adds P st (fold_left f l st).
Proof.
  induction 1 as [|a l Ha _ IH]; intros st; simpl.
  - apply adds_refl.
  - eapply adds_trans; [apply Ha | apply IH].
Qed.

(** Every upload of a run of the reconciler goes below its base path. *)
Lemma syncFolders_adds (ncFolder : Folder) :
  forall (yandexFolder : Folder) (base : string) (st : State W),
    adds (under base) st (snd (syncFolders p ncFolder yandexFolder base st)).
Proof.
  induction ncFolder as [pth m files folders IH] using Folder_ind.
  intros ya base st. rewrite syncFolders_eq. cbn [snd Files Folders].
  apply adds_trans
    with (fold_left (syncFolders_file p (filesByName (Files ya)) base) files st).
  - apply fold_left_adds. apply Forall_forall. intros f _ st0.
    apply syncFolders_file_adds.
  - apply fold_left_adds. eapply Forall_impl; [exact IH|].
    intros sub Hsub st0. cbv beta. unfold syncFolders_subfolder.
    destruct (_ !! _) as [yaSub|].
    + eapply adds_weaken; [|apply Hsub]. intros c. apply under_deeper.
    + pose proof (createFolderChain_adds
                    (base ++ "/" ++ decodeName (path.Base (Path sub))) st0) as Hc.
      destruct (createFolderChain p _ st0) as [[e|] st']; simpl in Hc.
      * eapply adds_weaken; [|exact Hc]. intros c. apply under_not_write.
      * eapply adds_trans.
        -- eapply adds_weaken; [|exact Hc]. intros c. apply under_not_write.
        -- eapply adds_weaken; [|apply Hsub]. intros c. apply under_deeper.
Qed.

End Traces.

(** ** The orchestrator: where each source root is synced *)

Section Orchestrator.

Context {W : Type} (p : Processor W).

Lemma getFileSystem_adds (r : Remote) (depth : nat) :
  forall (rootPath : string) (st st' : State W) (res : result Folder),
    getFileSystem p r depth rootPath st = Some (res, st') ->
    adds no_write st st'.
Proof.
  induction depth as [|d IH]; intros rootPath st st' res; simpl; [discriminate|].
  unfold callListFiles. destruct (ListFiles _ _ _) as [[files|e] w].
  - generalize (emptyFolder rootPath).
    assert (L : adds no_write st (logged r OpListFiles rootPath (is_ok (inl files)) w st))
      by (apply adds_logged; reflexivity).
    revert L. generalize (logged r OpListFiles rootPath (is_ok (inl files)) w st).
    induction files as [|f files IHf]; intros st1 L folder; simpl.
    + intros [= <- <-]. exact L.
    + destruct (IsDir f).
      * destruct (getFileSystem p r d (InfoPath f) st1) as [[[sub|e] st2]|] eqn:G;
          [| |discriminate].
        -- apply IHf. eapply adds_trans; [exact L | exact (IH _ _ _ _ G)].
        -- intros [= <- <-]. eapply adds_trans; [exact L | exact (IH _ _ _ _ G)].
      * apply IHf. exact L.
  - intros [= <- <-]. apply adds_logged. reflexivity.
Qed.

Lemma Main_syncPath_adds (depth : nat) (cfg : Config) (yndxFs : Folder)
      (syncPath : string) (st st' : State W) :
  Main_syncPath p depth cfg yndxFs syncPath st = Some st' ->
  adds (under (targetPathFor cfg syncPath)) st st'.
Proof.
  unfold Main_syncPath, getNextcloudFileSystem, getYandexFileSystem.
  set (tp := targetPathFor cfg syncPath).
  assert (NW : forall a b : State W, adds no_write a b -> adds (under tp) a b).
  { intros a b. apply adds_weaken. intros c. apply under_not_write. }
  destruct (getFileSystem p Nextcloud depth syncPath st) as [[[ncFs|e] st1]|] eqn:G1;
    [| |discriminate].
  - apply getFileSystem_adds, NW in G1.
    destruct (String.eqb tp _).
    + intros [= <-]. eapply adds_trans; [exact G1 | apply syncFolders_adds].
    + destruct (getFileSystem p Yandex depth tp st1) as [[[ex|e] st2]|] eqn:G2;
        [| |discriminate]; apply getFileSystem_adds, NW in G2.
      * intros [= <-]. eapply adds_trans; [exact G1|].
        eapply adds_trans; [exact G2 | apply syncFolders_adds].
      * unfold callCreateFolder.
        assert (G3 : forall (ok : bool) (w : W),
                   adds (under tp) st (logged Yandex OpCreateFolder tp ok w st2)).
        { intros ok w. apply adds_then_logged.
          - eapply adds_trans; [exact G1 | exact G2].
          - apply under_not_write. reflexivity. }
        destruct (CreateFolder _ _ _) as [[e'|] w]; intros [= <-].
        -- apply G3.
        -- eapply adds_trans; [apply G3 | apply syncFolders_adds].
  - intros [= <-]. apply NW. eapply getFileSystem_adds. exact G1.
Qed.

Lemma Main_loop_adds (depth : nat) (cfg : Config) (yndxFs : Folder)
      (syncPaths : list string) :
  forall st st' : State W,
    Main_loop p depth cfg yndxFs syncPaths st = Some st' ->
    adds (under_some (map (targetPathFor cfg) syncPaths)) st st'.
Proof.
  induction syncPaths as [|sp rest IH]; intros st st'; simpl.
  - intros [= <-]. apply adds_refl.
  - destruct (Main_syncPath p depth cfg yndxFs sp st) as [st1|] eqn:S; [|discriminate].
    intros L. eapply adds_trans.
    + eapply adds_weaken; [|exact (Main_syncPath_adds _ _ _ _ _ _ S)].
      intros c Hc Hw. destruct (Hc Hw) as (r & E).
      exists (targetPathFor cfg sp), r. split; [left | exact E].
    + eapply adds_weaken; [|exact (IH _ _ L)].
      intros c Hc Hw. destruct (Hc Hw) as (b & r & Hin & E).
      exists b, r. split; [right; exact Hin | exact E].
Qed.

Lemma Main_adds (depth : nat) (cfg : Config) (st st' : State W) (r : option error) :
  Main p depth cfg st = Some (r, st') ->
  adds (under_some (map (targetPathFor cfg) (NextcloudSyncPaths cfg))) st st'.
Proof.
  unfold Main, getYandexFileSystem.
  set (bases := map (targetPathFor cfg) (NextcloudSyncPaths cfg)).
  assert (NW : forall a b : State W, adds no_write a b -> adds (under_some bases) a b).
  { intros a b. apply adds_weaken. intros c Hc Hw. unfold no_write in Hc. congruence. }
  destruct (Nat.eqb _ 0); [intros [= <- <-]; apply adds_refl|].
  destruct (getFileSystem p Yandex depth _ st) as [[[fs|e] st1]|] eqn:G; [| |discriminate];
    apply getFileSystem_adds, NW in G.
  - destruct (Main_loop p depth cfg fs _ _) as [st2|] eqn:L; [|discriminate].
    intros [= <- <-]. eapply adds_trans; [exact G|]. exact (Main_loop_adds _ _ _ _ _ _ L).
  - pose proof (createFolderChain_adds p (YandexTargetPath cfg) st1) as C. apply NW in C.
    destruct (createFolderChain p _ st1) as [[e'|] st2]; simpl in C.
    + intros [= <- <-]. eapply adds_trans; [exact G | exact C].
    + destruct (Main_loop p depth cfg _ _ _) as [st3|] eqn:L; [|discriminate].
      intros [= <- <-]. eapply adds_trans; [exact G|]. eapply adds_trans; [exact C|].
      exact (Main_loop_adds _ _ _ _ _ _ L).
Qed.

Lemma string_length_app (a b : string) :
  String.length (a ++ b) = (String.length a + String.length b)%nat.
Proof.
  induction a as [|x a IH]; [reflexivity|].
  change (S (String.length (a ++ b)) = S (String.length a + String.length b)).
  now rewrite IH.
Qed.

Lemma targetPathFor_single (cfg : Config) (syncPath : string) :
  length (NextcloudSyncPaths cfg) = 1%nat ->
  targetPathFor cfg syncPath = YandexTargetPath cfg.
Proof. intros H. unfold targetPathFor. rewrite H. reflexivity. Qed.

Lemma targetPathFor_several (cfg : Config) (syncPath : string) :
  (2 <= length (NextcloudSyncPaths cfg))%nat ->
  targetPathFor cfg syncPath =
    (YandexTargetPath cfg ++ "/" ++
     (if (String.eqb (path.Base syncPath) "/" || String.eqb (path.Base syncPath) ".")%bool
      then "root" else path.Base syncPath))%string /\
  targetPathFor cfg syncPath <> YandexTargetPath cfg.
Proof.
  intros H. unfold targetPathFor.
  destruct (Nat.eqb_spec (length (NextcloudSyncPaths cfg)) 1); [lia|].
  split; [reflexivity|].
  intros E. apply (f_equal String.length) in E.
  rewrite string_length_app in E. simpl in E. lia.
Qed.

(** The body of the loop of [Main] deals with a source root as the
    mapping asks. *)
Lemma Main_syncPath_syncs (depth : nat) (cfg : Config) (yndxFs : Folder)
      (syncPath : string) (st st' : State W) :
  Main_syncPath p depth cfg yndxFs syncPath st = Some st' ->
  syncs_root p depth (YandexTargetPath cfg) yndxFs (targetPathFor cfg syncPath) syncPath
             st st'.
Proof.
  unfold Main_syncPath.
  destruct (getNextcloudFileSystem p depth syncPath st) as [[[ncFs|e] st1]|] eqn:N;
    [| |discriminate].
  - destruct (String.eqb_spec (targetPathFor cfg syncPath) (YandexTargetPath cfg)) as [E|E].
    + intros [= <-]. eapply synced_into_root; [exact N | exact E | reflexivity].
    + destruct (getYandexFileSystem p depth (targetPathFor cfg syncPath) st1)
        as [[[existingFs|e] st2]|] eqn:Y; [| |discriminate].
      * intros [= <-]. eapply synced_into_existing; [exact N | exact E | exact Y | reflexivity].
      * destruct (callCreateFolder p Yandex (targetPathFor cfg syncPath) st2)
          as [[e'|] st3] eqn:C; intros [= <-].
        -- eapply target_uncreatable; [exact N | exact E | exact Y | exact C].
        -- eapply synced_into_created; [exact N | exact E | exact Y | exact C | reflexivity].
  - intros [= <-]. eapply source_unreadable. exact N.
Qed.

Lemma Main_loop_syncs (depth : nat) (cfg : Config) (yndxFs : Folder) :
  forall (syncPaths : list string) (st st' : State W),
    Main_loop p depth cfg yndxFs syncPaths st = Some st' ->
    syncs_roots p depth (YandexTargetPath cfg) yndxFs (targetPathFor cfg) syncPaths st st'.
Proof.
  induction syncPaths as [|syncPath rest IH]; intros st st'; simpl.
  - intros [= <-]. reflexivity.
  - destruct (Main_syncPath p depth cfg yndxFs syncPath st) as [st1|] eqn:S1; [|discriminate].
    intros L. exists st1. split; [apply Main_syncPath_syncs; exact S1 | apply IH; exact L].
Qed.

Lemma syncs_roots_ext (depth : nat) (rootPath : string) (yndxFs : Folder)
      (f g : string -> string) :
  (forall syncPath, f syncPath = g syncPath) ->
  forall (syncPaths : list string) (st st' : State W),
    syncs_roots p depth rootPath yndxFs f syncPaths st st' ->
    syncs_roots p depth rootPath yndxFs g syncPaths st st'.
Proof.
  intros E. induction syncPaths as [|syncPath rest IH]; intros st st' S; [exact S|].
  cbn [syncs_roots] in *. destruct S as (st1 & S1 & S2). exists st1.
  split; [rewrite <- E; exact S1 | apply IH; exact S2].
Qed.

Lemma Main_syncs (depth : nat) (cfg : Config) (st st' : State W) :
  Main p depth cfg st = Some (None, st') ->
  exists (yndxFs : Folder) (st0 : State W),
    root_snapshot p depth (YandexTargetPath cfg) st yndxFs st0 /\
    syncs_roots p depth (YandexTargetPath cfg) yndxFs (targetPathFor cfg)
                (NextcloudSyncPaths cfg) (withStats (fun _ => zeroStats) st0) st'.
Proof.
  unfold Main, root_snapshot.
  destruct (Nat.eqb _ 0); [discriminate|].
  destruct (getYandexFileSystem p depth (YandexTargetPath cfg) st) as [[[fs|e] st1]|];
    [| |discriminate].
  - destruct (Main_loop p depth cfg fs _ _) as [st2|] eqn:L; [|discriminate].
    intros [= <-]. exists fs, st1. split; [left; reflexivity|].
    apply Main_loop_syncs. exact L.
  - destruct (createFolderChain p (YandexTargetPath cfg) st1) as [[e'|] st2] eqn:C;
      [discriminate|].
    destruct (Main_loop p depth cfg _ _ _) as [st3|] eqn:L; [|discriminate].
    intros [= <-]. exists (emptyFolder (YandexTargetPath cfg)), st2.
    split; [right; exists e, st1; repeat split; exact C|].
    apply Main_loop_syncs. exact L.
Qed.

(** C3. With exactly one source root configured, the target path of the
    root is the destination root itself.  With two or more, it is the
    destination root, a slash, and the final segment of the source root
    (["root"] when that segment is ["/"] or ["."]), which is never the
    destination root.  A run of [Main] that is not fatal deals with the
    source roots one after the other, in the order of the
    configuration: the snapshot of each root is reconciled with its
    target path as base path, against the snapshot of the destination
    root when the target is the destination root, and otherwise against
    the snapshot of the target folder taken for this root, or the empty
    folder when the target folder had to be created; a root is left out
    only when its own snapshot cannot be taken or its target folder can
    neither be read nor created.  With one root configured the run is
    the reconciliation of that root against the snapshot of the
    destination root, with the destination root as base path.  Every
    upload that [Main] issues goes below the target path of one of the
    configured source roots, and the uploads for one source root go
    below its own target path.  For ["/docs"] and ["/photos"] under
    ["/backup"] the target paths are ["/backup/docs"] and
    ["/backup/photos"]. *)
Theorem multi_root_mapping :
  (forall (cfg : Config) (syncPath : string),
      length (NextcloudSyncPaths cfg) = 1%nat ->
      targetPathFor cfg syncPath = YandexTargetPath cfg) /\
  (forall (cfg : Config) (syncPath : string),
      (2 <= length (NextcloudSyncPaths cfg))%nat ->
      targetPathFor cfg syncPath =
        (YandexTargetPath cfg ++ "/" ++
         (if (String.eqb (path.Base syncPath) "/" || String.eqb (path.Base syncPath) ".")%bool
          then "root" else path.Base syncPath))%string /\
      targetPathFor cfg syncPath <> YandexTargetPath cfg) /\
  (forall (depth : nat) (cfg : Config) (st st' : State W),
      Main p depth cfg st = Some (None, st') ->
      exists (yndxFs : Folder) (st0 : State W),
        root_snapshot p depth (YandexTargetPath cfg) st yndxFs st0 /\
        syncs_roots p depth (YandexTargetPath cfg) yndxFs (targetPathFor cfg)
                    (NextcloudSyncPaths cfg) (withStats (fun _ => zeroStats) st0) st') /\
  (forall (depth : nat) (cfg : Config) (syncPath : string) (st st' : State W),
      NextcloudSyncPaths cfg = [syncPath] ->
      Main p depth cfg st = Some (None, st') ->
      exists (yndxFs : Folder) (st0 : State W),
        root_snapshot p depth (YandexTargetPath cfg) st yndxFs st0 /\
        ((exists e : error,
             getNextcloudFileSystem p depth syncPath (withStats (fun _ => zeroStats) st0)
             = Some (inr e, st')) \/
         (exists (ncFs : Folder) (st1 : State W),
             getNextcloudFileSystem p depth syncPath (withStats (fun _ => zeroStats) st0)
             = Some (inl ncFs, st1) /\
             st' = snd (syncFolders p ncFs yndxFs (YandexTargetPath cfg) st1)))) /\
  (forall (depth : nat) (cfg : Config) (st st' : State W),
      (2 <= length (NextcloudSyncPaths cfg))%nat ->
      Main p depth cfg st = Some (None, st') ->
      exists (yndxFs : Folder) (st0 : State W),
        root_snapshot p depth (YandexTargetPath cfg) st yndxFs st0 /\
        syncs_roots p depth (YandexTargetPath cfg) yndxFs
                    (fun syncPath => YandexTargetPath cfg ++ "/" ++ subfolderName syncPath)%string
                    (NextcloudSyncPaths cfg) (withStats (fun _ => zeroStats) st0) st' /\
        Forall (fun syncPath =>
                  (YandexTargetPath cfg ++ "/" ++ subfolderName syncPath)%string
                  <> YandexTargetPath cfg) (NextcloudSyncPaths cfg)) /\
  (forall (depth : nat) (cfg : Config) (st st' : State W) (r : option error),
      Main p depth cfg st = Some (r, st') ->
      adds (under_some (map (targetPathFor cfg) (NextcloudSyncPaths cfg))) st st') /\
  (forall (depth : nat) (cfg : Config) (yndxFs : Folder) (syncPath : string)
          (st st' : State W),
      Main_syncPath p depth cfg yndxFs syncPath st = Some st' ->
      adds (under (targetPathFor cfg syncPath)) st st') /\
  map (targetPathFor (mkConfig "/backup" ["/docs"; "/photos"])) ["/docs"; "/photos"]
  = ["/backup/docs"; "/backup/photos"].
Proof.
  split; [exact targetPathFor_single|]. split; [exact targetPathFor_several|].
  split; [exact Main_syncs|]. split; [|split; [|split; [|split]]].
  - intros depth cfg syncPath st st' Hone H.
    destruct (Main_syncs depth cfg st st' H) as (yndxFs & st0 & R & S).
    exists yndxFs, st0. split; [exact R|].
    rewrite Hone in S. cbn [syncs_roots] in S. destruct S as (st1 & S & ->).
    assert (T : targetPathFor cfg syncPath = YandexTargetPath cfg)
      by (apply targetPathFor_single; rewrite Hone; reflexivity).
    destruct S as [e N | ncFs s1 N _ E | ncFs ex s1 s2 _ Ne | ncFs e s1 s2 s3 _ Ne
                   | ncFs e e' s1 s2 _ Ne]; try (destruct (Ne T)).
    + left. exists e. exact N.
    + right. exists ncFs, s1. split; [exact N|]. rewrite E, T. reflexivity.
  - intros depth cfg st st' Hmany H.
    destruct (Main_syncs depth cfg st st' H) as (yndxFs & st0 & R & S).
    exists yndxFs, st0. split; [exact R|].
    assert (T : forall syncPath,
               targetPathFor cfg syncPath
               = (YandexTargetPath cfg ++ "/" ++ subfolderName syncPath)%string)
      by (intros syncPath; apply (targetPathFor_several cfg syncPath Hmany)).
    split.
    + exact (syncs_roots_ext _ _ _ _ _ T _ _ _ S).
    + apply Forall_forall. intros syncPath _. rewrite <- T.
      apply (targetPathFor_several cfg syncPath Hmany).
  - intros. eapply Main_adds. eassumption.
  - intros. eapply Main_syncPath_adds. eassumption.
  - reflexivity.
Qed.

End Orchestrator.

Module MultiRoot.
Import Fake Scenarios.

(** Scenario C on the double: the two files land in [/backup/docs] and
    [/backup/photos], nothing is written in [/backup] itself. *)
Example scenario_C :
  match Main (proc scriptC) 2 cfgC (start []) with
  | Some (err, st) =>
      err = None /\ stats st = mkSyncStats 2 2 0 0 /\
      ya_written (world st) = [("/backup/docs/a.txt", "aa"); ("/backup/photos/b.jpg", "bbb")] /\
      filter is_mkdir (trace st) =
        [mkCall Yandex OpCreateFolder "/backup/docs" true;
         mkCall Yandex OpCreateFolder "/backup/photos" true]
  | None => False
  end.
Proof. vm_compute. repeat split; reflexivity. Qed.

(** The mapping theorem applied to scenario C: the run deals with
    ["/docs"] and then with ["/photos"], each into its own subfolder of
    ["/backup"]. *)
Lemma multi_root_mapping_witness :
  let st' := match Main (proc scriptC) 2 cfgC (start []) with
             | Some (_, st') => st'
             | None => start []
             end in
  exists (yndxFs : Folder) (st0 : State World),
    root_snapshot (proc scriptC) 2 "/backup" (start []) yndxFs st0 /\
    syncs_roots (proc scriptC) 2 "/backup" yndxFs
                (fun syncPath => "/backup" ++ "/" ++ subfolderName syncPath)%string
                ["/docs"; "/photos"] (withStats (fun _ => zeroStats) st0) st' /\
    Forall (fun syncPath => ("/backup" ++ "/" ++ subfolderName syncPath)%string <> "/backup")
           ["/docs"; "/photos"].
Proof.
  cbv zeta.
  destruct (multi_root_mapping (proc scriptC)) as (_ & _ & _ & _ & H & _).
  apply (H 2%nat cfgC (start [])).
  - simpl. lia.
  - vm_compute. reflexivity.
Defined.

End MultiRoot.

Module Collisions.
Import Fake Scenarios.

(** C8 fails on the code: the subfolder is named after the final segment
    of the source root alone, so two distinct source roots with the same
    final segment are mapped to the same destination subfolder; so are
    ["/"] and ["."], both named ["root"]. *)
Theorem same_final_segment_collides :
  "/alice/docs" <> "/bob/docs" /\
  map (targetPathFor cfgD) (NextcloudSyncPaths cfgD) = ["/backup/docs"; "/backup/docs"] /\
  (forall (cfg : Config) (a b : string),
      path.Base a = path.Base b -> targetPathFor cfg a = targetPathFor cfg b) /\
  map (targetPathFor (mkConfig "/backup" ["/"; "."])) ["/"; "."]
  = ["/backup/root"; "/backup/root"].
Proof.
  split; [discriminate|]. split; [reflexivity|]. split; [|reflexivity].
  intros cfg a b H. unfold targetPathFor. rewrite H. reflexivity.
Qed.

(** The run on the double: the first root creates [/backup/docs] and
    uploads into it; the second is mapped to the same folder. *)
Example colliding_roots_run :
  match Main (proc scriptD) 2 cfgD (start []) with
  | Some (err, st) =>
      err = None /\
      filter (fun c => Op_eqb (op c) OpCreateFolder) (trace st) =
        [mkCall Yandex OpCreateFolder "/backup/docs" true;
         mkCall Yandex OpCreateFolder "/backup/docs" false]
  | None => False
  end.
Proof. vm_compute. repeat split; reflexivity. Qed.

End Collisions.

(** ** Name decoding *)

Module Decoding.
Import GoString.

Lemma of_bytes_bytes (s : string) : of_bytes (bytes s) = s.
Proof. apply string_of_list_ascii_of_string. Qed.

Lemma validate_no_percent (l : list ascii) :
  Forall (fun c => c <> url.percent) l -> url.validate l = None.
Proof.
  induction 1 as [|c l Hc _ IH]; simpl; [reflexivity|].
  apply Ascii.eqb_neq in Hc. rewrite Hc. exact IH.
Qed.

Lemma decode_plain (l : list ascii) :
  Forall (fun c => c <> url.percent /\ c <> url.plus) l -> url.decode l = l.
Proof.
  induction 1 as [|c l [Hc Hp] _ IH]; simpl; [reflexivity|].
  apply Ascii.eqb_neq in Hc, Hp. rewrite Hc, Hp, IH. reflexivity.
Qed.

(** C7 as stated fails: a name without any percent-escape is changed by
    the decoding when it holds a plus sign, which [url.QueryUnescape]
    turns into a space. *)
Lemma decodeName_changes_plus :
  ~ (forall name : string,
        Forall (fun c => c <> url.percent) (bytes name) -> decodeName name = name).
Proof.
  intros H. specialize (H "a+b.txt").
  assert (D : decodeName "a+b.txt" = "a b.txt") by reflexivity.
  rewrite D in H. discriminate H.
  repeat constructor; discriminate.
Qed.

Lemma bytes_of_decoded (l : list ascii) : bytes (of_bytes l) = l.
Proof. apply list_ascii_of_string_of_list_ascii. Qed.

Lemma decode_no_percent (l : list ascii) :
  Forall (fun c => c <> url.percent) l -> url.decode l = map plus_to_space l.
Proof.
  induction 1 as [|c l Hc _ IH]; simpl; [reflexivity|].
  apply Ascii.eqb_neq in Hc. rewrite Hc, IH. unfold plus_to_space.
  destruct (Ascii.eqb c url.plus); reflexivity.
Qed.

(** Decoding never makes a name longer. *)
Lemma decode_length (n : nat) :
  forall l : list ascii, (length l <= n)%nat -> (length (url.decode l) <= length l)%nat.
Proof.
  induction n as [|n IH]; intros l Hl.
  - destruct l; [simpl; lia | simpl in Hl; lia].
  - destruct l as [|c r]; [simpl; lia|]. simpl in Hl. cbn [url.decode].
    destruct (Ascii.eqb c url.percent).
    + destruct r as [|a [|b r']].
      * simpl. lia.
      * simpl. destruct (Ascii.eqb a url.percent), (Ascii.eqb a url.plus); simpl; lia.
      * cbn [length] in *. specialize (IH r' ltac:(lia)). lia.
    + specialize (IH r ltac:(lia)).
      destruct (Ascii.eqb c url.plus); cbn [length]; lia.
Qed.

(** A name that decodes to itself holds no escape and no plus sign. *)
Lemma decode_fixed_plain (l : list ascii) :
  url.validate l = None -> url.decode l = l ->
  Forall (fun c => c <> url.percent /\ c <> url.plus) l.
Proof.
  induction l as [|c r IH]; [constructor|].
  cbn [url.validate url.decode].
  destruct (Ascii.eqb_spec c url.percent) as [->|Hc].
  - destruct r as [|a [|b r']]; try discriminate.
    destruct (url.ishex a && url.ishex b)%bool; [|discriminate].
    intros _ E. injection E as _ E. apply (f_equal (@length ascii)) in E.
    pose proof (decode_length (length r') r' (le_n _)) as L. cbn [length] in E. lia.
  - destruct (Ascii.eqb_spec c url.plus) as [->|Hp].
    + intros _ E. discriminate E.
    + intros V E. injection E as E. constructor; [split; assumption|]. exact (IH V E).
Qed.

(** The first pass fails exactly on a percent sign that is not followed
    by two hexadecimal digits. *)
Lemma validate_fails (n : nat) :
  forall l : list ascii,
    (length l <= n)%nat ->
    (url.validate l <> None <->
     exists before after : list ascii,
       l = before ++ url.percent :: after /\ two_hex after = false).
Proof.
  induction n as [|n IH]; intros l Hl.
  - destruct l; [|simpl in Hl; lia]. split.
    + intros H. destruct (H eq_refl).
    + intros (before & after & E & _). destruct before; discriminate.
  - destruct l as [|c r].
    { split.
      + intros H. destruct (H eq_refl).
      + intros (before & after & E & _). destruct before; discriminate. }
    simpl in Hl. cbn [url.validate].
    destruct (Ascii.eqb_spec c url.percent) as [->|Hc].
    + destruct (two_hex r) eqn:T.
      * destruct r as [|a [|b r']]; try discriminate. cbn [two_hex] in T. rewrite T.
        cbn [length] in Hl. rewrite (IH r' ltac:(lia)). split.
        -- intros (before & after & -> & H). exists (url.percent :: a :: b :: before), after.
           split; [reflexivity | exact H].
        -- intros (before & after & E & H).
           destruct before as [|x before]; [injection E as <-; cbn [two_hex] in H; congruence|].
           injection E as _ E.
           apply andb_prop in T. destruct T as [Ta Tb].
           destruct before as [|y before];
             [injection E as -> _; vm_compute in Ta; discriminate|].
           destruct before as [|z before];
             [injection E as _ -> _; vm_compute in Tb; discriminate|].
           injection E as _ _ ->. exists before, after. split; [reflexivity | exact H].
      * split.
        -- intros _. exists [], r. split; [reflexivity | exact T].
        -- intros _. destruct r as [|a [|b r']]; try discriminate.
           cbn [two_hex] in T. rewrite T. discriminate.
    + rewrite (IH r ltac:(lia)). split.
      * intros (before & after & -> & H). exists (c :: before), after.
        split; [reflexivity | exact H].
      * intros (before & after & E & H). destruct before as [|x before].
        -- injection E as -> _. contradiction.
        -- injection E as _ ->. exists before, after. split; [reflexivity | exact H].
Qed.

Lemma QueryUnescape_fails (name : string) :
  (exists e, url.QueryUnescape name = inr e) <-> malformedEscape name.
Proof.
  unfold malformedEscape.
  rewrite <- (validate_fails (length (bytes name)) (bytes name) (le_n _)).
  unfold url.QueryUnescape. destruct (url.validate (bytes name)) as [bad|]; split.
  - discriminate.
  - intros _. eexists. reflexivity.
  - intros [e H]. discriminate.
  - intros H. destruct (H eq_refl).
Qed.

(** C7, as the code has it.  Decoding returns a name unchanged in two
    cases and in no other: the name is plain, that is, it holds neither a
    percent sign nor a plus sign (["report.txt"] is one), or it holds a
    percent sign that is not followed by two hexadecimal digits, which is
    exactly when [url.QueryUnescape] fails and the name is kept
    (["100%.txt"] is one); on such names decoding is idempotent.  In a
    name without percent signs every plus sign becomes a space and no
    other byte changes (["a+b.txt"] gives ["a b.txt"]).
    ["my%20file.txt"] is decoded to ["my file.txt"], and the decoded base
    name is the key under which the destination map is searched. *)
Theorem decodeName_plain_names :
  (forall name : string,
      decodeName name = name <-> plainName name \/ malformedEscape name) /\
  (forall name : string,
      plainName name \/ malformedEscape name ->
      decodeName (decodeName name) = decodeName name) /\
  (forall name : string,
      malformedEscape name <-> exists e, url.QueryUnescape name = inr e) /\
  (forall name : string,
      Forall (fun c => c <> url.percent) (bytes name) ->
      bytes (decodeName name) = map plus_to_space (bytes name)) /\
  decodeName "report.txt" = "report.txt" /\
  decodeName "100%.txt" = "100%.txt" /\
  decodeName "a+b.txt" = "a b.txt" /\
  decodeName "my%20file.txt" = "my file.txt" /\
  (forall (yandexFiles : gmap string File) (ncFile : File),
      needsSync yandexFiles ncFile =
      match yandexFiles !! decodeName (path.Base (FilePath ncFile)) with
      | None => true
      | Some yandexFile => After (FileModified ncFile) (FileModified yandexFile)
      end) /\
  (forall (yandexFiles : gmap string File) (ncFile : File),
      path.Base (FilePath ncFile) = "my%20file.txt" ->
      needsSync yandexFiles ncFile =
      match yandexFiles !! "my file.txt" with
      | None => true
      | Some yandexFile => After (FileModified ncFile) (FileModified yandexFile)
      end).
Proof.
  assert (Fixed : forall name : string,
             decodeName name = name <-> plainName name \/ malformedEscape name).
  { intros name. split.
    - intros E. unfold decodeName in E.
      destruct (url.QueryUnescape name) as [decoded|err] eqn:Q.
      + left. unfold url.QueryUnescape in Q.
        destruct (url.validate (bytes name)) as [bad|] eqn:V; [discriminate|].
        injection Q as Q. subst decoded.
        apply decode_fixed_plain; [exact V|].
        apply (f_equal bytes) in E. rewrite bytes_of_decoded in E. exact E.
      + right. apply QueryUnescape_fails. exists err. exact Q.
    - intros [P|M].
      + unfold decodeName, url.QueryUnescape.
        rewrite validate_no_percent
          by (eapply Forall_impl; [exact P|]; intros c [Hc _]; exact Hc).
        rewrite decode_plain by exact P. apply of_bytes_bytes.
      + apply QueryUnescape_fails in M. destruct M as [e Q].
        unfold decodeName. rewrite Q. reflexivity. }
  split; [exact Fixed|]. split; [|split; [|split]].
  - intros name H. apply Fixed in H. rewrite !H. reflexivity.
  - intros name. symmetry. apply QueryUnescape_fails.
  - intros name H. unfold decodeName, url.QueryUnescape.
    rewrite validate_no_percent by exact H.
    rewrite bytes_of_decoded. apply decode_no_percent. exact H.
  - repeat split.
    intros yandexFiles ncFile H. unfold needsSync. rewrite H. reflexivity.
Qed.

(** The two kinds of unchanged names are met by the examples of the
    theorem, and a name with a well-formed escape is of neither kind. *)
Example kinds_of_names :
  plainName "report.txt" /\ malformedEscape "100%.txt" /\
  ~ (plainName "my%20file.txt" \/ malformedEscape "my%20file.txt").
Proof.
  split; [repeat constructor; discriminate|]. split.
  - exists (bytes "100"), (bytes ".txt"). split; reflexivity.
  - intros H.
    assert (E : decodeName "my%20file.txt" <> "my%20file.txt") by discriminate.
    apply E. clear E. destruct H as [P|M].
    + unfold decodeName, url.QueryUnescape.
      rewrite validate_no_percent
        by (eapply Forall_impl; [exact P|]; intros c [Hc _]; exact Hc).
      rewrite decode_plain by exact P. apply of_bytes_bytes.
    + apply QueryUnescape_fails in M. destruct M as [e Q]. discriminate Q.
Qed.

(** A name whose escapes are malformed is kept as it is. *)
Example decodeName_malformed : decodeName "100%.txt" = "100%.txt".
Proof. reflexivity. Qed.

(** Decoding twice is not decoding once when the name holds an escaped
    percent sign. *)
Example decodeName_twice :
  decodeName "%2541" = "%41" /\ decodeName (decodeName "%2541") = "A".
Proof. split; reflexivity. Qed.

End Decoding.

(** ** The orchestrator: when a run is fatal *)

Section Fatality.

Context {W : Type} (p : Processor W).

Lemma Main_syncPath_returns (depth : nat) (cfg : Config) (yndxFs : Folder)
      (syncPath : string) (st : State W) :
  snapshots_return p depth ->
  exists st', Main_syncPath p depth cfg yndxFs syncPath st = Some st'.
Proof.
  intros H. unfold Main_syncPath, getNextcloudFileSystem, getYandexFileSystem.
  pose proof (H Nextcloud syncPath st) as H1.
  destruct (getFileSystem p Nextcloud depth syncPath st) as [[[ncFs|e] st1]|];
    [| eexists; reflexivity | congruence].
  destruct (String.eqb _ _); [eexists; reflexivity|].
  pose proof (H Yandex (targetPathFor cfg syncPath) st1) as H2.
  destruct (getFileSystem p Yandex depth _ st1) as [[[ex|e] st2]|];
    [eexists; reflexivity | | congruence].
  destruct (callCreateFolder p Yandex _ st2) as [[e'|] st3]; eexists; reflexivity.
Qed.

Lemma Main_loop_returns (depth : nat) (cfg : Config) (yndxFs : Folder)
      (syncPaths : list string) :
  snapshots_return p depth ->
  forall st : State W, exists st', Main_loop p depth cfg yndxFs syncPaths st = Some st'.
Proof.
  intros H. induction syncPaths as [|sp rest IH]; intros st; simpl.
  - eexists; reflexivity.
  - destruct (Main_syncPath_returns depth cfg yndxFs sp st H) as (st1 & E).
    rewrite E. apply IH.
Qed.

(** What [Main] returns, by cases. *)
Lemma Main_result (depth : nat) (cfg : Config) (st st' : State W) (r : option error) :
  Main p depth cfg st = Some (r, st') ->
  (r <> None <-> fatal_cause p depth cfg st).
Proof.
  unfold Main, fatal_cause.
  destruct (NextcloudSyncPaths cfg) as [|sp rest] eqn:Paths; simpl.
  - intros [= <- <-]. split; [intros _; left; reflexivity | discriminate].
  - destruct (getYandexFileSystem p depth _ st) as [[[fs|e] st1]|]; [| |discriminate].
    + destruct (Main_syncPath p depth cfg fs sp _) as [st2|]; [|discriminate].
      destruct (Main_loop p depth cfg fs rest st2) as [st3|]; [|discriminate].
      intros [= <- <-]. split; [congruence|].
      intros [H | (e & s1 & e' & s2 & H & _)]; discriminate.
    + destruct (createFolderChain p _ st1) as [[e'|] st2] eqn:C.
      * intros [= <- <-]. split; [|discriminate].
        intros _. right. exists e, st1, e', st2. split; [reflexivity | exact C].
      * destruct (Main_syncPath p depth cfg _ sp _) as [st3|]; [|discriminate].
        destruct (Main_loop p depth cfg _ rest st3) as [st4|]; [|discriminate].
        intros [= <- <-]. split; [congruence|].
        intros [H | (e0 & s1 & e' & s2 & H & C')]; [discriminate|].
        injection H as <- <-. rewrite C in C'. discriminate.
Qed.

(** C5. A run is fatal in two cases only: no sync path is configured, or
    the listing of the target folder fails and the creation of its folder
    chain fails too.  In both cases [Main] returns an error; a run that
    returns, returns an error in these cases and [nil] in every other,
    whatever failed for a source root or a file; and [Main] does return
    as soon as the snapshots do. *)
Theorem Main_fatal_iff :
  (forall (depth : nat) (cfg : Config) (st : State W),
      fatal_cause p depth cfg st ->
      exists e st', Main p depth cfg st = Some (Some e, st')) /\
  (forall (depth : nat) (cfg : Config) (st st' : State W) (r : option error),
      Main p depth cfg st = Some (r, st') ->
      (r <> None <-> fatal_cause p depth cfg st)) /\
  (forall (depth : nat) (cfg : Config) (st : State W),
      snapshots_return p depth ->
      exists r st',
        Main p depth cfg st = Some (r, st') /\
        (r = None <-> ~ fatal_cause p depth cfg st)).
Proof.
  split; [|split].
  - intros depth cfg st [Paths | (e & st1 & e' & st2 & G & C)]; unfold Main.
    + rewrite Paths. simpl. eexists _, _. reflexivity.
    + destruct (Nat.eqb _ 0); [eexists _, _; reflexivity|].
      rewrite G, C. eexists _, _. reflexivity.
  - apply Main_result.
  - intros depth cfg st H.
    assert (R : exists r st', Main p depth cfg st = Some (r, st')).
    { unfold Main. destruct (Nat.eqb _ 0); [eexists _, _; reflexivity|].
      pose proof (H Yandex (YandexTargetPath cfg) st) as H1.
      unfold getYandexFileSystem.
      destruct (getFileSystem p Yandex depth _ st) as [[[fs|e] st1]|]; [| |congruence].
      - destruct (Main_loop_returns depth cfg fs (NextcloudSyncPaths cfg) H
                                    (withStats (fun _ => zeroStats) st1)) as (st2 & L).
        rewrite L. eexists _, _. reflexivity.
      - destruct (createFolderChain p _ st1) as [[e'|] st2]; [eexists _, _; reflexivity|].
        destruct (Main_loop_returns depth cfg (emptyFolder (YandexTargetPath cfg))
                                    (NextcloudSyncPaths cfg) H
                                    (withStats (fun _ => zeroStats) st2)) as (st3 & L).
        rewrite L. eexists _, _. reflexivity. }
    destruct R as (r & st' & E). exists r, st'. split; [exact E|].
    pose proof (Main_result depth cfg st st' r E) as M.
    destruct r as [e|].
    + split; [discriminate|]. intros X. exfalso. apply X, M. discriminate.
    + split; [|reflexivity]. intros _ F. apply M in F. congruence.
Qed.

End Fatality.

Module FatalityFacts.
Import Fake Scenarios.

Lemma assoc_flat (path : string) (table : list (string * list FileInfo))
      (files : list FileInfo) :
  forallb (fun entry => forallb (fun f => negb (IsDir f)) (snd entry)) table = true ->
  assoc path table = Some files ->
  forallb (fun f => negb (IsDir f)) files = true.
Proof.
  induction table as [|[k v] table IH]; simpl; [discriminate|].
  intros H. apply andb_prop in H. destruct H as [Hv Ht].
  destruct (String.eqb path k); [intros [= <-]; exact Hv | exact (IH Ht)].
Qed.

Lemma entries_flat_return {W : Type} (p : Processor W)
      (recurse : string -> State W -> option (result Folder * State W))
      (files : list FileInfo) :
  forallb (fun f => negb (IsDir f)) files = true ->
  forall folder st, getFileSystem_entries recurse files folder st <> None.
Proof.
  induction files as [|f files IH]; simpl; intros H folder st; [discriminate|].
  apply andb_prop in H. destruct H as [Hf Hr].
  destruct (IsDir f); [discriminate|]. apply IH. exact Hr.
Qed.

(** One listing is enough for every snapshot of a flat script. *)
Lemma flat_snapshots_return (s : Script) :
  flat s = true -> snapshots_return (proc s) 1.
Proof.
  unfold flat. rewrite forallb_app. intros H. apply andb_prop in H.
  destruct H as [Hya Hnc]. intros r rootPath st.
  unfold getFileSystem, callListFiles.
  destruct r; simpl.
  - destruct (assoc rootPath (ya_listing s)) as [files|] eqn:A; [|discriminate].
    apply (entries_flat_return (proc s)). exact (assoc_flat _ _ _ Hya A).
  - destruct (assoc rootPath (nc_listing s)) as [files|] eqn:A; [|discriminate].
    apply (entries_flat_return (proc s)). exact (assoc_flat _ _ _ Hnc A).
Qed.

(** The fatality theorem on scenario C: the run returns, and it returns
    [nil] exactly when no fatal cause is there. *)
Lemma Main_fatal_iff_witness :
  exists r st',
    Main (proc scriptC) 1 cfgC (start []) = Some (r, st') /\
    (r = None <-> ~ fatal_cause (proc scriptC) 1 cfgC (start [])).
Proof.
  destruct (Main_fatal_iff (proc scriptC)) as (_ & _ & H).
  apply H. apply flat_snapshots_return. reflexivity.
Defined.

(** Scenario D: the destination root is missing; its whole chain is
    created before the first transfer. *)
Example scenario_D :
  match Main (proc scriptD0) 1 cfgD0 (start []) with
  | Some (err, st) =>
      err = None /\ stats st = mkSyncStats 1 1 0 0 /\
      filter (fun c => is_mkdir c || is_write c)%bool (trace st) =
        [mkCall Yandex OpCreateFolder "backup" true;
         mkCall Yandex OpCreateFolder "backup/2024" true;
         mkCall Yandex OpCreateFolder "backup/2024/docs" true;
         mkCall Yandex OpUploadFile "/backup/2024/docs/a.txt" true]
  | None => False
  end.
Proof. vm_compute. repeat split; reflexivity. Qed.

(** The two fatal runs. *)
Example fatal_no_paths :
  Main (proc scriptC) 1 (mkConfig "/backup" []) (start [])
  = Some (Some (ErrorNew "no Nextcloud sync paths specified"), start []).
Proof. reflexivity. Qed.

Example fatal_destination :
  match Main (proc scriptF) 1 cfgF (start []) with
  | Some (Some e, st) => root_cause e = RemoteUnavailable /\ stats st = zeroStats
  | _ => False
  end.
Proof. vm_compute. split; reflexivity. Qed.

(** A source root that cannot be listed is skipped; the run succeeds. *)
Example source_root_failure_not_fatal :
  match Main (proc scriptG) 1 cfgF (start []) with
  | Some (err, st) =>
      err = None /\ stats st = zeroStats /\
      trace st = [mkCall Yandex OpListFiles "/backup" true;
                  mkCall Nextcloud OpListFiles "/src" false]
  | None => False
  end.
Proof. vm_compute. repeat split; reflexivity. Qed.

End FatalityFacts.

(** ** The trees in memory: what [syncFolders] leaves untouched *)

Module MemoryFacts.

(** [syncFolders] over the trees, under a name that the import of its
    namesake over the heap does not hide. *)
Local Abbreviation syncTrees := syncFolders (only parsing).

Import Memory.

Section Frame.

Context {W : Type} (p : Processor W).

(** [keeps c]: the computation [c] ends, when it ends with a value, with
    the heap it started with. *)
Definition keeps {A : Type} (c : M (W := W) A) : Prop :=
  forall m a m', c m = Done (a, m') -> fst m' = fst m.

Lemma keeps_ret {A : Type} (a : A) : keeps (M_ret A a).
Proof. intros m a' m' [= _ <-]. reflexivity. Qed.

Lemma keeps_bind {A B : Type} (c : M A) (k : A -> M B) :
  keeps c -> (forall a, keeps (k a)) -> keeps (M_bind A B k c).
Proof.
  intros Hc Hk m b m'. unfold M_bind.
  destruct (c m) as [[a m1]| |] eqn:E; try discriminate.
  intros H. rewrite (Hk a m1 b m' H). exact (Hc m a m1 E).
Qed.

Lemma keeps_readFile (s : slice) (i : nat) : keeps (readFile (W := W) s i).
Proof.
  intros m a m'. unfold readFile.
  destruct (_ !! arr s) as [l|]; [|discriminate].
  destruct (l !! _); [|discriminate]. intros [= _ <-]. reflexivity.
Qed.

Lemma keeps_readFolder (s : slice) (i : nat) : keeps (readFolder (W := W) s i).
Proof.
  intros m a m'. unfold readFolder.
  destruct (_ !! arr s) as [l|]; [|discriminate].
  destruct (l !! _); [|discriminate]. intros [= _ <-]. reflexivity.
Qed.

Lemma keeps_lift {A : Type} (f : State W -> A * State W) : keeps (lift f).
Proof.
  intros m a m'. unfold lift. destruct (f (snd m)). intros [= _ <-]. reflexivity.
Qed.

Lemma keeps_forRange {A B : Type} (read : nat -> M A) (body : B -> A -> M B) :
  (forall i, keeps (read i)) ->
  (forall acc x, keeps (body acc x)) ->
  forall n i acc, keeps (forRange read body i n acc).
Proof.
  intros Hr Hb. induction n as [|n IH]; intros i acc; simpl.
  - apply keeps_ret.
  - apply keeps_bind; [apply Hr|]. intros x.
    apply keeps_bind; [apply Hb|]. intros acc'. apply IH.
Qed.

(** The frame property: no run of [syncFolders] changes the heap that
    holds the two trees. *)
Lemma syncFolders_keeps (depth : nat) :
  forall (ncFolder yandexFolder : FolderV) (base : string),
    keeps (Memory.syncFolders p depth ncFolder yandexFolder base).
Proof.
  induction depth as [|d IH]; intros nc ya base; simpl.
  - intros m a m'. discriminate.
  - apply keeps_bind.
    { apply keeps_forRange; [apply keeps_readFile | intros; apply keeps_ret]. }
    intros yandexFiles. apply keeps_bind.
    { apply keeps_forRange; [apply keeps_readFolder | intros; apply keeps_ret]. }
    intros yandexFolders. apply keeps_bind.
    { apply keeps_forRange; [apply keeps_readFile | intros; apply keeps_lift]. }
    intros _. apply keeps_bind; [|intros; apply keeps_ret].
    apply keeps_forRange; [apply keeps_readFolder|].
    intros _ sub. cbv zeta. destruct (yandexFolders !! _) as [ySub|].
    + apply keeps_bind; [apply IH | intros; apply keeps_ret].
    + apply keeps_bind; [apply keeps_lift|]. intros [e|]; [apply keeps_ret|].
      apply keeps_bind; [apply IH | intros; apply keeps_ret].
Qed.

End Frame.

Section Refinement.

Context {W : Type} (p : Processor W).

Lemma view_length {A : Type} (arrays : gmap loc (list A)) (s : slice) (l : list A) :
  view arrays s = Some l -> length l = len s.
Proof.
  unfold view. destruct (len s) as [|n] eqn:L; [intros [= <-]; reflexivity|].
  destruct (arrays !! arr s) as [a|]; [|discriminate].
  destruct (Nat.leb_spec (off s + S n) (length a)); [|discriminate].
  intros [= <-]. rewrite length_take, length_drop. lia.
Qed.

Lemma view_lookup {A : Type} (arrays : gmap loc (list A)) (s : slice) (l : list A)
      (j : nat) (x : A) :
  view arrays s = Some l -> l !! j = Some x ->
  exists a, arrays !! arr s = Some a /\ a !! (off s + j)%nat = Some x.
Proof.
  unfold view. destruct (len s) as [|n] eqn:L; [intros [= <-]; discriminate|].
  destruct (arrays !! arr s) as [a|]; [|discriminate].
  destruct (Nat.leb_spec (off s + S n) (length a)); [|discriminate].
  intros [= <-] Hj. exists a. split; [reflexivity|].
  apply lookup_take_Some in Hj. destruct Hj as [Hj _].
  rewrite lookup_drop in Hj. exact Hj.
Qed.

Lemma readFile_view (h : Heap) (s : slice) (l : list File) (j : nat) (x : File)
      (st : State W) :
  view (fileArrays h) s = Some l -> l !! j = Some x ->
  readFile s j (h, st) = Done (x, (h, st)).
Proof.
  intros V L. destruct (view_lookup _ _ _ _ _ V L) as (a & Ha & Hx).
  unfold readFile. simpl. rewrite Ha, Hx. reflexivity.
Qed.

Lemma readFolder_view (h : Heap) (s : slice) (l : list FolderV) (j : nat) (x : FolderV)
      (st : State W) :
  view (folderArrays h) s = Some l -> l !! j = Some x ->
  readFolder s j (h, st) = Done (x, (h, st)).
Proof.
  intros V L. destruct (view_lookup _ _ _ _ _ V L) as (a & Ha & Hx).
  unfold readFolder. simpl. rewrite Ha, Hx. reflexivity.
Qed.

(** A [range] loop over elements that the heap holds, against a fold over
    the elements they stand for. *)
Lemma forRange_simulates {A A' B B' : Type} (R : A -> A' -> Prop) (Racc : B -> B' -> Prop)
      (h : Heap) (read : nat -> M (W := W) A) (body : B -> A -> M B)
      (step : B' * State W -> A' -> B' * State W) (vs : list A) :
  forall (ts : list A') (i : nat) (acc : B) (acc' : B') (st : State W),
    Forall2 R vs ts ->
    (forall j v st0, vs !! j = Some v -> read (i + j)%nat (h, st0) = Done (v, (h, st0))) ->
    (forall v t b b' st0,
        R v t -> Racc b b' ->
        exists b1, body b v (h, st0) = Done (b1, (h, snd (step (b', st0) t))) /\
                   Racc b1 (fst (step (b', st0) t))) ->
    Racc acc acc' ->
    exists b, forRange read body i (length vs) acc (h, st)
              = Done (b, (h, snd (fold_left step ts (acc', st)))) /\
              Racc b (fst (fold_left step ts (acc', st))).
Proof.
  induction vs as [|v vs IH]; intros ts i acc acc' st HR Hread Hbody Hacc.
  - apply Forall2_nil_inv_l in HR. subst ts. exists acc. split; [reflexivity | exact Hacc].
  - apply Forall2_cons_inv_l in HR. destruct HR as (t & ts' & Hvt & HR & ->).
    simpl length. simpl forRange. unfold mbind, M_bind.
    pose proof (Hread 0%nat v st eq_refl) as H0. rewrite Nat.add_0_r in H0. rewrite H0.
    destruct (Hbody v t acc acc' st Hvt Hacc) as (b1 & Hb & Hacc1). rewrite Hb.
    simpl fold_left.
    destruct (step (acc', st) t) as [acc1' st1] eqn:Hstep. simpl in *.
    apply (IH ts' (S i) b1 acc1' st1 HR); [|exact Hbody | exact Hacc1].
    intros j v0 st0 Hj. specialize (Hread (S j) v0 st0 Hj).
    rewrite Nat.add_succ_r in Hread. exact Hread.
Qed.

Lemma represents_eq (h : Heap) (t : Folder) (v : FolderV) :
  represents h t v <->
  VPath v = Path t /\ VModified v = Modified t /\
  view (fileArrays h) (VFiles v) = Some (Files t) /\
  exists vs, view (folderArrays h) (VFolders v) = Some vs /\
             Forall2 (fun v' t' => represents h t' v') vs (Folders t).
Proof.
  destruct t as [pth m files folders]. simpl.
  assert (A : forall vs,
             (fix all (ts : list Folder) (vs : list FolderV) {struct ts} : Prop :=
                match ts, vs with
                | [], [] => True
                | t' :: ts', v' :: vs' => represents h t' v' /\ all ts' vs'
                | _, _ => False
                end) folders vs <->
             Forall2 (fun v' t' => represents h t' v') vs folders).
  { induction folders as [|t folders IH]; intros [|v' vs]; simpl.
    - split; [constructor | trivial].
    - split; [contradiction | intros H; inversion H].
    - split; [contradiction | intros H; inversion H].
    - rewrite IH. split.
      + intros [H1 H2]. constructor; assumption.
      + intros H. inversion H; subst. split; assumption. }
  split.
  - intros (H1 & H2 & H3 & vs & H4 & H5). repeat split; try assumption.
    exists vs. split; [exact H4 | apply A, H5].
  - intros (H1 & H2 & H3 & vs & H4 & H5). repeat split; try assumption.
    exists vs. split; [exact H4 | apply A, H5].
Qed.

Lemma represents_empty (h : Heap) (path : string) :
  represents h (emptyFolder path) (emptyFolderV path).
Proof.
  apply represents_eq. simpl. repeat split.
  exists []. split; [reflexivity | constructor].
Qed.

Lemma height_sub (t : Folder) (sub : Folder) (d : nat) :
  sub ∈ Folders t -> (height t <= S d)%nat -> (height sub <= d)%nat.
Proof.
  destruct t as [pth m files folders]. simpl. intros Hin H.
  assert (height sub <= list_max (map height folders))%nat; [|lia].
  clear H. induction Hin as [sub l | sub x l _ IH]; simpl; lia.
Qed.

Lemma fold_left_acc_only {A B S : Type} (step : B * S -> A -> B * S) (f : B -> A -> B)
      (l : list A) (acc : B) (st : S) :
  (forall bs x, step bs x = (f (fst bs) x, snd bs)) ->
  fold_left step l (acc, st) = (fold_left f l acc, st).
Proof.
  intros H. revert acc. induction l as [|x l IH]; intros acc; simpl; [reflexivity|].
  rewrite H. apply IH.
Qed.

Lemma fold_left_state_only {A S : Type} (step : unit * S -> A -> unit * S) (g : S -> A -> S)
      (l : list A) (st : S) :
  (forall bs x, step bs x = (tt, g (snd bs) x)) ->
  fold_left step l (tt, st) = (tt, fold_left g l st).
Proof.
  intros H. revert st. induction l as [|x l IH]; intros st; simpl; [reflexivity|].
  rewrite H. apply IH.
Qed.

(** On a heap that holds the two trees, [syncFolders] over the heap does
    what [syncFolders] over the trees does, and leaves the heap as it
    is. *)
Lemma syncFolders_refines (tnc : Folder) :
  forall (depth : nat) (vnc : FolderV) (tya : Folder) (vya : FolderV)
         (base : string) (h : Heap) (st : State W),
    represents h tnc vnc -> represents h tya vya -> (height tnc <= depth)%nat ->
    Memory.syncFolders p depth vnc vya base (h, st) =
    Done (fst (syncTrees p tnc tya base st),
          (h, snd (syncTrees p tnc tya base st))).
Proof.
  induction tnc as [pth mt files folders IH] using Folder_ind.
  intros depth vnc tya vya base h st Hnc Hya Hd.
  destruct depth as [|d]; [simpl in Hd; lia|].
  apply represents_eq in Hnc. destruct Hnc as (_ & _ & Vf & vsub & Vd & Rsub).
  apply represents_eq in Hya. destruct Hya as (_ & _ & Yf & ysub & Yd & Rya).
  simpl in Vf, Rsub.
  rewrite syncFolders_eq. cbn [fst snd Files Folders].
  cbn [Memory.syncFolders]. unfold range, mbind, M_bind.
  (* the files map *)
  destruct (forRange_simulates eq eq h (readFile (VFiles vya))
              (fun (m : gmap string File) file =>
                 mret (<[path.Base (FilePath file) := file]> m))
              (fun bs file => (<[path.Base (FilePath file) := file]> (fst bs), snd bs))
              (Files tya) (Files tya) 0%nat ∅ ∅ st)
    as (yf & E1 & ->).
  { clear. induction (Files tya); constructor; auto. }
  { intros j v st0 Hj. apply (readFile_view h _ _ _ _ _ Yf Hj). }
  { intros v t b b' st0 <- <-. eexists. split; reflexivity. }
  { reflexivity. }
  rewrite <- (view_length _ _ _ Yf), E1. clear E1.
  rewrite (fold_left_acc_only _ (fun (m : gmap string File) file =>
                                   <[path.Base (FilePath file) := file]> m))
    by reflexivity.
  cbn [fst snd].
  (* the folders map *)
  destruct (forRange_simulates
              (fun v t => represents h t v)
              (fun (mv : gmap string FolderV) (mt : gmap string Folder) =>
                 forall k, option_Forall2 (fun v t => represents h t v) (mv !! k) (mt !! k))
              h (readFolder (VFolders vya))
              (fun (m : gmap string FolderV) folder =>
                 mret (<[path.Base (VPath folder) := folder]> m))
              (fun bs folder => (<[path.Base (Path folder) := folder]> (fst bs), snd bs))
              ysub (Folders tya) 0%nat ∅ ∅ st Rya)
    as (yd & E2 & Hmap).
  { intros j v st0 Hj. apply (readFolder_view h _ _ _ _ _ Yd Hj). }
  { intros v t b b' st0 Hvt Hb. eexists. split; [reflexivity|]. cbn [fst snd].
    intros k. pose proof Hvt as Hvt'. apply represents_eq in Hvt'.
    destruct Hvt' as (-> & _).
    destruct (decide (path.Base (Path t) = k)) as [->|Hne].
    - rewrite !lookup_insert_eq. constructor. exact Hvt.
    - rewrite !lookup_insert_ne by exact Hne. apply Hb. }
  { intros k. rewrite !lookup_empty. constructor. }
  rewrite <- (view_length _ _ _ Yd), E2. clear E2.
  rewrite (fold_left_acc_only _ (fun (m : gmap string Folder) folder =>
                                   <[path.Base (Path folder) := folder]> m))
    in Hmap |- * by reflexivity.
  cbn [fst snd] in Hmap |- *.
  fold (filesByName (Files tya)). fold (foldersByName (Folders tya)) in Hmap.
  (* the loop over the files *)
  destruct (forRange_simulates eq eq h (readFile (VFiles vnc))
              (fun (_ : unit) ncFile =>
                 lift (fun st0 =>
                         (tt, syncFolders_file p (filesByName (Files tya)) base st0 ncFile)))
              (fun bs ncFile =>
                 (tt, syncFolders_file p (filesByName (Files tya)) base (snd bs) ncFile))
              files files 0%nat tt tt st)
    as (u & E3 & _).
  { clear. induction files; constructor; auto. }
  { intros j v st0 Hj. apply (readFile_view h _ _ _ _ _ Vf Hj). }
  { intros v t b b' st0 <- _. exists tt. split; reflexivity. }
  { reflexivity. }
  rewrite <- (view_length _ _ _ Vf), E3. clear E3.
  rewrite (fold_left_state_only _ (syncFolders_file p (filesByName (Files tya)) base))
    by reflexivity.
  cbn [fst snd].
  set (st1 := fold_left (syncFolders_file p (filesByName (Files tya)) base) files st).
  (* the loop over the subfolders *)
  assert (Rsub' : Forall2
                    (fun v t => represents h t v /\
                                forall (tya0 : Folder) (vya0 : FolderV) (base0 : string)
                                       (st0 : State W),
                                  represents h tya0 vya0 ->
                                  Memory.syncFolders p d v vya0 base0 (h, st0) =
                                  Done (fst (syncTrees p t tya0 base0 st0),
                                        (h, snd (syncTrees p t tya0 base0 st0))))
                    vsub folders).
  { assert (Hh : Forall (fun t => height t <= d)%nat folders).
    { apply Forall_forall. intros t Ht.
      apply (height_sub (mkFolder pth mt files folders) t d Ht Hd). }
    clear - IH Rsub Hh. induction Rsub as [|v t vs ts Hvt _ IHr]; constructor.
    - split; [exact Hvt|]. intros tya0 vya0 base0 st0 Hya0.
      apply Forall_inv in IH, Hh. apply IH; assumption.
    - apply IHr; eapply Forall_inv_tail; eassumption. }
  rewrite <- (view_length _ _ _ Vd).
  match goal with
  | |- context [forRange (readFolder (VFolders vnc)) ?body 0 (length vsub) tt (h, st1)] =>
      destruct (forRange_simulates _ eq h (readFolder (VFolders vnc)) body
                  (fun bs ncSubFolder =>
                     (tt, syncFolders_subfolder p (foldersByName (Folders tya)) base
                                                (syncTrees p ncSubFolder) (snd bs) ncSubFolder))
                  vsub folders 0%nat tt tt st1 Rsub')
        as (u' & E4 & _)
  end.
  { intros j v st0 Hj. apply (readFolder_view h _ _ _ _ _ Vd Hj). }
  { intros v t b b' st0 (Hvt & Hrec) _. exists tt. split; [|reflexivity].
    cbv zeta. cbn [fst snd]. unfold syncFolders_subfolder.
    pose proof Hvt as Hvt'. apply represents_eq in Hvt'. destruct Hvt' as (-> & _).
    specialize (Hmap (decodeName (path.Base (Path t)))).
    destruct Hmap as [yv yt Hy|].
    - unfold mbind, M_bind. rewrite (Hrec yt yv _ st0 Hy). reflexivity.
    - unfold mbind, M_bind, lift. cbn [fst snd].
      destruct (createFolderChain p _ st0) as [[e|] st2]; [reflexivity|].
      rewrite (Hrec (emptyFolder _) (emptyFolderV _) _ st2 (represents_empty h _)).
      reflexivity. }
  { reflexivity. }
  rewrite E4.
  rewrite (fold_left_state_only
             _ (fun st0 ncSubFolder =>
                  syncFolders_subfolder p (foldersByName (Folders tya)) base
                                        (syncTrees p ncSubFolder) st0 ncSubFolder))
    by reflexivity.
  reflexivity.
Qed.

(** C10. [syncFolders] changes none of the memory that holds the two
    folder trees.  Whatever the heap, a call that returns leaves every
    backing array of files and of folders as it was; and on a heap that
    holds the source tree and the destination tree, a call with depth
    for the source tree does return, what it returns and what it does
    to the statistics, the world and the trace is what [syncFolders]
    over the trees does, and the heap, so both trees with their paths,
    timestamps and children, is the same after the call. *)
Theorem syncFolders_leaves_trees :
  (forall (depth : nat) (ncFolder yandexFolder : FolderV) (base : string)
          (h h' : Heap) (st st' : State W) (r : option error),
      Memory.syncFolders p depth ncFolder yandexFolder base (h, st) = Done (r, (h', st')) ->
      h' = h) /\
  (forall (tnc tya : Folder) (vnc vya : FolderV) (base : string)
          (h : Heap) (st : State W),
      represents h tnc vnc -> represents h tya vya ->
      exists (r : option error) (h' : Heap) (st' : State W),
        Memory.syncFolders p (height tnc) vnc vya base (h, st) = Done (r, (h', st')) /\
        h' = h /\ represents h' tnc vnc /\ represents h' tya vya /\
        (r, st') = syncTrees p tnc tya base st).
Proof.
  split.
  - intros depth nc ya base h h' st st' r H.
    exact (syncFolders_keeps p depth nc ya base (h, st) r (h', st') H).
  - intros tnc tya vnc vya base h st Hnc Hya.
    exists (fst (syncTrees p tnc tya base st)), h, (snd (syncTrees p tnc tya base st)).
    split; [apply (syncFolders_refines tnc); auto|].
    repeat split; try assumption.
    destruct (syncTrees p tnc tya base st); reflexivity.
Qed.

End Refinement.

Section HeapScenario.
Import Fake Scenarios.

Lemma heapP_src : represents heapP srcP vsrcP.
Proof.
  apply represents_eq. repeat split.
  exists [mkFolderV "/src/bad" zeroTime (mkSlice 3 0 1) nilSlice;
          mkFolderV "/src/good" zeroTime (mkSlice 4 0 1) nilSlice].
  split; [reflexivity|].
  constructor; [|constructor; [|constructor]].
  all: apply represents_eq; repeat split; exists []; split; [reflexivity | constructor].
Qed.

Lemma heapP_dst : represents heapP dstP vdstP.
Proof.
  apply represents_eq. repeat split.
  exists []. split; [reflexivity | constructor].
Qed.

(** The theorem on the partial-failure scenario: the run over the heap
    returns, with the heap as it was. *)
Lemma syncFolders_leaves_trees_witness :
  exists (r : option error) (h' : Heap) (st' : State World),
    Memory.syncFolders (proc scriptP) (height srcP) vsrcP vdstP "/dest"
                       (heapP, start ["dest"]) = Done (r, (h', st')) /\
    h' = heapP /\ represents h' srcP vsrcP /\ represents h' dstP vdstP /\
    (r, st') = syncTrees (proc scriptP) srcP dstP "/dest" (start ["dest"]).
Proof.
  destruct (syncFolders_leaves_trees (proc scriptP)) as [_ H].
  exact (H srcP dstP vsrcP vdstP "/dest" heapP (start ["dest"]) heapP_src heapP_dst).
Defined.

(** The same run, computed. *)
Example heap_run :
  match Memory.syncFolders (proc scriptP) 2 vsrcP vdstP "/dest" (heapP, start ["dest"]) with
  | Done (err, (h, st)) => err = None /\ stats st = mkSyncStats 4 2 1 1
  | _ => False
  end.
Proof. vm_compute. split; reflexivity. Qed.

(** A slice that reaches beyond its array makes the loop panic. *)
Example heap_out_of_range :
  Memory.syncFolders (proc scriptP) 2
                     (mkFolderV "/src" zeroTime (mkSlice 2 0 4) nilSlice) vdstP "/dest"
                     (heapP, start ["dest"]) = Panic.
Proof. vm_compute. reflexivity. Qed.

End HeapScenario.

End MemoryFacts.

(** ** The shape of the traces *)

Section TraceShape.

Context {W : Type} (p : Processor W).

Lemma extends_refl (Q : list Call -> Prop) (st : State W) :
  concatenable Q -> extends Q st st.
Proof. intros [Hnil _]. exists []. rewrite app_nil_r. split; [reflexivity | exact Hnil]. Qed.

Lemma extends_trans (Q : list Call -> Prop) (st1 st2 st3 : State W) :
  concatenable Q -> extends Q st1 st2 -> extends Q st2 st3 -> extends Q st1 st3.
Proof.
  intros [_ Happ] (c1 & E1 & H1) (c2 & E2 & H2). exists (c1 ++ c2).
  rewrite E2, E1, app_assoc. split; [reflexivity | apply Happ; assumption].
Qed.

Lemma extends_logged (Q : list Call -> Prop) (r : Remote) (o : Op) (path : string)
      (ok : bool) (w : W) (st : State W) :
  Q [mkCall r o path ok] -> extends Q st (logged r o path ok w st).
Proof. intros H. exists [mkCall r o path ok]. split; [reflexivity | exact H]. Qed.

Lemma extends_then_logged (Q : list Call -> Prop) (r : Remote) (o : Op) (path : string)
      (ok : bool) (w : W) (st st1 : State W) :
  concatenable Q -> extends Q st st1 -> Q [mkCall r o path ok] ->
  extends Q st (logged r o path ok w st1).
Proof.
  intros HQ H Hc. eapply extends_trans; [exact HQ | exact H | apply extends_logged, Hc].
Qed.

Lemma fold_left_extends {A : Type} (Q : list Call -> Prop) (f : State W -> A -> State W)
      (l : list A) :
  concatenable Q ->
  Forall (fun a => forall st, extends Q st (f st a)) l ->
  forall st, extends Q st (fold_left f l st).
Proof.
  intros HQ. induction 1 as [|a l Ha _ IH]; intros st; simpl.
  - apply extends_refl, HQ.
  - eapply extends_trans; [exact HQ | apply Ha | apply IH].
Qed.

(** The calls of the file transfer, and how it ends. *)
Lemma syncFile_transfer (ncFilePath base fileName : string) (st : State W) :
  exists e : TransferEnd,
    trace (snd (syncFile p ncFilePath base fileName st)) =
      trace st ++ transfer_calls ncFilePath (base ++ "/" ++ decodeName fileName) e /\
    (fst (syncFile p ncFilePath base fileName st) = None <-> e = Uploaded).
Proof.
  unfold syncFile, callDownloadFile, callGetFileInfo, callUploadFile, closeReader.
  destruct (DownloadFile _ _ _) as [[rd|e] w]; simpl.
  - destruct (GetFileInfo _ _ _) as [[info|e] w']; simpl.
    + destruct (UploadFile _ _ _ _ _) as [[e|] w'']; simpl.
      * exists UploadFailed. rewrite <- !app_assoc. split; [reflexivity|].
        split; discriminate.
      * exists Uploaded. rewrite <- !app_assoc. split; [reflexivity|].
        split; reflexivity.
    + exists InfoFailed. rewrite <- !app_assoc. split; [reflexivity|].
      split; discriminate.
  - exists DownloadFailed. split; [reflexivity|]. split; discriminate.
Qed.

Lemma createFolderChain_rec_extends (Q : list Call -> Prop) (d : nat)
      (folderPath : string) (st : State W) :
  concatenable Q ->
  (forall path ok, Q [mkCall Yandex OpGetFileInfo path ok]) ->
  (forall path ok, Q [mkCall Yandex OpCreateFolder path ok]) ->
  extends Q st (snd (createFolderChain_rec p d folderPath st)).
Proof.
  intros HQ Hlookup Hmkdir.
  revert folderPath st. induction d as [|d IH]; intros folderPath st;
    rewrite createFolderChain_rec_eq; cbv zeta;
    (destruct (String.eqb _ ""); [apply extends_refl, HQ|]);
    unfold callGetFileInfo, callCreateFolder;
    destruct (GetFileInfo _ _ _) as [[info|e] w];
    try (apply extends_logged, Hlookup).
  all: match goal with
       | |- context [let '(createErr, st2) := ?parent in _] =>
           assert (P : extends Q st (snd parent));
           [ destruct (hasParent _ _);
             [ first [ eapply extends_trans; [exact HQ | | apply IH];
                       apply extends_logged, Hlookup
                     | apply extends_logged, Hlookup ]
             | apply extends_logged, Hlookup ]
           | destruct parent as [[pe|] st2] ]
       end; simpl in P; try exact P.
  all: destruct (CreateFolder _ _ _) as [[e'|] w3]; simpl;
    (apply extends_then_logged; [exact HQ | exact P | apply Hmkdir]).
Qed.

(** The grammar of the traces of the reconciler: a run of [syncFolders]
    is a sequence of whole file transfers and of lookups and creations
    of the chain creator. *)
Lemma syncFolders_extends (Q : list Call -> Prop) :
  concatenable Q ->
  (forall src dst e, Q (transfer_calls src dst e)) ->
  (forall path ok, Q [mkCall Yandex OpGetFileInfo path ok]) ->
  (forall path ok, Q [mkCall Yandex OpCreateFolder path ok]) ->
  forall (ncFolder yandexFolder : Folder) (base : string) (st : State W),
    extends Q st (snd (syncFolders p ncFolder yandexFolder base st)).
Proof.
  intros HQ Htransfer Hlookup Hmkdir ncFolder.
  induction ncFolder as [pth m files folders IH] using Folder_ind.
  intros ya base st. rewrite syncFolders_eq. cbn [snd Files Folders].
  apply extends_trans
    with (fold_left (syncFolders_file p (filesByName (Files ya)) base) files st);
    [exact HQ | |].
  - apply fold_left_extends; [exact HQ|]. apply Forall_forall. intros f _ st0.
    rewrite syncFolders_file_eq. destruct (needsSync _ _).
    + destruct (syncFile_transfer (FilePath f) base (path.Base (FilePath f))
                                  (withStats incTotal st0)) as (e & T & _).
      destruct (syncFile _ _ _ _ _) as [[err|] st']; simpl in T;
        (eexists; split; [exact T | apply Htransfer]).
    + exact (extends_refl Q st0 HQ).
  - apply fold_left_extends; [exact HQ|]. eapply Forall_impl; [exact IH|].
    intros sub Hsub st0. cbv beta. unfold syncFolders_subfolder.
    destruct (_ !! _) as [yaSub|]; [apply Hsub|].
    pose proof (createFolderChain_rec_extends Q
                  (String.length (base ++ "/" ++ decodeName (path.Base (Path sub))))
                  (base ++ "/" ++ decodeName (path.Base (Path sub))) st0
                  HQ Hlookup Hmkdir) as Hc.
    fold (createFolderChain p (base ++ "/" ++ decodeName (path.Base (Path sub))) st0) in Hc.
    destruct (createFolderChain p _ st0) as [[e|] st']; simpl in Hc; [exact Hc|].
    eapply extends_trans; [exact HQ | exact Hc | apply Hsub].
Qed.

Lemma getFileSystem_extends (Q : list Call -> Prop) (r : Remote) (depth : nat) :
  concatenable Q ->
  (forall path ok, Q [mkCall r OpListFiles path ok]) ->
  forall (rootPath : string) (st st' : State W) (res : result Folder),
    getFileSystem p r depth rootPath st = Some (res, st') ->
    extends Q st st'.
Proof.
  intros HQ Hlist.
  induction depth as [|d IH]; intros rootPath st st' res; simpl; [discriminate|].
  unfold callListFiles. destruct (ListFiles _ _ _) as [[files|e] w].
  - generalize (emptyFolder rootPath).
    assert (L : extends Q st (logged r OpListFiles rootPath (is_ok (inl files)) w st))
      by apply extends_logged, Hlist.
    revert L. generalize (logged r OpListFiles rootPath (is_ok (inl files)) w st).
    induction files as [|f files IHf]; intros st1 L folder; simpl.
    + intros [= <- <-]. exact L.
    + destruct (IsDir f).
      * destruct (getFileSystem p r d (InfoPath f) st1) as [[[sub|e] st2]|] eqn:G;
          [| |discriminate].
        -- apply IHf. eapply extends_trans; [exact HQ | exact L | exact (IH _ _ _ _ G)].
        -- intros [= <- <-].
           eapply extends_trans; [exact HQ | exact L | exact (IH _ _ _ _ G)].
      * apply IHf. exact L.
  - intros [= <- <-]. apply extends_logged, Hlist.
Qed.

(** The grammar of the traces of a whole run: listings, file transfers,
    lookups and creations of folders on Yandex Disk. *)
Lemma Main_extends (Q : list Call -> Prop) :
  concatenable Q ->
  (forall src dst e, Q (transfer_calls src dst e)) ->
  (forall path ok, Q [mkCall Yandex OpGetFileInfo path ok]) ->
  (forall path ok, Q [mkCall Yandex OpCreateFolder path ok]) ->
  (forall r path ok, Q [mkCall r OpListFiles path ok]) ->
  forall (depth : nat) (cfg : Config) (st st' : State W) (res : option error),
    Main p depth cfg st = Some (res, st') ->
    extends Q st st'.
Proof.
  intros HQ Htransfer Hlookup Hmkdir Hlist depth cfg.
  assert (Sync : forall nc ya base (st : State W),
             extends Q st (snd (syncFolders p nc ya base st)))
    by (intros; apply syncFolders_extends; assumption).
  assert (Snap : forall r path (st st' : State W) res,
             getFileSystem p r depth path st = Some (res, st') -> extends Q st st')
    by (intros r path st st' res; apply getFileSystem_extends; [exact HQ | apply Hlist]).
  assert (One : forall yndxFs sp (st st' : State W),
             Main_syncPath p depth cfg yndxFs sp st = Some st' -> extends Q st st').
  { intros yndxFs sp st st'.
    unfold Main_syncPath, getNextcloudFileSystem, getYandexFileSystem.
    destruct (getFileSystem p Nextcloud depth sp st) as [[[ncFs|e] st1]|] eqn:G1;
      [| |discriminate]; apply Snap in G1.
    - destruct (String.eqb _ _).
      + intros [= <-]. eapply extends_trans; [exact HQ | exact G1 | apply Sync].
      + destruct (getFileSystem p Yandex depth _ st1) as [[[ex|e] st2]|] eqn:G2;
          [| |discriminate]; apply Snap in G2.
        * intros [= <-]. eapply extends_trans; [exact HQ | exact G1|].
          eapply extends_trans; [exact HQ | exact G2 | apply Sync].
        * unfold callCreateFolder.
          assert (G3 : forall (ok : bool) (w : W),
                     extends Q st (logged Yandex OpCreateFolder (targetPathFor cfg sp) ok w st2)).
          { intros ok w. apply extends_then_logged; [exact HQ | | apply Hmkdir].
            eapply extends_trans; [exact HQ | exact G1 | exact G2]. }
          destruct (CreateFolder _ _ _) as [[e'|] w]; intros [= <-].
          -- apply G3.
          -- eapply extends_trans; [exact HQ | apply G3 | apply Sync].
    - intros [= <-]. exact G1. }
  assert (Loop : forall yndxFs sps (st st' : State W),
             Main_loop p depth cfg yndxFs sps st = Some st' -> extends Q st st').
  { intros yndxFs sps. induction sps as [|sp rest IH]; intros st st'; simpl.
    - intros [= <-]. apply extends_refl, HQ.
    - destruct (Main_syncPath p depth cfg yndxFs sp st) as [st1|] eqn:S1; [|discriminate].
      intros L. eapply extends_trans; [exact HQ | exact (One _ _ _ _ S1) | exact (IH _ _ L)]. }
  intros st st' res. unfold Main, getYandexFileSystem.
  destruct (Nat.eqb _ 0); [intros [= <- <-]; apply extends_refl, HQ|].
  destruct (getFileSystem p Yandex depth _ st) as [[[fs|e] st1]|] eqn:G; [| |discriminate];
    apply Snap in G.
  - destruct (Main_loop p depth cfg fs _ _) as [st2|] eqn:L; [|discriminate].
    intros [= <- <-]. eapply extends_trans; [exact HQ | exact G|].
    exact (Loop _ _ _ _ L).
  - pose proof (createFolderChain_rec_extends Q (String.length (YandexTargetPath cfg))
                  (YandexTargetPath cfg) st1 HQ Hlookup Hmkdir) as C.
    fold (createFolderChain p (YandexTargetPath cfg) st1) in C.
    destruct (createFolderChain p _ st1) as [[e'|] st2]; simpl in C.
    + intros [= <- <-]. eapply extends_trans; [exact HQ | exact G | exact C].
    + destruct (Main_loop p depth cfg _ _ _) as [st3|] eqn:L; [|discriminate].
      intros [= <- <-]. eapply extends_trans; [exact HQ | exact G|].
      eapply extends_trans; [exact HQ | exact C|]. exact (Loop _ _ _ _ L).
Qed.

End TraceShape.

(** ** [AlreadyExists] from the chain creator *)

Section AlreadyExists.

Context {W : Type} (p : Processor W).

(** C6, as the code has it.  When the final [CreateFolder] of a chain
    creation fails, [createFolderChain] returns that error wrapped under
    a message, its cause intact; [AlreadyExists] is no exception.  The
    reconciler treats a chain creation that failed, for [AlreadyExists]
    or any other cause, in one way: the subfolder is skipped and the run
    goes on with the subfolders after it.  The files of the skipped
    subfolder are neither visited nor counted: between the state before
    the subfolder and the state the run goes on from, the statistics are
    the same and the only calls are the lookups and the creations of the
    chain on Yandex Disk. *)
Theorem AlreadyExists_surfaces_and_skips :
  (forall (folderPath : string) (st st1 st2 st3 : State W) (e1 e0 : error),
      let np := normalizePath folderPath in
      np <> "" ->
      callGetFileInfo p Yandex np st = (inr e1, st1) ->
      (if hasParent (path.Dir np) np then createFolderChain p (path.Dir np) st1
       else (None, st1)) = (None, st2) ->
      callCreateFolder p Yandex np st2 = (Some e0, st3) ->
      createFolderChain p folderPath st =
        (Some (Errorf ("failed to create folder " ++ np) e0), st3) /\
      (e0 = AlreadyExists ->
       root_cause (Errorf ("failed to create folder " ++ np) e0) = AlreadyExists)) /\
  (forall (pth : string) (m : Time) (files : list File) (before after : list Folder)
          (ncSubFolder : Folder) (yandexFolder : Folder) (base : string)
          (st st1 : State W) (e : error),
      let st0 := snd (syncFolders p (mkFolder pth m files before) yandexFolder base st) in
      let name := decodeName (path.Base (Path ncSubFolder)) in
      foldersByName (Folders yandexFolder) !! name = None ->
      createFolderChain p (base ++ "/" ++ name) st0 = (Some e, st1) ->
      syncFolders p (mkFolder pth m files (before ++ ncSubFolder :: after))
                  yandexFolder base st =
      syncFolders p (mkFolder pth m [] after) yandexFolder base st1 /\
      stats st1 = stats st0 /\
      exists calls : list Call,
        trace st1 = trace st0 ++ calls /\
        Forall (fun c => remote c = Yandex /\
                         (op c = OpGetFileInfo \/ op c = OpCreateFolder)) calls).
Proof.
  split.
  - intros folderPath st st1 st2 st3 e1 e0 np Hne Hlookup Hparent Hmkdir.
    split; [|intros ->; reflexivity].
    rewrite createFolderChain_eq. cbv zeta. fold np.
    apply String.eqb_neq in Hne. rewrite Hne, Hlookup, Hparent, Hmkdir.
    reflexivity.
  - intros pth m files before after ncSubFolder ya base st st1 e st0 name Hnone Hfail.
    split; [|split].
    + rewrite syncFolders_at_subfolder. fold st0. unfold syncFolders_subfolder.
      fold name. rewrite Hnone, Hfail. reflexivity.
    + pose proof (createFolderChain_stats p (base ++ "/" ++ name) st0) as Hs.
      rewrite Hfail in Hs. exact Hs.
    + assert (Q : concatenable
                    (Forall (fun c => remote c = Yandex /\
                                      (op c = OpGetFileInfo \/ op c = OpCreateFolder)))).
      { split; [constructor|]. intros x y Hx Hy. apply Forall_app. split; assumption. }
      pose proof (createFolderChain_rec_extends
                    p _ (String.length (base ++ "/" ++ name)) (base ++ "/" ++ name) st0 Q)
        as X.
      change (createFolderChain_rec p (String.length (base ++ "/" ++ name))
                                    (base ++ "/" ++ name) st0)
        with (createFolderChain p (base ++ "/" ++ name) st0) in X.
      rewrite Hfail in X. apply X.
      * intros q ok. constructor; [|constructor]. split; [reflexivity | left; reflexivity].
      * intros q ok. constructor; [|constructor]. split; [reflexivity | right; reflexivity].
Qed.

End AlreadyExists.

Module RaceFacts.
Import Fake Scenarios.

(** C6 as stated fails.  The destination has no [sub]; the lookup of
    [dest/sub] finds nothing and its creation is answered with
    [AlreadyExists].  The chain creator returns that error, and the
    reconciler ends in the very state the failed creation left: the file
    of [sub] is not counted, where processing [sub] as if it had been
    created would have counted and uploaded it. *)
Lemma AlreadyExists_not_treated_as_success :
  let '(err, st1) := createFolderChain (proc scriptE) "/dest/sub" (start ["dest"]) in
  match err with
  | Some e => root_cause e = AlreadyExists
  | None => False
  end /\
  snd (syncFolders (proc scriptE) srcE (emptyFolder "/dest") "/dest" (start ["dest"])) = st1 /\
  stats st1 = zeroStats /\
  stats (snd (syncFolders (proc scriptE) subE (emptyFolder "/dest/sub") "/dest/sub" st1))
  = mkSyncStats 1 1 0 0.
Proof. vm_compute. repeat split; reflexivity. Qed.

(** The theorem applied to the race with a sibling: [sub] is skipped and
    the run goes on with [next]. *)
Lemma AlreadyExists_surfaces_and_skips_witness :
  let st1 := snd (createFolderChain (proc scriptR) "/dest/sub" (start ["dest"])) in
  syncFolders (proc scriptR) srcR (emptyFolder "/dest") "/dest" (start ["dest"])
  = syncFolders (proc scriptR) (mkFolder "/src" zeroTime [] [nextR]) (emptyFolder "/dest")
                "/dest" st1 /\
  stats st1 = stats (start ["dest"]) /\
  exists calls : list Call,
    trace st1 = trace (start ["dest"]) ++ calls /\
    Forall (fun c => remote c = Yandex /\
                     (op c = OpGetFileInfo \/ op c = OpCreateFolder)) calls.
Proof.
  cbv zeta.
  destruct (AlreadyExists_surfaces_and_skips (proc scriptR)) as [_ H].
  apply (H "/src" zeroTime [] [] [nextR] subE (emptyFolder "/dest") "/dest" (start ["dest"]) _
           (Errorf "failed to create folder dest/sub" AlreadyExists)).
  - vm_compute. reflexivity.
  - vm_compute. reflexivity.
Defined.

(** The run of the race with a sibling: the file of [sub] is neither
    transferred nor counted, the file of [next] is uploaded. *)
Example race_with_sibling_run :
  let '(err, st) := syncFolders (proc scriptR) srcR (emptyFolder "/dest") "/dest"
                                (start ["dest"]) in
  err = None /\ stats st = mkSyncStats 1 1 0 0 /\
  ya_written (world st) = [("/dest/next/y.txt", "yy")] /\
  filter is_mkdir (trace st) =
    [mkCall Yandex OpCreateFolder "dest/sub" false;
     mkCall Yandex OpCreateFolder "dest/next" true].
Proof. vm_compute. repeat split; reflexivity. Qed.

End RaceFacts.

Section TraceFacts.

Context {W : Type} (p : Processor W).


Lemma opened_closed_concatenable : concatenable (fun calls => opened calls = closed calls).
Proof.
  split; [reflexivity|]. intros a b Ha Hb. unfold opened, closed in *.
  rewrite !filter_app, !length_app. lia.
Qed.

(** Every stream that the processor opens it closes: in the calls of a
    run of the reconciler, and of a whole run of [Main], the downloads
    that succeeded are as many as the closes. *)
Theorem streams_closed :
  (forall (ncFolder yandexFolder : Folder) (base : string) (st : State W),
      exists calls,
        trace (snd (syncFolders p ncFolder yandexFolder base st)) = trace st ++ calls /\
        opened calls = closed calls) /\
  (forall (depth : nat) (cfg : Config) (st st' : State W) (res : option error),
      Main p depth cfg st = Some (res, st') ->
      exists calls, trace st' = trace st ++ calls /\ opened calls = closed calls).
Proof.
  split.
  - intros. apply (syncFolders_extends p _ opened_closed_concatenable);
      [intros src dst []; reflexivity | reflexivity | reflexivity].
  - intros depth cfg st st' res H.
    apply (Main_extends p _ opened_closed_concatenable) with (5 := H);
      [intros src dst []; reflexivity | reflexivity | reflexivity | reflexivity].
Qed.

Lemma one_way_concatenable : concatenable (Forall (fun c => one_way c = true)).
Proof. split; [constructor|]. intros a b Ha Hb. apply Forall_app. split; assumption. Qed.

(** The sync is one-way.  Every call of a run of [Main] is a listing, a
    read on Nextcloud (download, metadata, close of a stream), or a
    metadata lookup, a folder creation or an upload on Yandex Disk:
    nothing is ever uploaded to Nextcloud or created there, and nothing
    is downloaded from Yandex Disk. *)
Theorem sync_is_one_way (depth : nat) (cfg : Config) (st st' : State W)
        (res : option error) :
  Main p depth cfg st = Some (res, st') ->
  exists calls,
    trace st' = trace st ++ calls /\
    Forall (fun c => one_way c = true) calls /\
    (forall c, c ∈ calls ->
               ~ (remote c = Nextcloud /\ (op c = OpUploadFile \/ op c = OpCreateFolder)) /\
               ~ (remote c = Yandex /\ op c = OpDownloadFile)).
Proof.
  intros H.
  destruct (Main_extends p _ one_way_concatenable) with (5 := H) as (calls & T & F).
  - intros src dst []; repeat constructor.
  - intros; repeat constructor.
  - intros; repeat constructor.
  - intros [] path ok; repeat constructor.
  - exists calls. split; [exact T|]. split; [exact F|].
    intros c Hc. rewrite Forall_forall in F. specialize (F c Hc).
    destruct c as [r o t ok]. simpl in *.
    split; intros [-> Ho]; [destruct Ho as [-> | ->]|subst o]; discriminate.
Qed.

End TraceFacts.

Module TraceWitnesses.
Import Fake Scenarios.

(** The one-way theorem on scenario C. *)
Lemma sync_is_one_way_witness :
  exists calls,
    trace (snd (default (None, start []) (Main (proc scriptC) 1 cfgC (start [])))) =
      trace (start []) ++ calls /\
    Forall (fun c => one_way c = true) calls /\
    (forall c, c ∈ calls ->
               ~ (remote c = Nextcloud /\ (op c = OpUploadFile \/ op c = OpCreateFolder)) /\
               ~ (remote c = Yandex /\ op c = OpDownloadFile)).
Proof.
  apply (sync_is_one_way (proc scriptC) 1 cfgC (start []) _ None).
  vm_compute. reflexivity.
Defined.

End TraceWitnesses.

(** ** A destination that is up to date *)

Section UpToDate.

Context {W : Type} (p : Processor W).





End UpToDate.

Module UpToDateFacts.
Import Fake Scenarios.


End UpToDateFacts.

(** ** The snapshot builders *)

Section Snapshots.

Context {W : Type} (p : Processor W).

Lemma filter_bool_cons {A : Type} (f : A -> bool) (x : A) (l : list A) :
  filter f (x :: l) = if f x then x :: filter f l else filter f l.
Proof. rewrite filter_cons. destruct (f x); reflexivity. Qed.

(** The loop over the entries of a listing, when every recursive call
    that returns a folder returns it with the path asked for and with
    its listings in the trace. *)
Lemma entries_snapshot (r : Remote)
      (recurse : string -> State W -> option (result Folder * State W)) :
  (forall path st st' sub,
      recurse path st = Some (inl sub, st') ->
      Path sub = path /\
      trace st' = trace st ++ map (listing r true) (folderPaths sub)) ->
  forall (files : list FileInfo) (folder t : Folder) (st st' : State W),
    getFileSystem_entries recurse files folder st = Some (inl t, st') ->
    exists subs,
      Path t = Path folder /\ Modified t = Modified folder /\
      Files t = Files folder ++ map fileOf (filter (fun f => negb (IsDir f)) files) /\
      Folders t = Folders folder ++ subs /\
      map Path subs = map InfoPath (filter IsDir files) /\
      trace st' = trace st ++ map (listing r true) (concat (map folderPaths subs)).
Proof.
  intros Hrec. induction files as [|f files IH]; intros folder t st st'; simpl.
  - intros [= <- <-]. exists []. simpl. rewrite !app_nil_r. repeat split.
  - destruct (IsDir f) eqn:D; simpl.
    + destruct (recurse (InfoPath f) st) as [[[sub|e] st1]|] eqn:R; try discriminate.
      destruct (Hrec _ _ _ _ R) as (Hp & Ht).
      intros H. destruct (IH _ _ _ _ H) as (subs & A & B & C & E & F & G).
      simpl in A, B, C, E. exists (sub :: subs).
      rewrite !filter_bool_cons, D. simpl negb. cbv iota.
      split; [exact A|]. split; [exact B|]. split; [exact C|].
      split; [rewrite E, <- app_assoc; reflexivity|].
      split; [simpl; rewrite Hp, F; reflexivity|].
      rewrite G, Ht. simpl. rewrite map_app, app_assoc. reflexivity.
    + intros H. destruct (IH _ _ _ _ H) as (subs & A & B & C & E & F & G).
      simpl in A, B, C, E. exists subs.
      rewrite !filter_bool_cons, D. simpl negb. cbv iota. simpl map.
      split; [exact A|]. split; [exact B|].
      split; [rewrite C, <- app_assoc; reflexivity|].
      split; [exact E|]. split; [exact F | exact G].
Qed.

Lemma getFileSystem_snapshot (r : Remote) (depth : nat) :
  forall (rootPath : string) (st st' : State W) (t : Folder),
    getFileSystem p r depth rootPath st = Some (inl t, st') ->
    Path t = rootPath /\
    trace st' = trace st ++ map (listing r true) (folderPaths t).
Proof.
  induction depth as [|d IH]; intros rootPath st st' t; simpl; [discriminate|].
  unfold callListFiles. destruct (ListFiles _ _ _) as [[files|e] w]; [|discriminate].
  intros H.
  destruct (entries_snapshot r (getFileSystem p r d) IH _ _ _ _ _ H)
    as (subs & A & _ & _ & E & _ & G).
  simpl in A, E, G. split; [exact A|].
  destruct t as [pth m fs ds]. simpl in *. subst pth ds.
  rewrite G, <- app_assoc. reflexivity.
Qed.

(** A snapshot that is returned has the path that was asked for, and the
    calls of its construction are the listings of its folders, each
    folder once, a folder before its subfolders and the subfolders in
    the order of the listing: all of them succeeded. *)
Theorem snapshot_lists_each_folder_once (r : Remote) (depth : nat) (rootPath : string)
        (st st' : State W) (t : Folder) :
  getFileSystem p r depth rootPath st = Some (inl t, st') ->
  Path t = rootPath /\
  trace st' = trace st ++ map (listing r true) (folderPaths t) /\
  stats st' = stats st.
Proof.
  intros H. destruct (getFileSystem_snapshot r depth _ _ _ _ H) as [A B].
  split; [exact A|]. split; [exact B|].
  clear A B. revert rootPath st st' t H.
  assert (G : forall res rootPath (st st' : State W),
             getFileSystem p r depth rootPath st = Some (res, st') -> stats st' = stats st).
  { induction depth as [|d IH]; intros res rootPath st st'; simpl; [discriminate|].
    unfold callListFiles. destruct (ListFiles _ _ _) as [[files|e] w];
      [|intros [= _ <-]; reflexivity].
    generalize (emptyFolder rootPath).
    change (stats st) with (stats (logged r OpListFiles rootPath (is_ok (inl files)) w st)).
    generalize (logged r OpListFiles rootPath (is_ok (inl files)) w st).
    induction files as [|f files IHf]; intros st1 folder; simpl.
    - intros [= _ <-]. reflexivity.
    - destruct (IsDir f); [|apply IHf].
      destruct (getFileSystem p r d (InfoPath f) st1) as [[[sub|e] st2]|] eqn:R;
        try discriminate.
      + intros H. rewrite (IHf _ _ H). exact (IH _ _ _ _ R).
      + intros [= _ <-]. exact (IH _ _ _ _ R). }
  intros rootPath st st' t H. exact (G _ _ _ _ H).
Qed.

(** The children of the root of a snapshot are the entries of the
    listing of the root, in the order of the listing: the entries that
    are no directories as files, with their paths and modification
    times, the directories as subfolders, with their paths. *)
Theorem snapshot_children (r : Remote) (depth : nat) (rootPath : string)
        (st st' : State W) (t : Folder) (files : list FileInfo) (w : W) :
  ListFiles (client p r) rootPath (world st) = (inl files, w) ->
  getFileSystem p r depth rootPath st = Some (inl t, st') ->
  Files t = map fileOf (filter (fun f => negb (IsDir f)) files) /\
  map Path (Folders t) = map InfoPath (filter IsDir files) /\
  Modified t = zeroTime.
Proof.
  intros L. destruct depth as [|d]; simpl; [discriminate|].
  unfold callListFiles. rewrite L. intros H.
  destruct (entries_snapshot r (getFileSystem p r d) (getFileSystem_snapshot r d) _ _ _ _ _ H)
    as (subs & _ & B & C & E & F & _).
  simpl in B, C, E. rewrite E. repeat split; assumption.
Qed.

(** A snapshot stops at the first listing that fails: the failed listing
    is the last call, every call before it is a listing that succeeded,
    and the error returned is the error of that listing, as the remote
    gave it. *)
Theorem snapshot_stops_at_first_failure (r : Remote) (depth : nat) :
  forall (rootPath : string) (st st' : State W) (e : error),
    getFileSystem p r depth rootPath st = Some (inr e, st') ->
    exists (calls : list Call) (path : string) (w : W),
      trace st' = trace st ++ calls ++ [listing r false path] /\
      Forall (fun c => c = listing r true (target c)) calls /\
      ListFiles (client p r) path w = (inr e, world st').
Proof.
  induction depth as [|d IH]; intros rootPath st st' e; simpl; [discriminate|].
  unfold callListFiles. destruct (ListFiles _ _ _) as [[files|e0] w] eqn:L.
  - generalize (emptyFolder rootPath).
    assert (T : exists calls,
               trace (logged r OpListFiles rootPath (is_ok (inl files)) w st)
               = trace st ++ calls /\
               Forall (fun c => c = listing r true (target c)) calls).
    { exists [listing r true rootPath]. split; [reflexivity | repeat constructor]. }
    revert T. generalize (logged r OpListFiles rootPath (is_ok (inl files)) w st).
    clear L. induction files as [|f files IHf]; intros st1 T folder; simpl; [discriminate|].
    destruct (IsDir f); [|apply IHf; exact T].
    destruct (getFileSystem p r d (InfoPath f) st1) as [[[sub|e1] st2]|] eqn:R;
      try discriminate.
    + apply IHf. destruct T as (calls & T & F).
      destruct (getFileSystem_snapshot r d _ _ _ _ R) as (_ & T2).
      exists (calls ++ map (listing r true) (folderPaths sub)).
      split; [rewrite T2, T, app_assoc; reflexivity|].
      apply Forall_app. split; [exact F|].
      apply Forall_forall. intros c Hc. apply list_elem_of_fmap in Hc.
      destruct Hc as (q & -> & _). reflexivity.
    + intros [= <- <-]. destruct T as (calls & T & F).
      destruct (IH _ _ _ _ R) as (calls2 & q & w2 & T2 & F2 & L2).
      exists (calls ++ calls2), q, w2.
      split; [rewrite T2, T, !app_assoc; reflexivity|].
      split; [apply Forall_app; split; assumption | exact L2].
  - intros [= <- <-]. exists [], rootPath, (world st).
    split; [reflexivity|]. split; [constructor | exact L].
Qed.

End Snapshots.

Module SnapshotFacts.
Import Fake Scenarios.

(** A nested source on the double: [/src] holds a file and the folder
    [/src/in], which holds a file. *)
Example nested_snapshot :
  getFileSystem (proc scriptN) Nextcloud 2 "/src" (start []) =
  Some (inl (mkFolder "/src" zeroTime [mkFile "/src/a.txt" T2]
                      [mkFolder "/src/in" zeroTime [mkFile "/src/in/b.txt" T1] []]),
        mkState (mkWorld [] [])
                [listing Nextcloud true "/src"; listing Nextcloud true "/src/in"]
                zeroStats).
Proof. vm_compute. reflexivity. Qed.

Lemma snapshot_lists_each_folder_once_witness :
  let t := mkFolder "/src" zeroTime [mkFile "/src/a.txt" T2]
                    [mkFolder "/src/in" zeroTime [mkFile "/src/in/b.txt" T1] []] in
  let st' := mkState (mkWorld [] [])
                     [listing Nextcloud true "/src"; listing Nextcloud true "/src/in"]
                     zeroStats in
  Path t = "/src" /\
  trace st' = trace (start []) ++ map (listing Nextcloud true) (folderPaths t) /\
  stats st' = stats (start []).
Proof.
  apply (snapshot_lists_each_folder_once (proc scriptN) Nextcloud 2 "/src" (start [])).
  vm_compute. reflexivity.
Defined.

Lemma snapshot_children_witness :
  let t := mkFolder "/src" zeroTime [mkFile "/src/a.txt" T2]
                    [mkFolder "/src/in" zeroTime [mkFile "/src/in/b.txt" T1] []] in
  let files := [info "/src/a.txt" 2 false T2; info "/src/in" 0 true T1] in
  Files t = map fileOf (filter (fun f => negb (IsDir f)) files) /\
  map Path (Folders t) = map InfoPath (filter IsDir files) /\
  Modified t = zeroTime.
Proof.
  apply (snapshot_children (proc scriptN) Nextcloud 2 "/src" (start [])
                           (mkState (mkWorld [] [])
                                    [listing Nextcloud true "/src";
                                     listing Nextcloud true "/src/in"]
                                    zeroStats)
                           _ _ (mkWorld [] [])).
  - reflexivity.
  - vm_compute. reflexivity.
Defined.

(** The listing of [/src/gone] fails: the snapshot of [/src] is
    abandoned there. *)
Lemma snapshot_stops_at_first_failure_witness :
  exists (calls : list Call) (path : string) (w : World),
    trace (mkState (mkWorld [] [])
                   [listing Nextcloud true "/src"; listing Nextcloud false "/src/gone"]
                   zeroStats)
    = trace (start []) ++ calls ++ [listing Nextcloud false path] /\
    Forall (fun c => c = listing Nextcloud true (target c)) calls /\
    ListFiles (client (proc scriptM) Nextcloud) path w = (inr NotFound, mkWorld [] []).
Proof.
  apply (snapshot_stops_at_first_failure (proc scriptM) Nextcloud 2 "/src" (start [])).
  vm_compute. reflexivity.
Defined.

End SnapshotFacts.

(** ** The folder chain creator: order and failure *)

Section ChainOrder.

Context {W : Type} (p : Processor W).

Lemma created_app (a b : list Call) : created (a ++ b) = created a ++ created b.
Proof. unfold created. rewrite filter_app, map_app. reflexivity. Qed.

Lemma missing_app (a b : list Call) : missing (a ++ b) = missing a ++ missing b.
Proof. unfold missing. rewrite filter_app, map_app. reflexivity. Qed.

(** The runs of the chain creator, by the depth of the recursion: the
    creations attempted are the first of the failed lookups read
    backwards, all of them once the run succeeds, and a run that
    succeeds saw no creation fail. *)
Lemma createFolderChain_rec_order (d : nat) :
  forall (folderPath : string) (st : State W),
  exists calls,
    trace (snd (createFolderChain_rec p d folderPath st)) = trace st ++ calls /\
    (exists rest, rev (missing calls) = created calls ++ rest) /\
    (fst (createFolderChain_rec p d folderPath st) = None ->
     created calls = rev (missing calls) /\ mkdirs_succeeded calls).
Proof.
  induction d as [|d IH]; intros folderPath st; rewrite createFolderChain_rec_eq; cbv zeta;
    set (np := normalizePath folderPath);
    (destruct (String.eqb np "");
     [exists []; rewrite app_nil_r; split; [reflexivity|];
      split; [exists []; reflexivity | intros _; split; [reflexivity | constructor]] |]);
    unfold callGetFileInfo, callCreateFolder;
    destruct (GetFileInfo _ _ _) as [[info|e] w];
    try (exists [mkCall Yandex OpGetFileInfo np true]; split; [reflexivity|];
         split; [exists []; reflexivity
                | intros _; split; [reflexivity | repeat constructor; discriminate]]).
  all: set (st1 := logged Yandex OpGetFileInfo np (is_ok (inr e)) w st).
  all: match goal with
       | |- context [let '(createErr, st2) := ?parent in _] =>
           assert (P : exists calls,
                      trace (snd parent) = trace st1 ++ calls /\
                      (exists rest, rev (missing calls) = created calls ++ rest) /\
                      (fst parent = None ->
                       created calls = rev (missing calls) /\ mkdirs_succeeded calls));
           [ destruct (hasParent _ _);
             [ first [ apply IH
                     | exists []; simpl; rewrite app_nil_r; split; [reflexivity|];
                       split; [exists []; reflexivity | discriminate] ]
             | exists []; simpl; rewrite app_nil_r; split; [reflexivity|];
               split; [exists []; reflexivity
                      | intros _; split; [reflexivity | constructor] ] ]
           | destruct parent as [[pe|] st2] ]
       end.
  all: destruct P as (pcalls & Ht & (rest & Hpre) & Hok); simpl in Ht, Hok.
  all: try (exists (lookup_failed np :: pcalls); split;
            [ simpl; rewrite Ht; subst st1; simpl; rewrite <- app_assoc; reflexivity |];
            split; [|discriminate];
            exists (rest ++ [np]);
            change (lookup_failed np :: pcalls) with ([lookup_failed np] ++ pcalls);
            rewrite missing_app, created_app, rev_app_distr, Hpre, <- app_assoc;
            reflexivity).
  all: destruct (Hok eq_refl) as [Hc Hs];
    destruct (CreateFolder _ _ _) as [err w3];
    exists (([lookup_failed np] ++ pcalls) ++ [mkCall Yandex OpCreateFolder np (is_nil err)]);
    (split; [destruct err; simpl; rewrite Ht; subst st1; simpl;
             rewrite <- !app_assoc; reflexivity |]);
    assert (E : created (([lookup_failed np] ++ pcalls)
                         ++ [mkCall Yandex OpCreateFolder np (is_nil err)])
                = rev (missing (([lookup_failed np] ++ pcalls)
                                ++ [mkCall Yandex OpCreateFolder np (is_nil err)])))
      by (rewrite !missing_app, !created_app, !rev_app_distr, Hc; reflexivity);
    (split; [exists []; rewrite app_nil_r; symmetry; exact E |]);
    destruct err as [e'|]; cbn [fst]; [discriminate|]; intros _;
    (split; [exact E|]);
    apply Forall_app; (split; [|repeat constructor]);
    apply Forall_app; (split; [repeat constructor; discriminate | exact Hs]).
Qed.

(** The folders are created from the top down.  In a run of
    [createFolderChain] the paths that it tries to create are, in order,
    the paths whose lookup failed read backwards, as far as the run
    gets: the lookups go up from the path to the first level that is
    there, the creations come back down.  A run that succeeds has
    created every level whose lookup failed, each once, and none of its
    creations failed. *)
Theorem chain_creates_top_down (folderPath : string) (st : State W) :
  exists calls,
    trace (snd (createFolderChain p folderPath st)) = trace st ++ calls /\
    (exists rest, rev (missing calls) = created calls ++ rest) /\
    (fst (createFolderChain p folderPath st) = None ->
     created calls = rev (missing calls) /\ mkdirs_succeeded calls).
Proof. apply createFolderChain_rec_order. Qed.

End ChainOrder.

Section ChainFailure.

Context {W : Type} (p : Processor W).

Lemma createFolderChain_rec_failure (d : nat) :
  forall (folderPath : string) (st st' : State W) (e : error),
    (String.length (normalizePath folderPath) <= d)%nat ->
    createFolderChain_rec p d folderPath st = (Some e, st') ->
    exists (calls : list Call) (q : string) (e0 : error) (w0 : W),
      trace st' = trace st ++ calls ++ [mkCall Yandex OpCreateFolder q false] /\
      CreateFolder (yandexClient p) q w0 = (Some e0, world st') /\
      root_cause e = root_cause e0 /\
      mkdirs_succeeded calls.
Proof.
  induction d as [|d IH]; intros folderPath st st' e Hlen;
    rewrite createFolderChain_rec_eq; cbv zeta;
    set (np := normalizePath folderPath) in *;
    (destruct (String.eqb np "") eqn:E; [discriminate|]);
    unfold callGetFileInfo;
    (destruct (GetFileInfo _ _ _) as [[info|e1] w]; [discriminate|]);
    set (st1 := logged Yandex OpGetFileInfo np (is_ok (inr e1)) w st);
    destruct (hasParent (path.Dir np) np) eqn:Hp.
  - exfalso. destruct np; [discriminate | simpl in Hlen; lia].
  - unfold callCreateFolder. simpl client.
    destruct (CreateFolder _ _ _) as [[e0|] w3] eqn:C; [|discriminate].
    intros [= <- <-]. exists [lookup_failed np], np, e0, (world st1).
    split; [simpl; rewrite <- app_assoc; reflexivity|].
    split; [exact C|]. split; [reflexivity | repeat constructor; discriminate].
  - pose proof (ChainDepth.Dir_shorter np (ChainDepth.normalizePath_trimmed folderPath) Hp)
      as Hlt.
    pose proof (ChainDepth.normalizePath_length (path.Dir np)) as Hn.
    destruct (createFolderChain_rec p d (path.Dir np) st1) as [[pe|] st2] eqn:R.
    + intros [= <- <-].
      destruct (IH (path.Dir np) st1 st2 pe ltac:(lia) R)
        as (calls & q & e0 & w0 & T & C & RC & S).
      exists (lookup_failed np :: calls), q, e0, w0.
      split; [rewrite T; simpl; rewrite <- app_assoc; reflexivity|].
      split; [exact C|]. split; [exact RC|].
      constructor; [discriminate | exact S].
    + destruct (createFolderChain_rec_order p d (path.Dir np) st1) as (pcalls & T & _ & S).
      rewrite R in T, S. simpl in T. destruct (S eq_refl) as [_ S'].
      unfold callCreateFolder. simpl client.
      destruct (CreateFolder _ _ _) as [[e0|] w3] eqn:C; [|discriminate].
      intros [= <- <-]. exists (lookup_failed np :: pcalls), np, e0, (world st2).
      split; [simpl; rewrite T; simpl; rewrite <- !app_assoc; reflexivity|].
      split; [exact C|]. split; [reflexivity|].
      constructor; [discriminate | exact S'].
  - unfold callCreateFolder. simpl client.
    destruct (CreateFolder _ _ _) as [[e0|] w3] eqn:C; [|discriminate].
    intros [= <- <-]. exists [lookup_failed np], np, e0, (world st1).
    split; [simpl; rewrite <- app_assoc; reflexivity|].
    split; [exact C|]. split; [reflexivity | repeat constructor; discriminate].
Qed.

(** The chain creator fails for one reason only: a [CreateFolder] that
    failed.  That call is the last of the run, no creation before it
    failed, and the error returned wraps the error of that call, whose
    cause it keeps.  A lookup that fails, for whatever reason, is never
    reported: it only says that the level is missing. *)
Theorem chain_fails_on_create_only (folderPath : string) (st st' : State W) (e : error) :
  createFolderChain p folderPath st = (Some e, st') ->
  exists (calls : list Call) (q : string) (e0 : error) (w0 : W),
    trace st' = trace st ++ calls ++ [mkCall Yandex OpCreateFolder q false] /\
    CreateFolder (yandexClient p) q w0 = (Some e0, world st') /\
    root_cause e = root_cause e0 /\
    mkdirs_succeeded calls.
Proof.
  apply createFolderChain_rec_failure.
  apply ChainDepth.normalizePath_length.
Qed.

End ChainFailure.

Module ChainOrderFacts.
Import Fake Scenarios.

(** The creation of [dest/bad] is scripted to fail while [dest] is
    there. *)
Lemma chain_fails_on_create_only_witness :
  exists (calls : list Call) (q : string) (e0 : error) (w0 : World),
    [lookup_failed "dest/bad";
     mkCall Yandex OpGetFileInfo "dest" true;
     mkCall Yandex OpCreateFolder "dest/bad" false]
    = trace (start ["dest"]) ++ calls ++ [mkCall Yandex OpCreateFolder q false] /\
    CreateFolder (yandexClient (proc scriptP)) q w0 = (Some e0, mkWorld ["dest"] []) /\
    root_cause (Errorf "failed to create folder dest/bad" RemoteUnavailable) = root_cause e0 /\
    mkdirs_succeeded calls.
Proof.
  apply (chain_fails_on_create_only
           (proc scriptP) "/dest/bad" (start ["dest"])
           (mkState (mkWorld ["dest"] [])
                    [lookup_failed "dest/bad";
                     mkCall Yandex OpGetFileInfo "dest" true;
                     mkCall Yandex OpCreateFolder "dest/bad" false]
                    zeroStats)).
  vm_compute. reflexivity.
Defined.

(** A chain of three missing levels: lookups upwards, creations
    downwards. *)
Example chain_three_levels :
  let st := snd (createFolderChain (proc noScript) "x/y/z" (start [])) in
  missing (trace st) = ["x/y/z"; "x/y"; "x"] /\
  created (trace st) = ["x"; "x/y"; "x/y/z"].
Proof. vm_compute. split; reflexivity. Qed.

End ChainOrderFacts.

(** ** The lookup maps: the last entry of a name wins *)

Section LastWins.

Lemma fold_insert_other {V : Type} (key : V -> string) (l : list V)
      (m : gmap string V) (n : string) :
  (forall v, v ∈ l -> key v <> n) ->
  fold_left (fun (m : gmap string V) v => <[key v := v]> m) l m !! n = m !! n.
Proof.
  revert m. induction l as [|a l IH]; intros m H; simpl; [reflexivity|].
  rewrite IH by (intros v Hv; apply H; right; exact Hv).
  apply lookup_insert_ne. apply H. left.
Qed.

Lemma fold_insert_last {V : Type} (key : V -> string) (before after : list V) (v : V) :
  (forall u, u ∈ after -> key u <> key v) ->
  fold_left (fun (m : gmap string V) v => <[key v := v]> m) (before ++ v :: after) ∅
  !! key v = Some v.
Proof.
  intros H. rewrite fold_left_app. simpl.
  rewrite fold_insert_other by exact H. apply lookup_insert_eq.
Qed.

(** When the destination folder lists several entries of one base name,
    the map keeps the last of them: it is the last listed file of that
    name that a source file is compared with, and the last listed folder
    of that name that a source subfolder is reconciled against. *)
Theorem destination_maps_last_wins :
  (forall (before after : list File) (y : File),
      (forall u, u ∈ after -> path.Base (FilePath u) <> path.Base (FilePath y)) ->
      filesByName (before ++ y :: after) !! path.Base (FilePath y) = Some y) /\
  (forall (before after : list Folder) (y : Folder),
      (forall u, u ∈ after -> path.Base (Path u) <> path.Base (Path y)) ->
      foldersByName (before ++ y :: after) !! path.Base (Path y) = Some y) /\
  (forall (before after : list File) (y ncFile : File),
      path.Base (FilePath y) = decodeName (path.Base (FilePath ncFile)) ->
      (forall u, u ∈ after -> path.Base (FilePath u) <> path.Base (FilePath y)) ->
      needsSync (filesByName (before ++ y :: after)) ncFile
      = After (FileModified ncFile) (FileModified y)).
Proof.
  split; [|split].
  - intros before after y H.
    apply (fold_insert_last (fun f => path.Base (FilePath f))). exact H.
  - intros before after y H.
    apply (fold_insert_last (fun f => path.Base (Path f))). exact H.
  - intros before after y ncFile Hk H. unfold needsSync. rewrite <- Hk.
    unfold filesByName.
    rewrite (fold_insert_last (fun f => path.Base (FilePath f)) before after y H).
    reflexivity.
Qed.

(** Two destination files named [a.txt]: the later one decides. *)
Example last_wins_example :
  needsSync (filesByName [mkFile "/dest/a.txt" 100; mkFile "/dest/x/../a.txt" 300])
            (mkFile "/src/a.txt" 200) = false /\
  needsSync (filesByName [mkFile "/dest/x/../a.txt" 300; mkFile "/dest/a.txt" 100])
            (mkFile "/src/a.txt" 200) = true.
Proof. vm_compute. split; reflexivity. Qed.

End LastWins.

(** ** The subfolder of a sync path *)

Module SubfolderNames.
Import GoString.






(** The name need not be a plain name: a sync path that ends in [".."]
    is synced into the parent of the target folder. *)
Example subfolder_dotdot :
  targetPathFor Scenarios.cfgC "/a/.." = "/backup/..".
Proof. reflexivity. Qed.

End SubfolderNames.

(** ** The statistics that [Main] reports *)

Section ReportedStats.

Context {W : Type} (p : Processor W).

Lemma wrap_int_add_l (a b : Z) : wrap_int (wrap_int a + b) = wrap_int (a + b).
Proof.
  unfold wrap_int. f_equal.
  replace ((a + 2 ^ 63) mod 2 ^ 64 - 2 ^ 63 + b + 2 ^ 63)
    with ((a + 2 ^ 63) mod 2 ^ 64 + b) by lia.
  rewrite Zplus_mod_idemp_l. f_equal. lia.
Qed.

Lemma balanced_file_step (yandexFiles : gmap string File) (base : string)
      (st : State W) (ncFile : File) :
  stats_balanced (stats st) ->
  stats_balanced (stats (syncFolders_file p yandexFiles base st ncFile)).
Proof.
  unfold stats_balanced. intros H. rewrite syncFolders_file_eq.
  assert (B : forall x y z : Z,
             incr (wrap_int (x + y + z)) = wrap_int (incr x + y + z) /\
             incr (wrap_int (x + y + z)) = wrap_int (x + incr y + z) /\
             incr (wrap_int (x + y + z)) = wrap_int (x + y + incr z)).
  { intros x y z. unfold incr. rewrite wrap_int_add_l.
    replace (wrap_int (x + 1) + y + z) with (wrap_int (x + 1) + (y + z)) by lia.
    replace (x + wrap_int (y + 1) + z) with (wrap_int (y + 1) + (x + z)) by lia.
    replace (x + y + wrap_int (z + 1)) with (wrap_int (z + 1) + (x + y)) by lia.
    rewrite !wrap_int_add_l. repeat split; f_equal; lia. }
  destruct (needsSync _ _).
  - pose proof (syncFile_stats p (FilePath ncFile) base (path.Base (FilePath ncFile))
                               (withStats incTotal st)) as S.
    destruct (syncFile _ _ _ _ _) as [[e|] st']; simpl in *; rewrite S; simpl; rewrite H;
      apply B.
  - simpl. rewrite H. apply B.
Qed.

Lemma balanced_syncFolders (ncFolder : Folder) :
  forall (yandexFolder : Folder) (base : string) (st : State W),
    stats_balanced (stats st) ->
    stats_balanced (stats (snd (syncFolders p ncFolder yandexFolder base st))).
Proof.
  induction ncFolder as [pth m files folders IH] using Folder_ind.
  intros ya base st H. rewrite syncFolders_eq. cbn [snd Files Folders].
  assert (H1 : stats_balanced
                 (stats (fold_left (syncFolders_file p (filesByName (Files ya)) base)
                                   files st))).
  { revert st H. induction files as [|f files IHf]; intros st H; simpl; [exact H|].
    apply IHf, balanced_file_step, H. }
  revert H1. generalize (fold_left (syncFolders_file p (filesByName (Files ya)) base) files st).
  induction IH as [|sub rest Hsub _ IHrest]; intros st1 H1; simpl; [exact H1|].
  apply IHrest. unfold syncFolders_subfolder.
  destruct (_ !! _) as [ySub|]; [apply Hsub, H1|].
  pose proof (createFolderChain_stats p (base ++ "/" ++ decodeName (path.Base (Path sub))) st1)
    as Hc.
  destruct (createFolderChain p _ st1) as [[e|] st']; simpl in Hc.
  - rewrite Hc. exact H1.
  - apply Hsub. rewrite Hc. exact H1.
Qed.

Lemma getFileSystem_stats (r : Remote) (depth : nat) :
  forall (res : result Folder) (rootPath : string) (st st' : State W),
    getFileSystem p r depth rootPath st = Some (res, st') -> stats st' = stats st.
Proof.
  induction depth as [|d IH]; intros res rootPath st st'; simpl; [discriminate|].
  unfold callListFiles. destruct (ListFiles _ _ _) as [[files|e] w];
    [|intros [= _ <-]; reflexivity].
  generalize (emptyFolder rootPath).
  change (stats st) with (stats (logged r OpListFiles rootPath (is_ok (inl files)) w st)).
  generalize (logged r OpListFiles rootPath (is_ok (inl files)) w st).
  induction files as [|f files IHf]; intros st1 folder; simpl.
  - intros [= _ <-]. reflexivity.
  - destruct (IsDir f); [|apply IHf].
    destruct (getFileSystem p r d (InfoPath f) st1) as [[[sub|e] st2]|] eqn:R;
      try discriminate.
    + intros H. rewrite (IHf _ _ H). exact (IH _ _ _ _ R).
    + intros [= _ <-]. exact (IH _ _ _ _ R).
Qed.

(** The counts that [Main] reports add up.  At the end of a run that
    did not end fatally, [TotalFiles] is the sum of [UploadedFiles],
    [SkippedFiles] and [ErrorFiles] in the arithmetic of [int]: every
    file that was counted was counted in exactly one of the three,
    whatever the statistics held before the run and whatever failed
    during it. *)
Theorem reported_stats_add_up (depth : nat) (cfg : Config) (st st' : State W) :
  Main p depth cfg st = Some (None, st') ->
  stats_balanced (stats st').
Proof.
  assert (One : forall yndxFs sp (st st' : State W),
             Main_syncPath p depth cfg yndxFs sp st = Some st' ->
             stats_balanced (stats st) -> stats_balanced (stats st')).
  { intros yndxFs sp s s'.
    unfold Main_syncPath, getNextcloudFileSystem, getYandexFileSystem.
    destruct (getFileSystem p Nextcloud depth sp s) as [[[ncFs|e] s1]|] eqn:G1;
      [| |discriminate]; apply getFileSystem_stats in G1.
    - destruct (String.eqb _ _).
      + intros [= <-] H. apply balanced_syncFolders. rewrite G1. exact H.
      + destruct (getFileSystem p Yandex depth _ s1) as [[[ex|e] s2]|] eqn:G2;
          [| |discriminate]; apply getFileSystem_stats in G2.
        * intros [= <-] H. apply balanced_syncFolders. rewrite G2, G1. exact H.
        * unfold callCreateFolder. destruct (CreateFolder _ _ _) as [[e'|] w];
            intros [= <-] H.
          -- simpl. rewrite G2, G1. exact H.
          -- apply balanced_syncFolders. simpl. rewrite G2, G1. exact H.
    - intros [= <-] H. rewrite G1. exact H. }
  assert (Loop : forall yndxFs sps (st st' : State W),
             Main_loop p depth cfg yndxFs sps st = Some st' ->
             stats_balanced (stats st) -> stats_balanced (stats st')).
  { intros yndxFs sps. induction sps as [|sp rest IH]; intros s s'; simpl.
    - intros [= <-] H. exact H.
    - destruct (Main_syncPath p depth cfg yndxFs sp s) as [s1|] eqn:S1; [|discriminate].
      intros L H. exact (IH _ _ L (One _ _ _ _ S1 H)). }
  unfold Main, getYandexFileSystem.
  destruct (Nat.eqb _ 0); [discriminate|].
  destruct (getFileSystem p Yandex depth _ st) as [[[fs|e] st1]|]; [| |discriminate].
  - destruct (Main_loop p depth cfg fs _ _) as [st2|] eqn:L; [|discriminate].
    intros [= <-]. apply (Loop _ _ _ _ L). reflexivity.
  - destruct (createFolderChain p _ st1) as [[e'|] st2]; [discriminate|].
    destruct (Main_loop p depth cfg _ _ _) as [st3|] eqn:L; [|discriminate].
    intros [= <-]. apply (Loop _ _ _ _ L). reflexivity.
Qed.

End ReportedStats.

Module ReportedStatsFacts.
Import Fake Scenarios.

Lemma reported_stats_add_up_witness :
  stats_balanced (mkSyncStats 2 2 0 0).
Proof.
  apply (reported_stats_add_up
           (proc scriptC) 1 cfgC (start [])
           (mkState (mkWorld ["/backup/docs"; "/backup/photos"]
                             [("/backup/docs/a.txt", "aa"); ("/backup/photos/b.jpg", "bbb")])
                    (trace (snd (default (None, start [])
                                         (Main (proc scriptC) 1 cfgC (start [])))))
                    (mkSyncStats 2 2 0 0))).
  vm_compute. reflexivity.
Defined.

End ReportedStatsFacts.

(** ** The Nextcloud client: listings and lookups *)

Section NextcloudClientFacts.

Context {W : Type}.

Variable propfind : string -> W -> result clients.Response * W.

Variable xmlUnmarshal : string -> result (list clients.NextcloudFileInfo).

Lemma strip_prefix_app (prefix rest : string) :
  clients.strip_prefix prefix (prefix ++ rest)%string = Some rest.
Proof.
  induction prefix as [|c prefix IH].
  - destruct rest; reflexivity.
  - change (String c prefix ++ rest)%string with (String c (prefix ++ rest)%string).
    cbn [clients.strip_prefix]. rewrite Ascii.eqb_refl. exact IH.
Qed.

Lemma TrimPrefix_app (prefix rest : string) :
  clients.TrimPrefix (prefix ++ rest)%string prefix = rest.
Proof. unfold clients.TrimPrefix. rewrite strip_prefix_app. reflexivity. Qed.

Lemma ListFiles_loop_from (nc : clients.NextcloudClient) :
  forall (responses : list clients.NextcloudFileInfo) (i : nat) (files : list FileInfo),
    clients.ListFiles_loop nc (S i) responses files
    = files ++ map (clients.toFileInfo nc) responses.
Proof.
  induction responses as [|r rest IH]; intros i files; cbn [clients.ListFiles_loop map].
  - rewrite app_nil_r. reflexivity.
  - cbn [Nat.eqb]. rewrite IH, <- app_assoc. reflexivity.
Qed.

Lemma ListFiles_loop_tail (nc : clients.NextcloudClient)
      (responses : list clients.NextcloudFileInfo) :
  clients.ListFiles_loop nc 0 responses [] = map (clients.toFileInfo nc) (tl responses).
Proof.
  destruct responses as [|r rest]; [reflexivity|].
  cbn [clients.ListFiles_loop Nat.eqb tl]. apply ListFiles_loop_from.
Qed.

(** A listing is the multistatus document without its first response.
    Whenever the request comes back with a response, whatever its status
    code, and the body decodes, [ListFiles] succeeds; it gives one entry
    for every response after the first, in the order of the document, and
    none for the first, whatever that one describes.  An entry whose href
    lies under the WebDAV prefix of the user has the rest of the href as
    its path, undecoded, and is a directory exactly when the response
    carries a collection. *)
Theorem listing_skips_first_response
        (nc : clients.NextcloudClient) (folderPath : string) (w w' : W)
        (resp : clients.Response) (responses : list clients.NextcloudFileInfo) :
  propfind (clients.webdavURL nc folderPath) w = (inl resp, w') ->
  xmlUnmarshal (clients.Body resp) = inl responses ->
  exists files : list FileInfo,
    clients.ListFiles propfind xmlUnmarshal nc folderPath w = (inl files, w') /\
    length files = (length responses - 1)%nat /\
    forall (i : nat) (r : clients.NextcloudFileInfo),
      responses !! S i = Some r ->
      exists f : FileInfo,
        files !! i = Some f /\
        Name f = clients.DisplayName r /\
        Size f = clients.GetContentLength r /\
        ModTime f = clients.GetLastModified r /\
        (IsDir f = true <-> clients.Collection r <> None) /\
        forall rest : string,
          clients.Href r = (clients.davFiles ++ clients.Username nc ++ rest)%string ->
          InfoPath f = rest.
Proof.
  intros Hreq Hxml. exists (map (clients.toFileInfo nc) (tl responses)).
  split; [|split].
  - unfold clients.ListFiles. rewrite Hreq, Hxml, ListFiles_loop_tail. reflexivity.
  - rewrite length_map. destruct responses; simpl; lia.
  - intros i r Hr. exists (clients.toFileInfo nc r).
    destruct responses as [|r0 rest]; [discriminate|]. cbn [tl].
    change ((r0 :: rest) !! S i) with (rest !! i) in Hr.
    rewrite list_lookup_fmap, Hr. repeat split; try reflexivity.
    + cbn [clients.toFileInfo IsDir]. destruct (clients.Collection r); [discriminate|].
      discriminate.
    + cbn [clients.toFileInfo IsDir]. destruct (clients.Collection r); [reflexivity|].
      intros C. destruct (C eq_refl).
    + intros tail Hh. cbn [clients.toFileInfo InfoPath]. rewrite Hh.
      rewrite <- (TrimPrefix_app (clients.davFiles ++ clients.Username nc) tail) at 2.
      f_equal.
Qed.

Lemma GetFileInfo_loop_Some (fileName : string) :
  forall (files : list FileInfo) (file : FileInfo),
    clients.GetFileInfo_loop fileName files = Some file <->
    exists before after : list FileInfo,
      files = before ++ file :: after /\
      Forall (fun g => path.Base (InfoPath g) <> fileName) before /\
      path.Base (InfoPath file) = fileName.
Proof.
  induction files as [|g files IH]; intros file; cbn [clients.GetFileInfo_loop].
  - split; [discriminate|]. intros (before & after & E & _). destruct before; discriminate.
  - destruct (String.eqb_spec (path.Base (InfoPath g)) fileName) as [E|N].
    + split.
      * intros [= <-]. exists [], files. repeat split; [constructor|exact E].
      * intros (before & after & Hs & Hb & Hf). destruct before as [|b before].
        -- injection Hs as -> _. reflexivity.
        -- injection Hs as -> _. inversion Hb; subst. contradiction.
    + rewrite IH. split.
      * intros (before & after & -> & Hb & Hf). exists (g :: before), after.
        repeat split; [constructor; assumption|exact Hf].
      * intros (before & after & Hs & Hb & Hf). destruct before as [|b before].
        -- injection Hs as -> _. contradiction.
        -- injection Hs as -> ->. exists before, after.
           inversion Hb; subst. repeat split; assumption.
Qed.

Lemma GetFileInfo_loop_None (fileName : string) (files : list FileInfo) :
  clients.GetFileInfo_loop fileName files = None <->
  Forall (fun g => path.Base (InfoPath g) <> fileName) files.
Proof.
  induction files as [|g files IH]; cbn [clients.GetFileInfo_loop].
  - split; [constructor|reflexivity].
  - destruct (String.eqb_spec (path.Base (InfoPath g)) fileName) as [E|N].
    + split; [discriminate|]. intros F. inversion F; subst. contradiction.
    + rewrite IH. split.
      * intros F. constructor; assumption.
      * intros F. inversion F; assumption.
Qed.

(** A lookup is one listing of the parent folder and a search by base
    name.  [GetFileInfo] lists [path.Dir] of the path, once.  When that
    listing fails, its error is returned as it is.  Otherwise the result
    is the first entry of the listing whose path has the base name of the
    path asked for, wherever that entry lies; and the lookup fails with
    [file not found], naming the path, exactly when no entry has that base
    name.  In both cases the world is the one the listing left. *)
Theorem lookup_is_first_match_of_parent_listing
        (nc : clients.NextcloudClient) (filePath : string) (w : W) :
  let run := clients.GetFileInfo propfind xmlUnmarshal nc filePath w in
  let differs := fun g : FileInfo => path.Base (InfoPath g) <> path.Base filePath in
  match clients.ListFiles propfind xmlUnmarshal nc (path.Dir filePath) w with
  | (inr err, w') => run = (inr err, w')
  | (inl files, w') =>
      snd run = w' /\
      (forall file : FileInfo,
          fst run = inl file <->
          exists before after : list FileInfo,
            files = before ++ file :: after /\
            Forall differs before /\
            path.Base (InfoPath file) = path.Base filePath) /\
      (fst run = inr (ErrorNew ("file not found: " ++ filePath)) <-> Forall differs files) /\
      (is_ok (fst run) = false -> fst run = inr (ErrorNew ("file not found: " ++ filePath)))
  end.
Proof.
  cbv zeta. unfold clients.GetFileInfo.
  destruct (clients.ListFiles propfind xmlUnmarshal nc (path.Dir filePath) w)
    as [[files|err] w']; [|reflexivity].
  pose proof (GetFileInfo_loop_Some (path.Base filePath) files) as HS.
  pose proof (GetFileInfo_loop_None (path.Base filePath) files) as HN.
  destruct (clients.GetFileInfo_loop (path.Base filePath) files) as [found|];
    cbn [fst snd]; repeat split.
  - intros [= <-]. apply HS. reflexivity.
  - intros H. apply HS in H. congruence.
  - discriminate.
  - intros F. apply HN in F. discriminate.
  - discriminate.
  - discriminate.
  - intros H. apply HS in H. discriminate.
  - intros _. apply HN. reflexivity.
Qed.

End NextcloudClientFacts.

Module NextcloudClientExamples.
Import Scenarios.

Lemma listing_skips_first_response_witness :
  exists files : list FileInfo,
    clients.ListFiles echo404 decodeDocs alice "/docs" 0%nat = (inl files, 1%nat) /\
    length files = 3%nat /\
    map InfoPath files = ["/docs/a%20b.txt"; "/docs/sub/"; "/docs/sub/../a%20b.txt"] /\
    map IsDir files = [false; true; false].
Proof.
  destruct (listing_skips_first_response
              echo404 decodeDocs alice "/docs" 0%nat 1%nat
              (clients.mkResponse 404 "https://cloud.example/remote.php/dav/files/alice/docs")
              docsResponses eq_refl eq_refl) as (files & E & L & _).
  exists files. split; [exact E|]. split; [exact L|].
  vm_compute in E. injection E as <-. split; reflexivity.
Defined.

(** The size that [syncFile] gets for a file is the content length of the
    first entry with the file's base name in the listing of its folder. *)
Example lookup_of_a_listed_file :
  clients.GetFileInfo echo404 decodeDocs alice "/docs/a%20b.txt" 0%nat
  = (inl (mkFileInfo "a b.txt" "/docs/a%20b.txt" 5 false T1 "abc" "text/plain" ""), 1%nat).
Proof. vm_compute. reflexivity. Qed.

(** Only the base name counts: a path in another folder with the same
    parent after cleaning finds the same entry. *)
Example lookup_by_base_name_only :
  fst (clients.GetFileInfo echo404 decodeDocs alice "/docs/x/../a%20b.txt" 0%nat)
  = fst (clients.GetFileInfo echo404 decodeDocs alice "/docs/a%20b.txt" 0%nat).
Proof. vm_compute. reflexivity. Qed.

Example lookup_of_a_missing_file :
  clients.GetFileInfo echo404 decodeDocs alice "/docs/none.txt" 0%nat
  = (inr (ErrorNew "file not found: /docs/none.txt"), 1%nat).
Proof. vm_compute. reflexivity. Qed.

Example lookup_keeps_listing_error :
  clients.GetFileInfo echo404 decodeDocs alice "/other/a.txt" 0%nat
  = (inr (Errorf "failed to parse response" (ErrorNew "EOF")), 1%nat).
Proof. vm_compute. reflexivity. Qed.

End NextcloudClientExamples.
